(* ===== verification/_CoqProject ===== *)
-Q . S2P
Prelude.v
Json.v
PyRuntime.v
Schema.v
Worker.v
Skills.v
Iob.v
Mcp.v
ApiSchema.v
Http.v
Deployment.v
