(* ===== verification/Prelude.v ===== *)
(** * Ocean Sentinel stack: a verification development

    This library models the Python sources of the Ocean Sentinel stack and
    proves what makes them correct, or where they are not.  The program has
    three services and four skills:

    - the worker ([src/services/worker/worker.py]) is the skill execution
      runtime.  [main] lists the skills directory, sorts it, skips
      non-directories and names starting with ["_"], and for each skill
      folder runs [load_skill] (metadata, two schemas, dynamic import of
      [run.py]).  When the folder holds [sample.input.json] it validates the
      sample against the input schema, calls [mod.run], validates the result
      against the output schema and writes [sample_output_<id>.json] under
      the results directory.  Every [Exception] is caught per folder and
      printed.  The worker then idles forever;
    - the API ([src/services/api/app/main.py]) computes the IOB level from
      three saturation readings ([compute_iob]) and builds the IOB card from
      database rows ([iob_card], [_get_iob_card_copy]);
    - the MCP gateway ([src/services/mcp/app/main.py]) guards two read-only
      endpoints with an admin token ([require_admin]);
    - the skills ([src/skills/*/run.py]) are the compute units the worker
      loads: [compute_indices], [anti_hallucination_check], [rag_ingest],
      [export_report].

    ** Files, in dependency order

    - [Prelude] (this file): the [ocean_scope] notations (the path join
      [p </> q] of pathlib), the proof automation (hint database [ocean],
      tactics [invc] and [case_match_eq]), and the ordering of file names used
      by [sorted(...)]: [String.leb] is a total order, and insertion sort
      yields a sorted permutation that does not depend on the listing order.
    - [Json]: JSON values as Python's [json]/[yaml] modules return them
      (objects as association lists), a nested induction principle, decidable
      equality, and Python's [d[k]] / [d.get(k, default)] with their
      [KeyError] and [TypeError] paths.
    - [PyRuntime]: the Python execution model the worker runs in: exception
      classes with the [Exception]/[BaseException] split, a world holding the
      file system (a [gmap] of file contents and a [gset] of directories)
      and stdout, the [py] monad (state, exceptions, divergence) with its
      laws, [try ... except Exception], [Path.read_text], [Path.write_text],
      [Path.exists], [Path.is_dir], [Path.iterdir], [print], the [Runtime]
      class that states what the libraries the worker only calls
      ([yaml.safe_load], [json.loads], [json.dumps], [importlib],
      [jsonschema.validate]) provide, [py_returns] (a computation that
      returns or raises from every world) with one lemma per primitive, and
      [str(Path(s))] ([py_normpath]: doubled and trailing separators and [.]
      parts removed, [//] kept as a root only when exactly two slashes lead,
      [.] for the empty path), proved idempotent.
    - [Schema]: the subset of JSON Schema the skill contracts use ([type],
      [enum], [required], [properties], [items], boolean schemas), modelled
      from spec 4.1 because [jsonschema] is outside [src/]; it is one
      validator the [Runtime] class admits, not an assumption of [Worker].
    - [Worker]: [load_skill], the body of the [for] loop of [main], the loop,
      [main] up to its idle loop ([main_bootstrap]), and [main] as a step
      relation over the phases [Starting -> Discovering -> Executing* ->
      Idle] (with [Crashed] and [Stalled]) whose [Idle] step is the
      [while True: time.sleep(3600)] loop.  Its contract theorems are
      stated for a [Runtime] whose validator is the [Schema] model.
    - [Skills]: the [run] functions of [compute_indices] (binary64
      arithmetic with primitive floats, Python's [min]/[max], int-to-float
      conversion), [anti_hallucination_check], [rag_ingest] (its
      [hashlib.sha1] digest is a section parameter) and [export_report]
      (the markdown lines in Python's evaluation order, the [mkdir] of the
      parent and the write at [str(Path(output_path))]), each in its own [Module],
      as [json -> py json]; Python's iteration and truth value are shared.
    - [Iob]: the API of [src/services/api/app/main.py]: [compute_iob],
      [_get_iob_card_copy], [_database_url], [_ensure_aware_utc], [health],
      [root] and the [iob_card] handler.  The database is a list of rows of
      [public.indicators]; the three SQL queries are Rocq functions with
      Postgres' semantics ([ORDER BY time_end DESC] puts NULLs first,
      [percentile_cont(0.5)] interpolates with [float8_lerp], aggregates skip
      NULLs, [time_end > latest - interval] drops NULL times).  HTTP errors
      are values of [api_result]; [round] and [datetime.isoformat] are
      section parameters.
    - [Mcp]: the MCP gateway of [src/services/mcp/app/main.py] in
      [Module Mcp]: [ADMIN_TOKEN], [require_admin], [/health],
      [/policies] and [/servers] over the [PyRuntime] world, an uncaught
      exception being Starlette's 500.
    - [ApiSchema]: the type of the IOB card's body written as a JSON
      Schema of the [Schema] subset, and the type soundness of [iob_card].
    - [Http]: the FastAPI layer of the API: the [access_log] middleware
      over a trace of log events; Starlette's router over the route table
      (FastAPI's [/openapi.json], [/docs], [/docs/oauth2-redirect] and
      [/redoc] for GET and HEAD, then the app's GET routes), with 405 for a
      known path and another method, the 307 of [redirect_slashes] and 404;
      the handlers with their query defaults, [/api/v1/iob] with its 422 on
      a missing or unparsable [float], and Starlette's 500 for an exception
      that escapes.
    - [Deployment]: a concrete [Runtime] (parsers as tables over the texts
      of a skills directory, the [Schema] validator, [importlib] mapping each
      [run.py] to its [Skills] model), concrete worlds and [indicators]
      tables, and the witnesses that apply each theorem with hypotheses at
      concrete inputs, evaluated by [reflexivity] or [vm_compute].

    ** What is proved

    The worker, the core:
    - functional behaviour of one folder on every path: success writes the
      artifact and prints [OK]; every [Exception] (from the metadata, the
      schemas, the import, validation, the skill, the write) is printed and
      the loop continues; a [BaseException] raised by skill code
      ([SystemExit], [KeyboardInterrupt]) escapes [except Exception] and
      stops the worker; a skill that does not return stalls it;
    - invalid input never reaches [mod.run] (the outcome does not depend on
      the skill's [run]); invalid output is never written; with the [Schema]
      validator, a missing required field, a wrong primitive type or a value
      outside an enumeration is rejected, and a folder that changes the
      files beyond what its skill did has written a result holding every
      field its output schema requires;
    - the processing order is the sorted order of names and does not depend
      on the order in which the directory is listed;
    - termination: [main] up to its idle loop returns or raises from every
      world when every skill module body and every skill [run] returns or
      raises, so only skill code can stall the bootstrap;
    - the step relation: from the execution phase on, a crash is only ever
      caused by a [BaseException] that is not an [Exception].

    The skills: [clamp01] lands in [[0, 1]] for every float (NaN and
    infinities included) and [compute_indices] returns its five indices in
    [[0, 1]] without side effect; on the spec's scenario it computes
    [IExp = 0.52] and [IRisk = 0.26], not the spec's values (an [Example]);
    [anti_hallucination_check] passes every claim as soon as one evidence id
    is given, and with no evidence reports every claim.

    The API: [compute_iob] answers 400 exactly on a non-finite reading,
    yields a level in [[0, 3]] at most one step from the base level, and
    its [iob_level] follows the trend rule with the code's 0.2 threshold.
    [iob_card] reports the matching row with the largest [time_end], and
    the medians of its 24 h and 72 h window queries with the deltas to
    them; its card texts are those of its level; one NULL [time_end] turns
    it into [no_data]; a non-finite stored value becomes a 400; the
    ["fallback_now"] branch is dead; the span between the latest row and
    the oldest row of the 72 h query, from which [reliability] is computed,
    is always below 72 h, so [reliability] stays ["stabilizing"] (five days
    of hourly rows are evaluated in [Deployment]); the keys of an active
    card come in the order the client reads them.

    The MCP gateway: no endpoint answers a body unless [MCP_ADMIN_TOKEN]
    is non-empty and the header equals it; [glob("*.json")] yields exactly
    the entries whose name ends in [.json]; [/servers] answers every such
    entry with its text; [/policies] answers the parsed policy, 500 when
    the file is missing.

    [export_report] writes at [str(Path(output_path))], whatever directory
    it names (a skill's [run.py] included), returns that path as
    [written_to], a path [Path] maps to itself, and a report that fails to
    render leaves the created directory behind.

    The HTTP layer: a body received from [/api/v1/iob/card] through the
    middleware and the router was logged as [http_request] then
    [http_response] with status 200, and has the card's type (checked by
    the [Schema] validator), as does every body [iob_card] answers.

    ** Bounds

    Python ints are [Z]; floats are binary64 ([PrimFloat]) with CPython's
    rounding.  [float(int)] is [float_of_Z] (round to nearest even);
    [timedelta.total_seconds()] is [float_of_Z us / 1e6], which is CPython's
    correctly rounded int division for spans below [2^53] microseconds
    (about 285 years), far beyond the windows of the handler.

    ** Plan for the next parts

    Theorems on [rag_ingest] (the chunk id) and on the rendering of
    [export_report] (one bullet per finding, limitation and source, lines
    without trailing blanks); the [Runtime] instances as refinements of
    the libraries' documented behaviour; the median of [percentile_cont]
    against the window's values.

    ** Not modelled

    HTTP transport, FastAPI request parsing and the bodies of HEAD
    responses; the [log] calls and Prometheus metrics (I/O glue); the
    internals of the YAML/JSON parsers, of [importlib] and of [jsonschema],
    which the sources only call (they are the [Runtime] class), and the
    texts of [jsonschema]'s messages; psycopg's connection handling (a
    failed connection or query is the [None] table, answered 500);
    [time.sleep] (the idle step leaves the world unchanged); the [log]
    function itself, whose module [app/logging.py] is not among the
    sources ([Http] records its calls as events); a redirect's [Location]
    is its path, without scheme, host and query.  In the world the root
    directory is the empty string, the parent [dirname] gives to a
    top-level path such as [/x] (Python's [/]), and [//x] has the parent
    [/] (Python's [//]).  Strings are byte strings, so iteration over a
    non-ASCII [str] and [rstrip] of multi-byte spaces are exact only on
    ASCII text. *)

From stdpp Require Export base list gmap strings.
From Stdlib Require Export String Ascii ZArith Lia Sorted Permutation.

Declare Scope ocean_scope.
Delimit Scope ocean_scope with ocean.
Open Scope string_scope.

Create HintDb ocean.
Create Rewrite HintDb ocean_rw.

(** ** Paths *)

(** [pathlib]'s [p / name] for a relative name without separators. *)
Definition path_join (p name : string) : string := p ++ "/" ++ name.
Notation "p </> q" := (path_join p q) (at level 40, left associativity) : ocean_scope.
Open Scope ocean_scope.

(** ** Tactics *)

Ltac invc H := inversion H; subst; clear H.

(** Case on the scrutinee of the first [match] in the goal, keeping the
    equation. *)
Ltac case_match_eq :=
  match goal with
  | |- context [match ?e with _ => _ end] =>
      let E := fresh "E" in destruct e eqn:E
  end.

(** ** The order of [sorted(...)] on names *)

Lemma ascii_compare_trans (a b c : ascii) :
  (a ?= b)%char = Lt -> (b ?= c)%char = Lt -> (a ?= c)%char = Lt.
Proof. unfold Ascii.compare. rewrite !N.compare_lt_iff. lia. Qed.

Lemma ascii_compare_lt_eq (a b c : ascii) :
  (a ?= b)%char = Lt -> (b ?= c)%char = Eq -> (a ?= c)%char = Lt.
Proof. intros H1 H2. apply Ascii.compare_eq_iff in H2. by subst. Qed.

Lemma ascii_compare_eq_lt (a b c : ascii) :
  (a ?= b)%char = Eq -> (b ?= c)%char = Lt -> (a ?= c)%char = Lt.
Proof. intros H1 H2. apply Ascii.compare_eq_iff in H1. by subst. Qed.

Lemma string_leb_compare (s1 s2 : string) :
  String.leb s1 s2 = true <-> String.compare s1 s2 <> Gt.
Proof. unfold String.leb. destruct (String.compare s1 s2); intuition congruence. Qed.

Lemma string_compare_trans_le (s1 s2 s3 : string) :
  String.compare s1 s2 <> Gt -> String.compare s2 s3 <> Gt -> String.compare s1 s3 <> Gt.
Proof.
  revert s2 s3. induction s1 as [|a s1 IH]; intros [|b s2] [|c s3]; simpl; try congruence.
  destruct (a ?= b)%char eqn:Eab, (b ?= c)%char eqn:Ebc; try congruence.
  - apply Ascii.compare_eq_iff in Eab, Ebc. subst.
    unfold Ascii.compare at 1. rewrite N.compare_refl. apply IH.
  - rewrite (ascii_compare_eq_lt _ _ _ Eab Ebc). congruence.
  - rewrite (ascii_compare_lt_eq _ _ _ Eab Ebc). congruence.
  - rewrite (ascii_compare_trans _ _ _ Eab Ebc). congruence.
Qed.

Lemma string_leb_trans (s1 s2 s3 : string) :
  String.leb s1 s2 = true -> String.leb s2 s3 = true -> String.leb s1 s3 = true.
Proof. rewrite !string_leb_compare. apply string_compare_trans_le. Qed.

(** Insertion sort on names; [sorted] of the sources on the names of one
    directory (the entries of one directory share their parent, so
    comparing paths compares names). *)
Fixpoint insert_name (x : string) (l : list string) : list string :=
  match l with
  | [] => [x]
  | y :: l' => if String.leb x y then x :: y :: l' else y :: insert_name x l'
  end.

Fixpoint sort_names (l : list string) : list string :=
  match l with
  | [] => []
  | x :: l' => insert_name x (sort_names l')
  end.

Definition name_le (a b : string) : Prop := String.leb a b = true.

Lemma insert_name_perm x l : Permutation (insert_name x l) (x :: l).
Proof.
  induction l as [|y l IH]; simpl; [done|].
  destruct (String.leb x y); [done|].
  rewrite IH. apply perm_swap.
Qed.

Lemma sort_names_perm l : Permutation (sort_names l) l.
Proof.
  induction l as [|x l IH]; simpl; [done|].
  by rewrite insert_name_perm, IH.
Qed.

Lemma insert_name_sorted x l : Sorted name_le l -> Sorted name_le (insert_name x l).
Proof.
  induction 1 as [|y l Hs IH Hhd]; simpl; [repeat constructor|].
  destruct (String.leb x y) eqn:Exy.
  - repeat constructor; done.
  - assert (Hyx : name_le y x).
    { unfold name_le. destruct (String.leb_total x y); congruence. }
    constructor; [done|].
    invc Hhd; simpl; [by repeat constructor|].
    destruct (String.leb x b); constructor; done.
Qed.

Lemma sort_names_sorted l : Sorted name_le (sort_names l).
Proof. induction l; simpl; [constructor|by apply insert_name_sorted]. Qed.

#[export] Hint Resolve sort_names_perm sort_names_sorted : ocean.

(** Two sorted permutations of each other are equal: the order is
    canonical. *)
Lemma sorted_perm_unique (l1 l2 : list string) :
  Sorted name_le l1 -> Sorted name_le l2 -> Permutation l1 l2 -> l1 = l2.
Proof.
  revert l2. induction l1 as [|x l1 IH]; intros l2 H1 H2 Hp.
  { symmetry. by apply Permutation_nil. }
  destruct l2 as [|y l2]; [by apply Permutation_sym, Permutation_nil_cons in Hp|].
  apply Sorted_StronglySorted in H1, H2; [|intros ??? ; apply string_leb_trans..].
  invc H1. invc H2.
  assert (x = y) as ->.
  { assert (Hx : In x (y :: l2)) by (eapply Permutation_in; [exact Hp|left; done]).
    assert (Hy : In y (x :: l1)) by (eapply Permutation_in; [symmetry; exact Hp|left; done]).
    destruct Hx as [->|Hx]; [done|]. destruct Hy as [->|Hy]; [done|].
    match goal with
    | Hf1 : Forall _ l1, Hf2 : Forall _ l2 |- _ =>
        apply String.leb_antisym;
        [exact (proj1 (List.Forall_forall _ _) Hf1 _ Hy)|exact (proj1 (List.Forall_forall _ _) Hf2 _ Hx)]
    end. }
  f_equal. apply IH; [by apply StronglySorted_Sorted..|].
  by apply Permutation_cons_inv in Hp.
Qed.

Lemma sort_names_canonical (l1 l2 : list string) :
  Permutation l1 l2 -> sort_names l1 = sort_names l2.
Proof.
  intros Hp. apply sorted_perm_unique; [apply sort_names_sorted..|].
  by rewrite !sort_names_perm.
Qed.

(** ** Splitting paths *)

Fixpoint has_slash (s : string) : bool :=
  match s with
  | EmptyString => false
  | String c s' => Ascii.eqb c "/" || has_slash s'
  end.

(** Split at the last ["/"]: [Some (parent, name)]. *)
Fixpoint rsplit_slash (s : string) : option (string * string) :=
  match s with
  | EmptyString => None
  | String c s' =>
      match rsplit_slash s' with
      | Some (d, n) => Some (String c d, n)
      | None => if Ascii.eqb c "/" then Some (EmptyString, s') else None
      end
  end.

(** [PurePath.parent] and [PurePath.name] of a path without trailing or
    doubled separators. *)
Definition dirname (p : string) : string :=
  match rsplit_slash p with Some (d, _) => d | None => "." end.
Definition basename (p : string) : string :=
  match rsplit_slash p with Some (_, n) => n | None => p end.

(** The proper prefixes of [p] that end just before a ["/"]. *)
Fixpoint slash_prefixes (s : string) : list string :=
  match s with
  | EmptyString => []
  | String c s' =>
      let rest := map (String c) (slash_prefixes s') in
      if Ascii.eqb c "/" then EmptyString :: rest else rest
  end.

Lemma rsplit_slash_none (s : string) : has_slash s = false -> rsplit_slash s = None.
Proof.
  induction s as [|c s IH]; simpl; [done|].
  intros [Hc Hs]%orb_false_iff. by rewrite IH, Hc.
Qed.

Lemma rsplit_slash_join (p n : string) :
  has_slash n = false -> rsplit_slash (p </> n) = Some (p, n).
Proof.
  intros Hn. unfold path_join. induction p as [|c p IH]; simpl.
  - by rewrite rsplit_slash_none.
  - by rewrite IH.
Qed.

Lemma dirname_join p n : has_slash n = false -> dirname (p </> n) = p.
Proof. intros Hn. unfold dirname. by rewrite rsplit_slash_join. Qed.

Lemma basename_join p n : has_slash n = false -> basename (p </> n) = n.
Proof. intros Hn. unfold basename. by rewrite rsplit_slash_join. Qed.

Lemma has_slash_app s1 s2 : has_slash (s1 ++ s2) = has_slash s1 || has_slash s2.
Proof. induction s1 as [|c s1 IH]; simpl; [done|]. by rewrite IH, orb_assoc. Qed.

#[export] Hint Rewrite dirname_join basename_join has_slash_app : ocean_rw.

(** ** Lists *)

(** A comprehension [[x for x in l if c]] whose condition [c] does not
    depend on [x]. *)
Lemma filter_const_true {A} (P : Prop) `{Decision P} (l : list A) :
  P -> filter (fun _ => P) l = l.
Proof. intros HP. induction l as [|x l IH]; [done|]. by rewrite filter_cons_True, IH. Qed.

Lemma filter_const_false {A} (P : Prop) `{Decision P} (l : list A) :
  ~ P -> filter (fun _ => P) l = [].
Proof. intros HP. induction l as [|x l IH]; [done|]. by rewrite filter_cons_False, IH. Qed.

(** ** Substrings *)

Lemma substring_app_r (p q : string) n :
  substring (String.length p) n (p ++ q) = substring 0 n q.
Proof. induction p as [|c p IH]; simpl; [done|]. apply IH. Qed.

Lemma substring_all (s : string) : substring 0 (String.length s) s = s.
Proof. induction s as [|c s IH]; simpl; [done|]. by rewrite IH. Qed.

(** A string is its prefix of length [m] followed by the rest. *)
Lemma substring_split (s : string) m :
  m <= String.length s ->
  s = substring 0 m s ++ substring m (String.length s - m) s.
Proof.
  revert m. induction s as [|c s IH]; intros m Hm; simpl in *.
  - by destruct m.
  - destruct m as [|m]; simpl.
    + by rewrite substring_all.
    + rewrite (IH m) at 1 by lia. reflexivity.
Qed.

Lemma string_length_app (p q : string) :
  String.length (p ++ q) = String.length p + String.length q.
Proof. induction p as [|c p IH]; [done|]. change (S (String.length (p ++ q)) = S (String.length p + String.length q)). by rewrite IH. Qed.
