(* ===== verification/Json.v ===== *)
(** * JSON values as the Python sources handle them

    [json.loads], [yaml.safe_load] and the skills' [run] functions exchange
    Python values built from [None], [bool], [int], [float], [str], [list]
    and [dict].  [json] is that fragment: integers are unbounded ([Z]),
    floats are binary64 ([PrimFloat.float]), dicts are association lists in
    insertion order (Python dicts keep insertion order, and [json.dumps]
    prints them in that order).  Lookup takes the first binding, which is
    the only one in a dict built by the parsers. *)

From S2P Require Import Prelude.
From Stdlib Require Import Floats.

Unset Elimination Schemes.
Inductive json : Type :=
| JNull : json
| JBool : bool -> json
| JInt : Z -> json
| JFloat : float -> json
| JStr : string -> json
| JArr : list json -> json
| JObj : list (string * json) -> json.
Set Elimination Schemes.

(** The nested induction principle: the hypotheses for arrays and objects
    hold for every element. *)
Section json_ind.
Variable P : json -> Prop.
Hypothesis HNull : P JNull.
Hypothesis HBool : forall b, P (JBool b).
Hypothesis HInt : forall z, P (JInt z).
Hypothesis HFloat : forall f, P (JFloat f).
Hypothesis HStr : forall s, P (JStr s).
Hypothesis HArr : forall l, List.Forall P l -> P (JArr l).
Hypothesis HObj : forall kvs, List.Forall (fun kv => P (snd kv)) kvs -> P (JObj kvs).

Fixpoint json_ind (j : json) : P j :=
  match j with
  | JNull => HNull
  | JBool b => HBool b
  | JInt z => HInt z
  | JFloat f => HFloat f
  | JStr s => HStr s
  | JArr l =>
      HArr l ((fix go (l : list json) : List.Forall P l :=
                 match l with
                 | [] => List.Forall_nil _
                 | x :: l' => @List.Forall_cons _ P x l' (json_ind x) (go l')
                 end) l)
  | JObj kvs =>
      HObj kvs ((fix go (kvs : list (string * json)) :
                   List.Forall (fun kv => P (snd kv)) kvs :=
                 match kvs with
                 | [] => List.Forall_nil _
                 | kv :: kvs' => @List.Forall_cons _ (fun kv => P (snd kv)) kv kvs' (json_ind (snd kv)) (go kvs')
                 end) kvs)
  end.
End json_ind.

(** Leibniz equality of floats is decidable (bitwise, so [nan = nan] and
    [0.0 <> -0.0]); this is identity of values, not Python's [==]. *)
#[export] Instance float_eq_dec : EqDecision float.
Proof.
  intros x y. destruct (Leibniz.eqb x y) eqn:E.
  - left. by apply Leibniz.eqb_spec.
  - right. intros ->. assert (Leibniz.eqb y y = true) by (by apply Leibniz.eqb_spec).
    congruence.
Defined.

#[export] Instance json_eq_dec : EqDecision json.
Proof.
  refine (fix go (x y : json) : Decision (x = y) :=
    match x, y with
    | JNull, JNull => left eq_refl
    | JBool a, JBool b => cast_if (decide (a = b))
    | JInt a, JInt b => cast_if (decide (a = b))
    | JFloat a, JFloat b => cast_if (decide (a = b))
    | JStr a, JStr b => cast_if (decide (a = b))
    | JArr l1, JArr l2 =>
        let _ : EqDecision json := go in cast_if (decide (l1 = l2))
    | JObj l1, JObj l2 =>
        let _ : EqDecision json := go in cast_if (decide (l1 = l2))
    | _, _ => right _
    end); try (by subst); try (by intros H; inversion H); congruence.
Defined.

(** The first binding of [k] in an object's association list. *)
Fixpoint assoc_lookup {A} (k : string) (kvs : list (string * A)) : option A :=
  match kvs with
  | [] => None
  | (k', v) :: kvs' => if String.eqb k k' then Some v else assoc_lookup k kvs'
  end.

(** Python's type name of a value, as it appears in [TypeError] messages. *)
Definition py_type_name (j : json) : string :=
  match j with
  | JNull => "NoneType"
  | JBool _ => "bool"
  | JInt _ => "int"
  | JFloat _ => "float"
  | JStr _ => "str"
  | JArr _ => "list"
  | JObj _ => "dict"
  end.

Lemma assoc_lookup_app {A} k (kvs1 kvs2 : list (string * A)) :
  assoc_lookup k (kvs1 ++ kvs2) =
  match assoc_lookup k kvs1 with Some v => Some v | None => assoc_lookup k kvs2 end.
Proof.
  induction kvs1 as [|[k' v] kvs1 IH]; simpl; [done|].
  destruct (String.eqb k k'); [done|apply IH].
Qed.

Lemma assoc_lookup_In {A} k (kvs : list (string * A)) v :
  assoc_lookup k kvs = Some v -> In (k, v) kvs.
Proof.
  induction kvs as [|[k' v'] kvs IH]; simpl; [done|].
  destruct (String.eqb_spec k k') as [->|]; [intros [= ->]; by left|].
  intros H. right. by apply IH.
Qed.

#[export] Hint Resolve assoc_lookup_In : ocean.

(** [d[k]] when [d] is a dict that has [k]. *)
Definition json_field (k : string) (j : json) : option json :=
  match j with JObj kvs => assoc_lookup k kvs | _ => None end.

(** [float(z)] of a Python int, rounded to nearest even ([inf] beyond the
    largest double, where Python raises). *)
Definition float_of_Z (z : Z) : float :=
  SF2Prim (SpecFloat.binary_normalize FloatOps.prec FloatOps.emax z 0 false).

(** [d[k] = v] on a Python dict: the value of an existing key is replaced
    in place, a new key goes last. *)
Fixpoint dict_set {A} (k : string) (v : A) (d : list (string * A)) : list (string * A) :=
  match d with
  | [] => [(k, v)]
  | (k', v') :: d' => if String.eqb k k' then (k, v) :: d' else (k', v') :: dict_set k v d'
  end.

Lemma dict_set_lookup {A} k v (d : list (string * A)) k' :
  assoc_lookup k' (dict_set k v d) = if String.eqb k' k then Some v else assoc_lookup k' d.
Proof.
  induction d as [|[k0 v0] d IH]; simpl.
  - destruct (String.eqb k' k); reflexivity.
  - destruct (String.eqb_spec k k0) as [->|Hne]; simpl.
    + destruct (String.eqb k' k0); reflexivity.
    + rewrite IH. destruct (String.eqb_spec k' k), (String.eqb_spec k' k0); congruence.
Qed.

(** An HTTP endpoint's outcome: a JSON body, or an [HTTPException] with its
    status code and detail. *)
Inductive api_result : Type :=
| Body : json -> api_result
| HttpError : Z -> string -> api_result.

(** ** Non-ASCII characters of the sources, as their UTF-8 bytes *)

Definition utf8 (bytes : list nat) : string := string_of_list_ascii (map ascii_of_nat bytes).
Definition nl : string := utf8 [10].                       (* Python's "\n" *)
Definition e_acute : string := utf8 [195; 169].           (* e acute *)
Definition em_dash : string := utf8 [226; 128; 148].      (* em dash *)
Definition right_quote : string := utf8 [226; 128; 153].  (* right single quote *)
Definition bullet : string := utf8 [226; 128; 162].       (* bullet *)
