(* ===== verification/PyRuntime.v ===== *)
(** * The Python runtime the worker executes in

    Python's exceptions as values ([exn], with the class hierarchy split
    that [except Exception] observes), the world a Python process sees (the
    file system as a map from paths to contents plus a set of directories,
    and stdout as the list of printed lines), the [py] monad that threads
    the world and propagates exceptions and divergence, the [pathlib]
    operations of [worker.py], and the [Runtime] class: what the libraries
    that [worker.py] only calls ([yaml], [json], [importlib], [jsonschema],
    [str]) promise. *)

From S2P Require Import Prelude Json.

(** ** Exceptions *)

(** The exception classes the sources raise or catch.  [SystemExit] and
    [KeyboardInterrupt] derive from [BaseException] and not from
    [Exception]. *)
Inductive exc_class : Type :=
| FileNotFoundError | IsADirectoryError | NotADirectoryError | FileExistsError
| YAMLError | JSONDecodeError | KeyError | TypeError | AttributeError
| SyntaxError | ValidationError | SchemaError | OverflowError | ValueError
| RuntimeError
| SystemExit | KeyboardInterrupt.

#[export] Instance exc_class_eq_dec : EqDecision exc_class.
Proof. solve_decision. Defined.

(** [isinstance(e, Exception)]. *)
Definition is_exception (c : exc_class) : bool :=
  match c with
  | SystemExit | KeyboardInterrupt => false
  | _ => true
  end.

Record exn : Type := mk_exn { exn_class : exc_class; exn_msg : string }.

(** ** The world *)

Record world : Type := mk_world {
  w_files : gmap string string;
  w_dirs : gset string;
  w_stdout : list string
}.

Definition set_files (fs : gmap string string) (w : world) : world :=
  mk_world fs (w_dirs w) (w_stdout w).
Definition set_dirs (ds : gset string) (w : world) : world :=
  mk_world (w_files w) ds (w_stdout w).
Definition add_line (s : string) (w : world) : world :=
  mk_world (w_files w) (w_dirs w) (w_stdout w ++ [s])%list.

(** ** The [py] monad: state, exceptions, divergence *)

Inductive outcome (A : Type) : Type :=
| PRet : A -> world -> outcome A
| PRaise : exn -> world -> outcome A
| PHang : outcome A.
Arguments PRet {A}.
Arguments PRaise {A}.
Arguments PHang {A}.

Definition py (A : Type) : Type := world -> outcome A.

#[export] Instance py_ret : MRet py := fun A a w => PRet a w.
#[export] Instance py_bind : MBind py := fun A B f m w =>
  match m w with
  | PRet a w' => f a w'
  | PRaise e w' => PRaise e w'
  | PHang => PHang
  end.

Definition raise {A} (c : exc_class) (msg : string) : py A :=
  fun w => PRaise (mk_exn c msg) w.

(** [try: body except Exception as e: handler(e)]: a [BaseException] that
    is not an [Exception] passes through. *)
Definition try_except_exception {A} (body : py A) (handler : exn -> py A) : py A :=
  fun w =>
    match body w with
    | PRaise e w' => if is_exception (exn_class e) then handler e w' else PRaise e w'
    | o => o
    end.

Inductive result (A : Type) : Type := Ok : A -> result A | Err : exn -> result A.
Arguments Ok {A}.
Arguments Err {A}.

Definition of_result {A} (r : result A) : py A :=
  fun w => match r with Ok a => PRet a w | Err e => PRaise e w end.

(** ** Monad laws (pointwise) *)

Lemma py_bind_ret_l {A B} (a : A) (f : A -> py B) w : (mret a ≫= f) w = f a w.
Proof. done. Qed.

Lemma py_bind_ret_r {A} (m : py A) w : (m ≫= mret) w = m w.
Proof. cbv [mbind py_bind mret py_ret]. by destruct (m w). Qed.

Lemma py_bind_assoc {A B C} (m : py A) (f : A -> py B) (g : B -> py C) w :
  ((m ≫= f) ≫= g) w = (m ≫= (fun a => f a ≫= g)) w.
Proof. cbv [mbind py_bind]. by destruct (m w). Qed.

Lemma py_bind_PRet {A B} (m : py A) (f : A -> py B) w a w' :
  m w = PRet a w' -> (m ≫= f) w = f a w'.
Proof. cbv [mbind py_bind]. by intros ->. Qed.

Lemma py_bind_PRaise {A B} (m : py A) (f : A -> py B) w e w' :
  m w = PRaise e w' -> (m ≫= f) w = PRaise e w'.
Proof. cbv [mbind py_bind]. by intros ->. Qed.

Lemma py_bind_PHang {A B} (m : py A) (f : A -> py B) w :
  m w = PHang -> (m ≫= f) w = PHang.
Proof. cbv [mbind py_bind]. by intros ->. Qed.

Lemma try_except_PRet {A} (body : py A) h w a w' :
  body w = PRet a w' -> try_except_exception body h w = PRet a w'.
Proof. unfold try_except_exception. by intros ->. Qed.

Lemma try_except_catch {A} (body : py A) h w e w' :
  body w = PRaise e w' -> is_exception (exn_class e) = true ->
  try_except_exception body h w = h e w'.
Proof. unfold try_except_exception. intros -> ->. done. Qed.

Lemma try_except_escape {A} (body : py A) h w e w' :
  body w = PRaise e w' -> is_exception (exn_class e) = false ->
  try_except_exception body h w = PRaise e w'.
Proof. unfold try_except_exception. intros -> ->. done. Qed.

Lemma try_except_PHang {A} (body : py A) h w :
  body w = PHang -> try_except_exception body h w = PHang.
Proof. unfold try_except_exception. by intros ->. Qed.

#[export] Hint Resolve py_bind_PRet py_bind_PRaise py_bind_PHang : ocean.

(** ** pathlib and builtins *)

(** [print(s)]. *)
Definition print (s : string) : py unit := fun w => PRet tt (add_line s w).

(** [Path(p).is_dir()]. *)
Definition is_dir (p : string) : py bool := fun w => PRet (bool_decide (p ∈ w_dirs w)) w.

(** [Path(p).exists()]. *)
Definition path_exists (p : string) : py bool :=
  fun w => PRet (bool_decide (is_Some (w_files w !! p) \/ p ∈ w_dirs w)) w.

(** [Path(p).read_text(encoding="utf-8")]. *)
Definition read_text (p : string) : py string :=
  fun w =>
    match w_files w !! p with
    | Some s => PRet s w
    | None =>
        if bool_decide (p ∈ w_dirs w)
        then PRaise (mk_exn IsADirectoryError ("[Errno 21] Is a directory: '" ++ p ++ "'")) w
        else PRaise (mk_exn FileNotFoundError ("[Errno 2] No such file or directory: '" ++ p ++ "'")) w
    end.

(** [Path(p).write_text(s, encoding="utf-8")]: creates or truncates the
    file; the parent directory must exist. *)
Definition write_text (p s : string) : py unit :=
  fun w =>
    if bool_decide (p ∈ w_dirs w)
    then PRaise (mk_exn IsADirectoryError ("[Errno 21] Is a directory: '" ++ p ++ "'")) w
    else if bool_decide (dirname p ∈ w_dirs w)
    then PRet tt (set_files (<[p := s]> (w_files w)) w)
    else PRaise (mk_exn FileNotFoundError ("[Errno 2] No such file or directory: '" ++ p ++ "'")) w.

(** [Path(p).mkdir(parents=True, exist_ok=True)]. *)
Definition mkdir_parents (p : string) : py unit :=
  fun w =>
    let ps := (filter (fun q => q <> EmptyString) (slash_prefixes p) ++ [p])%list in
    if bool_decide (Exists (fun q => is_Some (w_files w !! q)) ps)
    then PRaise (mk_exn FileExistsError ("[Errno 17] File exists: '" ++ p ++ "'")) w
    else PRet tt (set_dirs (list_to_set ps ∪ w_dirs w) w).

(** The names of the entries directly under [d], in the order the map
    lists them (the order of [os.listdir] is unspecified). *)
Definition children (d : string) (w : world) : list string :=
  omap (fun p => match rsplit_slash p with
                 | Some (parent, n) => if String.eqb parent d then Some n else None
                 | None => None
                 end)
       (elements (dom (w_files w) ∪ w_dirs w)).

(** [Path(d).iterdir()], as names. *)
Definition iterdir (d : string) : py (list string) :=
  fun w =>
    if bool_decide (d ∈ w_dirs w) then PRet (children d w) w
    else if bool_decide (is_Some (w_files w !! d))
    then PRaise (mk_exn NotADirectoryError ("[Errno 20] Not a directory: '" ++ d ++ "'")) w
    else PRaise (mk_exn FileNotFoundError ("[Errno 2] No such file or directory: '" ++ d ++ "'")) w.

(** [d[k]] on a value returned by a parser. *)
Definition getitem (d : json) (k : string) : py json :=
  match d with
  | JObj kvs =>
      match assoc_lookup k kvs with
      | Some v => mret v
      | None => raise KeyError ("'" ++ k ++ "'")
      end
  | JArr _ => raise TypeError "list indices must be integers or slices, not str"
  | JStr _ => raise TypeError "string indices must be integers, not 'str'"
  | j => raise TypeError ("'" ++ py_type_name j ++ "' object is not subscriptable")
  end.

(** ** Modules and the libraries the worker calls *)

(** A module object as [importlib] returns it: its [__name__], and [run],
    its attribute of that name when the module defines one. *)
Record py_module : Type := mk_module {
  mod_name : string;
  mod_run : option (json -> py json)
}.

(** What [worker.py] needs of the libraries it only calls.  The laws are
    what those libraries document: parse and validation failures are
    [Exception]s, and [str] of a string is the string. *)
Class Runtime : Type := {
  (** [yaml.safe_load(text)] *)
  yaml_safe_load : string -> result json;
  (** [json.loads(text)] *)
  json_loads : string -> result json;
  (** [json.dumps(value, indent=2, ensure_ascii=False)] *)
  json_dumps : json -> string;
  (** [str(value)], as f-strings format it *)
  py_str : json -> string;
  (** [jsonschema.validate(instance, schema)]: [None] when it returns *)
  jsonschema_validate : json -> json -> option exn;
  (** [spec.loader.exec_module(mod)] on the module's source text: runs the
      module body, which may raise, diverge or touch the world *)
  exec_module : string -> string -> py py_module;
  yaml_safe_load_exception : forall s e,
    yaml_safe_load s = Err e -> is_exception (exn_class e) = true;
  json_loads_exception : forall s e,
    json_loads s = Err e -> is_exception (exn_class e) = true;
  jsonschema_validate_exception : forall i s e,
    jsonschema_validate i s = Some e -> is_exception (exn_class e) = true;
  py_str_JStr : forall s, py_str (JStr s) = s
}.

Section with_runtime.
Context `{Runtime}.

(** [jsonschema.validate(instance, schema)] as a statement. *)
Definition validate (instance schema : json) : py unit :=
  fun w => match jsonschema_validate instance schema with
           | None => PRet tt w
           | Some e => PRaise e w
           end.

(** [mod.run(payload)]. *)
Definition call_run (m : py_module) (payload : json) : py json :=
  match mod_run m with
  | Some f => f payload
  | None => raise AttributeError ("module '" ++ mod_name m ++ "' has no attribute 'run'")
  end.
End with_runtime.

(** ** Facts about the file operations *)

Lemma write_text_ok p s w :
  p ∉ w_dirs w -> dirname p ∈ w_dirs w ->
  write_text p s w = PRet tt (set_files (<[p := s]> (w_files w)) w).
Proof.
  intros Hp Hd. unfold write_text.
  rewrite bool_decide_false by done. by rewrite bool_decide_true.
Qed.

(** [mkdir(parents=True, exist_ok=True)] that returns has created the
    directory and left the files alone. *)
Lemma mkdir_parents_ret d w w' :
  mkdir_parents d w = PRet tt w' -> d ∈ w_dirs w' /\ w_files w' = w_files w.
Proof.
  unfold mkdir_parents. case_bool_decide; [done|]. intros [= <-]. simpl. split; [|done].
  apply elem_of_union_l, elem_of_list_to_set, list_elem_of_In, in_or_app. right. by left.
Qed.

(** Writing the same path twice leaves only the second content: the sink
    overwrites, it does not append. *)
Lemma write_text_twice p s1 s2 w :
  p ∉ w_dirs w -> dirname p ∈ w_dirs w ->
  (write_text p s1 ≫= fun _ => write_text p s2) w = write_text p s2 w.
Proof.
  intros Hp Hd. cbv [mbind py_bind]. rewrite write_text_ok by done.
  rewrite !write_text_ok by done. unfold set_files; simpl.
  by rewrite insert_insert_eq.
Qed.

Lemma read_text_ok p s w : w_files w !! p = Some s -> read_text p w = PRet s w.
Proof. unfold read_text. by intros ->. Qed.

Lemma read_text_missing p w :
  w_files w !! p = None -> exists e, read_text p w = PRaise e w /\ is_exception (exn_class e) = true.
Proof.
  unfold read_text. intros ->. case_bool_decide; eexists; split; done.
Qed.

(** ** Computations that only read the world *)

(** [m] returns or raises in the world it was given, and always ends. *)
Definition py_pure {A} (m : py A) : Prop :=
  forall w, match m w with PRet _ w' | PRaise _ w' => w' = w | PHang => False end.

Lemma py_pure_ret {A} (m : py A) w a w' : py_pure m -> m w = PRet a w' -> w' = w.
Proof. intros Hp Hm. specialize (Hp w). by rewrite Hm in Hp. Qed.

Lemma py_pure_mret {A} (a : A) : py_pure (mret a).
Proof. by intros w. Qed.

Lemma py_pure_raise {A} c msg : py_pure (@raise A c msg).
Proof. by intros w. Qed.

Lemma py_pure_bind {A B} (m : py A) (f : A -> py B) :
  py_pure m -> (forall a, py_pure (f a)) -> py_pure (m ≫= f).
Proof.
  intros Hm Hf w. cbv [mbind py_bind]. specialize (Hm w).
  destruct (m w) as [a w1|e w1|]; try done. subst. apply Hf.
Qed.

Lemma getitem_pure d k : py_pure (getitem d k).
Proof.
  destruct d; simpl; try apply py_pure_raise.
  destruct (assoc_lookup k _); [apply py_pure_mret|apply py_pure_raise].
Qed.

#[export] Hint Resolve py_pure_mret py_pure_raise py_pure_bind getitem_pure : ocean.

(** ** Computations that end *)

(** [m] returns or raises from every world, never diverges, and what it
    returns satisfies [P]. *)
Definition py_returns {A} (P : A -> Prop) (m : py A) : Prop :=
  forall w, match m w with PRet a _ => P a | PRaise _ _ => True | PHang => False end.

Create HintDb py_returns.

Lemma py_returns_mret {A} (P : A -> Prop) a : P a -> py_returns P (mret a).
Proof. by intros ? w. Qed.

Lemma py_returns_raise {A} (P : A -> Prop) c msg : py_returns P (raise c msg).
Proof. by intros w. Qed.

Lemma py_returns_bind {A B} (P : A -> Prop) (Q : B -> Prop) (m : py A) (f : A -> py B) :
  py_returns P m -> (forall a, P a -> py_returns Q (f a)) -> py_returns Q (m ≫= f).
Proof.
  intros Hm Hf w. cbv [mbind py_bind]. specialize (Hm w).
  destruct (m w) as [a w1|e w1|]; [by apply Hf|done|done].
Qed.

Lemma py_returns_try {A} (P : A -> Prop) (body : py A) h :
  py_returns P body -> (forall e, py_returns P (h e)) -> py_returns P (try_except_exception body h).
Proof.
  intros Hb Hh w. unfold try_except_exception. specialize (Hb w).
  destruct (body w) as [a w1|e w1|]; [done| |done]. destruct (is_exception _); [apply Hh|done].
Qed.

Lemma py_pure_returns {A} (m : py A) : py_pure m -> py_returns (fun _ => True) m.
Proof. intros Hp w. specialize (Hp w). by destruct (m w). Qed.

Lemma of_result_returns {A} (r : result A) : py_returns (fun _ => True) (of_result r).
Proof. intros w. by destruct r. Qed.

Lemma read_text_returns p : py_returns (fun _ => True) (read_text p).
Proof. intros w. unfold read_text. by repeat case_match. Qed.

Lemma write_text_returns p s : py_returns (fun _ => True) (write_text p s).
Proof. intros w. unfold write_text. by repeat case_match. Qed.

Lemma print_returns s : py_returns (fun _ => True) (print s).
Proof. by intros w. Qed.

Lemma mkdir_parents_returns p : py_returns (fun _ => True) (mkdir_parents p).
Proof. intros w. unfold mkdir_parents. by repeat case_match. Qed.

Lemma iterdir_returns d : py_returns (fun _ => True) (iterdir d).
Proof. intros w. unfold iterdir. by repeat case_match. Qed.

Lemma is_dir_returns p : py_returns (fun _ => True) (is_dir p).
Proof. by intros w. Qed.

Lemma path_exists_returns p : py_returns (fun _ => True) (path_exists p).
Proof. by intros w. Qed.

Lemma getitem_returns d k : py_returns (fun _ => True) (getitem d k).
Proof. apply py_pure_returns, getitem_pure. Qed.

Lemma validate_returns `{Runtime} i s : py_returns (fun _ => True) (validate i s).
Proof. intros w. unfold validate. by destruct (jsonschema_validate i s). Qed.

#[export] Hint Resolve py_returns_raise of_result_returns read_text_returns write_text_returns
  print_returns mkdir_parents_returns iterdir_returns is_dir_returns path_exists_returns
  getitem_returns validate_returns : py_returns.

(** Through a chain of binds, each step by a lemma of [py_returns]. *)
Ltac py_returns_chain :=
  repeat first
    [ solve [eauto with py_returns]
    | eapply py_returns_bind; [solve [eauto with py_returns] | intros ? ?] ].

(** ** [pathlib]'s normalisation of a path string

    [PurePosixPath(s)] splits [s] on ["/"], drops the empty and ["."]
    parts (doubled and trailing separators, [./]), keeps a root of [/], or
    of [//] when exactly two slashes lead (POSIX leaves that one
    implementation-defined), and [str] of the empty relative path is
    ["."]; [".."] is kept.  Computed on the bytes of the string. *)

Definition is_slash (c : ascii) : bool := Ascii.eqb c "/".

(** [s.split("/")]. *)
Fixpoint split_on_slash (l : list ascii) : list (list ascii) :=
  match l with
  | [] => [[]]
  | c :: l' =>
      let parts := split_on_slash l' in
      if is_slash c then [] :: parts
      else match parts with p :: ps => (c :: p) :: ps | [] => [[c]] end
  end.

Definition keep_part (p : list ascii) : bool :=
  negb (bool_decide (p = [])) && negb (bool_decide (p = ["."%char])).

Fixpoint leading_slashes (l : list ascii) : nat :=
  match l with c :: l' => if is_slash c then S (leading_slashes l') else O | [] => O end.

Definition path_root (l : list ascii) : list ascii :=
  match leading_slashes l with 0 => [] | 2 => ["/"; "/"]%char | _ => ["/"%char] end.

(** ["/".join(parts)]. *)
Definition join_slash (ps : list (list ascii)) : list ascii :=
  match ps with [] => [] | p :: ps' => (p ++ List.concat (map (cons "/"%char) ps'))%list end.

Definition normpath_l (l : list ascii) : list ascii :=
  let r := path_root l in
  let b := join_slash (List.filter keep_part (split_on_slash l)) in
  match r, b with [], [] => ["."%char] | _, _ => (r ++ b)%list end.

(** [str(pathlib.Path(s))]. *)
Definition py_normpath (s : string) : string :=
  string_of_list_ascii (normpath_l (list_ascii_of_string s)).

(** A part of a normalised path: kept, and free of separators. *)
Definition good_part (p : list ascii) : Prop :=
  keep_part p = true /\ Forall (fun c => is_slash c = false) p.

Lemma split_on_slash_cons_not_slash c l :
  is_slash c = false ->
  exists p ps, split_on_slash l = p :: ps /\ split_on_slash (c :: l) = (c :: p) :: ps.
Proof.
  intros Hc. simpl. rewrite Hc.
  destruct l as [|d l]; simpl; [by eexists _, _|].
  destruct (is_slash d); [by eexists _, _|].
  destruct (split_on_slash l); by eexists _, _.
Qed.

Lemma split_on_slash_no_slash p :
  Forall (fun c => is_slash c = false) p -> split_on_slash p = [p].
Proof.
  induction 1 as [|c p Hc _ IH]; [done|].
  destruct (split_on_slash_cons_not_slash c p Hc) as (q & qs & Hq & ->). congruence.
Qed.

Lemma split_on_slash_app_slash l1 l2 :
  split_on_slash (l1 ++ "/"%char :: l2) = (split_on_slash l1 ++ split_on_slash l2)%list.
Proof.
  induction l1 as [|c l1 IH]; [done|]. cbn [app split_on_slash]. rewrite IH.
  destruct (is_slash c); [done|].
  destruct l1 as [|d l1]; [done|]. cbn [split_on_slash].
  destruct (is_slash d); [done|]. by destruct (split_on_slash l1).
Qed.

Lemma split_on_slash_parts l : Forall (Forall (fun c => is_slash c = false)) (split_on_slash l).
Proof.
  induction l as [|c l IH]; [by repeat constructor|]. simpl.
  destruct (is_slash c) eqn:Hc; [by constructor|].
  destruct (split_on_slash l) as [|p ps]; [by repeat constructor|].
  apply Forall_cons_iff in IH as [Hp Hps]. by repeat constructor.
Qed.

Lemma filter_keep_good l : Forall good_part (List.filter keep_part (split_on_slash l)).
Proof.
  apply List.Forall_forall. intros p Hp. apply filter_In in Hp as [Hin Hk].
  split; [exact Hk|]. exact (proj1 (List.Forall_forall _ _) (split_on_slash_parts l) p Hin).
Qed.

Lemma split_on_slash_join ps :
  Forall good_part ps -> ps <> [] -> split_on_slash (join_slash ps) = ps.
Proof.
  induction 1 as [|p ps [_ Hp] Hps IH]; [done|]. intros _.
  destruct ps as [|q ps].
  - simpl. rewrite app_nil_r. by apply split_on_slash_no_slash.
  - change (join_slash (p :: q :: ps)) with (p ++ "/"%char :: join_slash (q :: ps))%list.
    rewrite split_on_slash_app_slash, IH by done. by rewrite split_on_slash_no_slash.
Qed.

Lemma filter_keep_join ps :
  Forall good_part ps -> List.filter keep_part (split_on_slash (join_slash ps)) = ps.
Proof.
  intros Hps. destruct ps as [|p ps]; [done|].
  rewrite split_on_slash_join by done. apply List.forallb_filter_id, forallb_forall.
  intros q Hq. by eapply List.Forall_forall in Hps as [? _].
Qed.

(** A leading run of separators only adds empty parts. *)
Lemma filter_keep_slashes n b :
  List.filter keep_part (split_on_slash (repeat "/"%char n ++ b)%list) = List.filter keep_part (split_on_slash b).
Proof. induction n as [|n IH]; [done|]. simpl. exact IH. Qed.

Lemma leading_slashes_join n ps :
  Forall good_part ps -> leading_slashes (repeat "/"%char n ++ join_slash ps)%list = n.
Proof.
  intros Hps. induction n as [|n IH]; [|by simpl; rewrite IH].
  destruct Hps as [|p ps [Hk Hp] _]; [done|]. simpl.
  destruct Hp as [|c p Hc _]; [done|]. simpl. by rewrite Hc.
Qed.

Lemma path_root_repeat l : exists n, path_root l = repeat "/"%char n /\
  (n = 0 \/ n = 1 \/ n = 2) /\ forall b, Forall good_part b ->
    path_root (repeat "/"%char n ++ join_slash b)%list = repeat "/"%char n.
Proof.
  unfold path_root.
  destruct (leading_slashes l) as [|[|[|k]]]; [exists 0|exists 1|exists 2|exists 1];
    (split; [done|]); (split; [lia|]); intros b Hb; by rewrite leading_slashes_join.
Qed.

(** Normalising a normalised path changes nothing: [Path(str(Path(s)))]
    is [Path(s)]. *)
Lemma normpath_l_idem l : normpath_l (normpath_l l) = normpath_l l.
Proof.
  destruct (path_root_repeat l) as (n & Hr & Hn & Hroot).
  pose proof (filter_keep_good l) as Hg.
  set (ps := List.filter keep_part (split_on_slash l)) in *.
  assert (Ho : normpath_l l = match repeat "/"%char n, join_slash ps with
                              | [], [] => ["."%char]
                              | _, _ => (repeat "/"%char n ++ join_slash ps)%list end).
  { unfold normpath_l. by rewrite Hr. }
  rewrite Ho. destruct (decide (n = 0 /\ join_slash ps = [])) as [[-> Hj]|Hne].
  - by rewrite Hj.
  - assert (Ho' : match repeat "/"%char n, join_slash ps with
                  | [], [] => ["."%char]
                  | _, _ => (repeat "/"%char n ++ join_slash ps)%list end
                  = (repeat "/"%char n ++ join_slash ps)%list).
    { destruct n; [|done]. destruct (join_slash ps); naive_solver. }
    rewrite Ho'. unfold normpath_l. rewrite Hroot by done.
    rewrite filter_keep_slashes, filter_keep_join by done. exact Ho'.
Qed.

Lemma py_normpath_idem s : py_normpath (py_normpath s) = py_normpath s.
Proof. unfold py_normpath. by rewrite list_ascii_of_string_of_list_ascii, normpath_l_idem. Qed.
