(* ===== verification/Schema.v ===== *)
(** * The schema validator (spec 4.1)

    [worker.py] calls [jsonschema.validate(instance, schema)], a library
    outside [src/]; this file models, from spec 4.1, the subset of JSON
    Schema the skill contracts use: [type] (one name or a list), [enum],
    [required], [properties] and [items], and the boolean schemas.  Like
    [jsonschema], keywords are checked in the order the schema lists them
    and unknown keywords are ignored; the model reports the first
    violation where [jsonschema] reports its best match, and its messages
    follow [jsonschema]'s wording only for the common cases: which
    exception is raised, not its text, is what the theorems use.
    Equality for [enum] is [jsonschema]'s: Python's [==] on scalars, with
    [bool] kept apart from [int], exact comparison of [int] with [float],
    lists element-wise and dicts as mappings whatever their key order.

    The laws are those of spec 4.1: a missing required field, a value of
    the wrong primitive type, or a value outside an enumeration is
    rejected; an accepted object has all its required fields. *)

From S2P Require Import Prelude Json PyRuntime.
From Stdlib Require Import Floats.

(** [float.is_integer()]: [m * 2^e] is whole. *)
Definition float_is_integer (f : float) : bool :=
  match Prim2SF f with
  | S754_zero _ => true
  | S754_finite _ m e => (0 <=? e)%Z || (Z.pos m mod 2 ^ (- e) =? 0)%Z
  | _ => false
  end.

(** [z == f] in Python: exact comparison of an int with a float. *)
Definition float_eq_Z (f : float) (z : Z) : bool :=
  match Prim2SF f with
  | S754_zero _ => (z =? 0)%Z
  | S754_finite s m e =>
      let v := if s then Z.neg m else Z.pos m in
      if (0 <=? e)%Z then (z =? v * 2 ^ e)%Z
      else (v mod 2 ^ (- e) =? 0)%Z && (z =? v / 2 ^ (- e))%Z
  | _ => false
  end.

(** The JSON type names of JSON Schema. *)
Definition has_type (t : string) (x : json) : bool :=
  match x with
  | JNull => String.eqb t "null"
  | JBool _ => String.eqb t "boolean"
  | JInt _ => String.eqb t "integer" || String.eqb t "number"
  | JFloat f => String.eqb t "number" || (String.eqb t "integer" && float_is_integer f)
  | JStr _ => String.eqb t "string"
  | JArr _ => String.eqb t "array"
  | JObj _ => String.eqb t "object"
  end.

(** [jsonschema]'s equality for [enum] ([_utils.equal]): strings by value,
    sequences element-wise, mappings as mappings (same size, every key of
    one bound in the other to an equal value, in any order), a [bool]
    never equal to a number, and numbers by value. *)
Fixpoint json_py_eq (a b : json) : bool :=
  match a, b with
  | JNull, JNull => true
  | JBool x, JBool y => Bool.eqb x y
  | JInt x, JInt y => Z.eqb x y
  | JFloat x, JFloat y => PrimFloat.eqb x y
  | JInt z, JFloat f | JFloat f, JInt z => float_eq_Z f z
  | JStr x, JStr y => String.eqb x y
  | JArr xs, JArr ys =>
      (fix go (xs ys : list json) : bool :=
         match xs, ys with
         | [], [] => true
         | x :: xs', y :: ys' => json_py_eq x y && go xs' ys'
         | _, _ => false
         end) xs ys
  | JObj xs, JObj ys =>
      Nat.eqb (List.length xs) (List.length ys) &&
      (fix go (xs : list (string * json)) : bool :=
         match xs with
         | [] => true
         | (k, v) :: xs' =>
             match assoc_lookup k ys with Some v' => json_py_eq v v' | None => false end && go xs'
         end) xs
  | _, _ => false
  end.

Definition type_ok (ty : json) (x : json) : bool :=
  match ty with
  | JStr t => has_type t x
  | JArr ts => existsb (fun t => match t with JStr t => has_type t x | _ => false end) ts
  | _ => true
  end.

Definition missing_required (ks : list json) (fields : list (string * json)) : option string :=
  match find (fun k => match k with
                       | JStr k => match assoc_lookup k fields with None => true | _ => false end
                       | _ => false
                       end) ks with
  | Some (JStr k) => Some ("'" ++ k ++ "' is a required property")
  | _ => None
  end.

(** The first [Some] of [f] along [l]. *)
Fixpoint first_some {A} (f : A -> option string) (l : list A) : option string :=
  match l with
  | [] => None
  | a :: l' => match f a with Some m => Some m | None => first_some f l' end
  end.

Definition type_label (ty : json) : string :=
  match ty with JStr t => "'" ++ t ++ "'" | _ => "the listed types" end.

(** One keyword [k] with value [v] of a schema, on the instance [x]; [check]
    validates sub-schemas. *)
Definition keyword_check (check : json -> json -> option string)
    (k : string) (v x : json) : option string :=
  if String.eqb k "type" then
    if type_ok v x then None else Some ("value is not of type " ++ type_label v)
  else if String.eqb k "enum" then
    match v with
    | JArr vs => if existsb (json_py_eq x) vs then None
                 else Some "value is not one of the enumeration"
    | _ => None
    end
  else if String.eqb k "required" then
    match v, x with
    | JArr ks, JObj fields => missing_required ks fields
    | _, _ => None
    end
  else if String.eqb k "properties" then
    match v, x with
    | JObj props, JObj fields =>
        first_some (fun ps => match assoc_lookup ps.1 fields with
                              | Some fv => check ps.2 fv
                              | None => None
                              end) props
    | _, _ => None
    end
  else if String.eqb k "items" then
    match x with
    | JArr xs => first_some (check v) xs
    | _ => None
    end
  else None.

(** The first violation of schema [s] by [x], [None] when [x] is valid. *)
Fixpoint schema_check (s : json) (x : json) {struct s} : option string :=
  match s with
  | JBool false => Some "False schema does not allow the value"
  | JObj kw => first_some (fun kv => keyword_check schema_check kv.1 kv.2 x) kw
  | _ => None
  end.

(** [jsonschema.validate]: raises [ValidationError] on the first
    violation. *)
Definition jsonschema_model (instance schema : json) : option exn :=
  match schema_check schema instance with
  | Some msg => Some (mk_exn ValidationError msg)
  | None => None
  end.

Lemma jsonschema_model_exception i s e :
  jsonschema_model i s = Some e -> is_exception (exn_class e) = true.
Proof. unfold jsonschema_model. destruct (schema_check s i); by intros [= <-]. Qed.

(** ** Laws *)

Lemma first_some_None {A} (f : A -> option string) l :
  first_some f l = None <-> Forall (fun a => f a = None) l.
Proof.
  induction l as [|a l IH]; simpl; [split; constructor|].
  destruct (f a) eqn:Ea; rewrite Forall_cons, <- IH; naive_solver.
Qed.

Lemma first_some_witness {A} (f : A -> option string) l a :
  In a l -> f a <> None -> first_some f l <> None.
Proof.
  intros Hin Ha Hn. apply first_some_None in Hn.
  rewrite List.Forall_forall in Hn. by apply Ha, Hn.
Qed.

(** A keyword that rejects the instance makes the schema reject it. *)
Lemma schema_check_keyword kw x k v :
  In (k, v) kw -> keyword_check schema_check k v x <> None ->
  schema_check (JObj kw) x <> None.
Proof. intros Hin Hk. simpl. by apply (first_some_witness _ _ (k, v)). Qed.

Lemma missing_required_some ks fields k :
  In (JStr k) ks -> assoc_lookup k fields = None -> missing_required ks fields <> None.
Proof.
  intros Hin Hk. unfold missing_required.
  destruct (find _ ks) as [j|] eqn:Hf.
  - apply find_some in Hf as [_ Hj]. by destruct j.
  - eapply find_none in Hf; [|exact Hin]. simpl in Hf. by rewrite Hk in Hf.
Qed.

(** The validator rejects an object that lacks a field its schema
    declares [required]. *)
Theorem schema_rejects_missing_required kw fields ks k :
  In ("required", JArr ks) kw -> In (JStr k) ks -> assoc_lookup k fields = None ->
  jsonschema_model (JObj fields) (JObj kw) <> None.
Proof.
  intros Hr Hk Hf Hn. refine (schema_check_keyword kw (JObj fields) _ _ Hr _ _).
  - simpl. by apply missing_required_some with k.
  - unfold jsonschema_model in Hn. by destruct (schema_check _ _).
Qed.

(** The validator rejects a value of the wrong primitive type. *)
Theorem schema_rejects_wrong_type kw x t :
  In ("type", JStr t) kw -> has_type t x = false ->
  jsonschema_model x (JObj kw) <> None.
Proof.
  intros Ht Hx Hn. refine (schema_check_keyword kw x _ _ Ht _ _).
  - cbn -[has_type]. by rewrite Hx.
  - unfold jsonschema_model in Hn. by destruct (schema_check _ _).
Qed.

(** The validator rejects a value outside the schema's enumeration. *)
Theorem schema_rejects_outside_enum kw x vs :
  In ("enum", JArr vs) kw -> existsb (json_py_eq x) vs = false ->
  jsonschema_model x (JObj kw) <> None.
Proof.
  intros He Hx Hn. refine (schema_check_keyword kw x _ _ He _ _).
  - cbn -[existsb]. by rewrite Hx.
  - unfold jsonschema_model in Hn. by destruct (schema_check _ _).
Qed.

(** An object the validator accepts has every field its schema
    requires, and each declared property it has satisfies that property's
    schema. *)
Theorem schema_accepts_sound kw fields :
  jsonschema_model (JObj fields) (JObj kw) = None ->
  (forall ks k, In ("required", JArr ks) kw -> In (JStr k) ks ->
     assoc_lookup k fields <> None) /\
  (forall props p sub v, In ("properties", JObj props) kw -> In (p, sub) props ->
     assoc_lookup p fields = Some v -> schema_check sub v = None).
Proof.
  unfold jsonschema_model. destruct (schema_check _ _) eqn:E; [done|]. intros _.
  simpl in E. apply first_some_None in E. rewrite List.Forall_forall in E. split.
  - intros ks k Hr Hk Hf. specialize (E _ Hr). simpl in E.
    by apply (missing_required_some ks fields k).
  - intros props p sub v Hp Hin Hv. specialize (E _ Hp). simpl in E.
    apply first_some_None in E. rewrite List.Forall_forall in E.
    specialize (E _ Hin). simpl in E. by rewrite Hv in E.
Qed.
