(* ===== verification/Worker.v ===== *)
(** * The worker: the skill execution runtime ([src/services/worker/worker.py])

    [load_skill] reads a skill folder; [run_sample] is the body of the
    [if sample.exists():] block; [worker_folder] is one iteration of the
    [for] loop of [main] with its guard and its [try ... except
    Exception]; [run_folders] is the loop; [main_bootstrap] is [main] up to
    the idle loop.  [step] is [main] as a state machine
    [Starting -> Discovering -> Executing* -> Idle], one transition per
    folder, with [Crashed] (an exception that escapes) and [Stalled] (a
    skill that never returns); its [Idle] self-loop is the
    [while True: time.sleep(3600)] of lines 38-39, which [main_bootstrap]
    stops before.  The theorems: each path of one folder, the contracts of
    the schemas, the order of the loop, the termination of [main] up to its
    idle loop when the skills' code returns, and the only crash of the
    state machine. *)

From S2P Require Import Prelude Json PyRuntime Schema.

Definition SKILLS_DIR : string := "/app/skills".
Definition OUT_DIR : string := "/app/runtime".

Section worker.
Context `{Runtime}.

(** [load_skill(folder)], lines 9-17. *)
Definition load_skill (folder : string) : py (json * json * json * py_module) :=
  meta_txt ← read_text (folder </> "skill.yaml");
  meta ← of_result (yaml_safe_load meta_txt);
  in_txt ← read_text (folder </> "schema.input.json");
  in_schema ← of_result (json_loads in_txt);
  out_txt ← read_text (folder </> "schema.output.json");
  out_schema ← of_result (json_loads out_txt);
  id ← getitem meta "id";
  src ← read_text (folder </> "run.py");
  m ← exec_module ("skill_" ++ py_str id) src;
  mret (meta, in_schema, out_schema, m).

(** [OUT_DIR / f"sample_output_{meta['id']}.json"]. *)
Definition artifact_path (id : json) : string :=
  OUT_DIR </> ("sample_output_" ++ py_str id ++ ".json").

Definition ok_line (id : json) : string :=
  "[worker] " ++ py_str id ++ " OK -> " ++ basename (artifact_path id).

Definition error_line (name : string) (e : exn) : string :=
  "[worker] " ++ name ++ " ERROR: " ++ exn_msg e.

(** Lines 26-34: the sample run of one loaded skill. *)
Definition run_sample (folder : string) (meta in_schema out_schema : json)
    (m : py_module) : py unit :=
  let sample := folder </> "sample.input.json" in
  path_exists sample ≫= fun (ex : bool) =>
  if ex then (
    txt ← read_text sample;
    payload ← of_result (json_loads txt);
    validate payload in_schema ;;
    res ← call_run m payload;
    validate res out_schema ;;
    id ← getitem meta "id";
    write_text (artifact_path id) (json_dumps res) ;;
    id' ← getitem meta "id";
    print ("[worker] " ++ py_str id' ++ " OK -> " ++ basename (artifact_path id)))
  else mret tt.

(** One iteration of the loop of [main], lines 22-36. *)
Definition worker_folder (name : string) : py unit :=
  let folder := SKILLS_DIR </> name in
  is_dir folder ≫= fun (d : bool) =>
  if negb d || String.prefix "_" name then mret tt
  else try_except_exception
         ('(meta, in_schema, out_schema, m) ← load_skill folder;
          run_sample folder meta in_schema out_schema m)
         (fun e => print (error_line name e)).

(** The loop [for folder in ...: ...] over names in iteration order. *)
Fixpoint run_folders (names : list string) : py unit :=
  match names with
  | [] => mret tt
  | n :: ns => worker_folder n ;; run_folders ns
  end.

(** [for folder in sorted(SKILLS_DIR.iterdir())], given the listing. *)
Definition main_loop (listing : list string) : py unit :=
  run_folders (sort_names listing).

Definition banner : string := "[worker] bootstrap: running sample inputs for each skill folder".
Definition idle_line : string := "[worker] idle (add queue/scheduler next).".

(** Module import (line 7) and [main] up to the idle loop (lines 20-37). *)
Definition main_bootstrap : py unit :=
  mkdir_parents OUT_DIR ;;
  print banner ;;
  listing ← iterdir SKILLS_DIR;
  main_loop listing ;;
  print idle_line.

(** ** The driver as a state machine *)

Inductive phase : Type :=
| Starting
| Discovering
| Executing (pending : list string)
| Idle
| Crashed (e : exn)
| Stalled.

Definition config : Type := phase * world.

(** Continue with [next] after a [py] computation, or stop. *)
Definition after {A} (o : outcome A) (next : A -> phase) (w : world) : config :=
  match o with
  | PRet a w' => (next a, w')
  | PRaise e w' => (Crashed e, w')
  | PHang => (Stalled, w)
  end.

(** One transition; [None] when the process has exited. *)
Definition step_fn (c : config) : option config :=
  let '(ph, w) := c in
  match ph with
  | Starting => Some (after ((mkdir_parents OUT_DIR ;; print banner) w) (fun _ => Discovering) w)
  | Discovering => Some (after (iterdir SKILLS_DIR w) (fun l => Executing (sort_names l)) w)
  | Executing (n :: ns) => Some (after (worker_folder n w) (fun _ => Executing ns) w)
  | Executing [] => Some (after (print idle_line w) (fun _ => Idle) w)
  | Idle => Some (Idle, w)
  | Stalled => Some (Stalled, w)
  | Crashed _ => None
  end.

(** The same transitions as rules. *)
Inductive step : config -> config -> Prop :=
| step_start w c :
    after ((mkdir_parents OUT_DIR ;; print banner) w) (fun _ => Discovering) w = c ->
    step (Starting, w) c
| step_discover w c :
    after (iterdir SKILLS_DIR w) (fun l => Executing (sort_names l)) w = c ->
    step (Discovering, w) c
| step_folder n ns w c :
    after (worker_folder n w) (fun _ => Executing ns) w = c ->
    step (Executing (n :: ns), w) c
| step_done w c :
    after (print idle_line w) (fun _ => Idle) w = c ->
    step (Executing [], w) c
| step_idle w : step (Idle, w) (Idle, w)
| step_stalled w : step (Stalled, w) (Stalled, w).

Inductive star : config -> config -> Prop :=
| star_refl c : star c c
| star_step c1 c2 c3 : step c1 c2 -> star c2 c3 -> star c1 c3.
End worker.

(** ** Running one folder *)

(** The value of [meta['id']] when it does not raise. *)
Definition meta_id (meta : json) : option json :=
  match meta with JObj kvs => assoc_lookup "id" kvs | _ => None end.

Lemma getitem_meta_id meta id w :
  meta_id meta = Some id -> getitem meta "id" w = PRet id w.
Proof. destruct meta; simpl; try done. by intros ->. Qed.

Section folder_facts.
Context `{Runtime}.

Lemma worker_folder_enter name w :
  SKILLS_DIR </> name ∈ w_dirs w -> String.prefix "_" name = false ->
  worker_folder name w =
  try_except_exception
    ('(meta, in_schema, out_schema, m) ← load_skill (SKILLS_DIR </> name);
     run_sample (SKILLS_DIR </> name) meta in_schema out_schema m)
    (fun e => print (error_line name e)) w.
Proof.
  intros Hd Hp. unfold worker_folder. cbv [mbind py_bind is_dir].
  rewrite bool_decide_true by done. by rewrite Hp.
Qed.

(** The body of the [try] once [load_skill] has returned. *)
Lemma worker_folder_loaded name w meta ins outs m w1 :
  SKILLS_DIR </> name ∈ w_dirs w -> String.prefix "_" name = false ->
  load_skill (SKILLS_DIR </> name) w = PRet (meta, ins, outs, m) w1 ->
  worker_folder name w =
  try_except_exception (fun _ => run_sample (SKILLS_DIR </> name) meta ins outs m w1)
    (fun e => print (error_line name e)) w.
Proof.
  intros Hd Hp Hl. rewrite worker_folder_enter by done.
  unfold try_except_exception. cbv [mbind py_bind]. by rewrite Hl.
Qed.

(** [run_sample] up to [mod.run] when the sample parses. *)
Lemma run_sample_payload folder meta ins outs m w1 txt payload :
  w_files w1 !! (folder </> "sample.input.json") = Some txt ->
  json_loads txt = Ok payload ->
  run_sample folder meta ins outs m w1 =
  (validate payload ins ;;
   res ← call_run m payload;
   validate res outs ;;
   id ← getitem meta "id";
   write_text (artifact_path id) (json_dumps res) ;;
   id' ← getitem meta "id";
   print ("[worker] " ++ py_str id' ++ " OK -> " ++ basename (artifact_path id))) w1.
Proof.
  intros Hs Hp. unfold run_sample. cbv [mbind py_bind path_exists].
  rewrite bool_decide_true by (left; rewrite Hs; done).
  rewrite (read_text_ok _ _ _ Hs). simpl. by rewrite Hp.
Qed.
End folder_facts.

Section folder_theorems.
Context `{Runtime}.
Variables (name : string) (w w1 : world) (meta ins outs : json) (m : py_module).
Hypothesis Hdir : SKILLS_DIR </> name ∈ w_dirs w.
Hypothesis Hname : String.prefix "_" name = false.
Hypothesis Hload : load_skill (SKILLS_DIR </> name) w = PRet (meta, ins, outs, m) w1.

(** Rewrites [worker_folder] down to the outcome of the skill's [run]. *)
Lemma worker_folder_after_input txt payload :
  w_files w1 !! (SKILLS_DIR </> name </> "sample.input.json") = Some txt ->
  json_loads txt = Ok payload ->
  jsonschema_validate payload ins = None ->
  worker_folder name w =
  try_except_exception (fun _ =>
    (res ← call_run m payload;
     validate res outs ;;
     id ← getitem meta "id";
     write_text (artifact_path id) (json_dumps res) ;;
     id' ← getitem meta "id";
     print ("[worker] " ++ py_str id' ++ " OK -> " ++ basename (artifact_path id))) w1)
    (fun e => print (error_line name e)) w.
Proof.
  intros Hs Hp Hv. rewrite (worker_folder_loaded _ _ _ _ _ _ _ Hdir Hname Hload).
  unfold try_except_exception. rewrite (run_sample_payload _ _ _ _ _ _ _ _ Hs Hp).
  cbv [mbind py_bind validate]. by rewrite Hv.
Qed.

(** The success path of a folder, from the skill's returning [run] to
    the artifact and the [OK] line. *)
Lemma worker_folder_writes txt payload f res w2 id :
  w_files w1 !! (SKILLS_DIR </> name </> "sample.input.json") = Some txt ->
  json_loads txt = Ok payload ->
  jsonschema_validate payload ins = None ->
  mod_run m = Some f ->
  f payload w1 = PRet res w2 ->
  jsonschema_validate res outs = None ->
  meta_id meta = Some id ->
  artifact_path id ∉ w_dirs w2 ->
  dirname (artifact_path id) ∈ w_dirs w2 ->
  worker_folder name w =
  PRet tt (add_line (ok_line id)
             (set_files (<[artifact_path id := json_dumps res]> (w_files w2)) w2)).
Proof.
  intros Hs Hp Hv Hr Hf Ho Hid Hnd Hpd.
  rewrite (worker_folder_after_input _ _ Hs Hp Hv).
  unfold try_except_exception, call_run. rewrite Hr.
  cbv [mbind py_bind validate]. rewrite Hf, Ho, (getitem_meta_id _ _ _ Hid).
  rewrite write_text_ok by done. by rewrite (getitem_meta_id _ _ _ Hid).
Qed.

(** C1. A skill folder whose sample is valid, whose [run] returns a
    result valid against the output schema, and whose id names a writable
    artifact path: the worker writes [json.dumps(result)] to
    [sample_output_<id>.json], replacing what was there, prints the [OK]
    line, and continues with the next folder. *)
Theorem worker_folder_success txt payload f res w2 id :
  w_files w1 !! (SKILLS_DIR </> name </> "sample.input.json") = Some txt ->
  json_loads txt = Ok payload ->
  jsonschema_validate payload ins = None ->
  mod_run m = Some f ->
  f payload w1 = PRet res w2 ->
  jsonschema_validate res outs = None ->
  meta_id meta = Some id ->
  artifact_path id ∉ w_dirs w2 ->
  dirname (artifact_path id) ∈ w_dirs w2 ->
  worker_folder name w =
  PRet tt (add_line (ok_line id)
             (set_files (<[artifact_path id := json_dumps res]> (w_files w2)) w2)).
Proof. apply worker_folder_writes. Qed.

(** The rejection of the sample by the input schema, from the loaded
    world. *)
Lemma folder_rejects_input txt payload e :
  w_files w1 !! (SKILLS_DIR </> name </> "sample.input.json") = Some txt ->
  json_loads txt = Ok payload ->
  jsonschema_validate payload ins = Some e ->
  worker_folder name w = PRet tt (add_line (error_line name e) w1).
Proof.
  intros Hs Hp Hv. rewrite (worker_folder_loaded _ _ _ _ _ _ _ Hdir Hname Hload).
  unfold try_except_exception. rewrite (run_sample_payload _ _ _ _ _ _ _ _ Hs Hp).
  cbv [mbind py_bind validate]. rewrite Hv.
  by rewrite (jsonschema_validate_exception _ _ _ Hv).
Qed.

(** C2. A sample that fails the input schema never reaches [mod.run]:
    the outcome is the error line added to the world [load_skill] left,
    whatever the skill's [run] would do. *)
Theorem worker_folder_invalid_input txt payload e :
  w_files w1 !! (SKILLS_DIR </> name </> "sample.input.json") = Some txt ->
  json_loads txt = Ok payload ->
  jsonschema_validate payload ins = Some e ->
  worker_folder name w = PRet tt (add_line (error_line name e) w1).
Proof. apply folder_rejects_input. Qed.

(** C3. A skill whose [run] raises an [Exception]: the exception is caught
    at the folder, printed with the folder name, and the loop goes on in
    the world the skill left; no artifact is written. *)
Theorem worker_folder_skill_exception txt payload f e w2 :
  w_files w1 !! (SKILLS_DIR </> name </> "sample.input.json") = Some txt ->
  json_loads txt = Ok payload ->
  jsonschema_validate payload ins = None ->
  mod_run m = Some f ->
  f payload w1 = PRaise e w2 ->
  is_exception (exn_class e) = true ->
  worker_folder name w = PRet tt (add_line (error_line name e) w2).
Proof.
  intros Hs Hp Hv Hr Hf He. rewrite (worker_folder_after_input _ _ Hs Hp Hv).
  unfold try_except_exception, call_run. rewrite Hr.
  cbv [mbind py_bind]. by rewrite Hf, He.
Qed.

(** C4. A skill whose [run] raises a [BaseException] that is not an
    [Exception] ([SystemExit], [KeyboardInterrupt]) is not caught by
    [except Exception]: it leaves the loop and ends the worker. *)
Theorem worker_folder_base_exception_escapes txt payload f e w2 :
  w_files w1 !! (SKILLS_DIR </> name </> "sample.input.json") = Some txt ->
  json_loads txt = Ok payload ->
  jsonschema_validate payload ins = None ->
  mod_run m = Some f ->
  f payload w1 = PRaise e w2 ->
  is_exception (exn_class e) = false ->
  worker_folder name w = PRaise e w2.
Proof.
  intros Hs Hp Hv Hr Hf He. rewrite (worker_folder_after_input _ _ Hs Hp Hv).
  unfold try_except_exception, call_run. rewrite Hr.
  cbv [mbind py_bind]. by rewrite Hf, He.
Qed.

(** C5. A skill whose [run] never returns stalls the folder, and with it
    the whole loop: there is no timeout. *)
Theorem worker_folder_skill_hangs txt payload f :
  w_files w1 !! (SKILLS_DIR </> name </> "sample.input.json") = Some txt ->
  json_loads txt = Ok payload ->
  jsonschema_validate payload ins = None ->
  mod_run m = Some f ->
  f payload w1 = PHang ->
  worker_folder name w = PHang.
Proof.
  intros Hs Hp Hv Hr Hf. rewrite (worker_folder_after_input _ _ Hs Hp Hv).
  unfold try_except_exception, call_run. rewrite Hr.
  cbv [mbind py_bind]. by rewrite Hf.
Qed.

(** The rejection of the skill's result by the output schema. *)
Lemma folder_rejects_output txt payload f res w2 e :
  w_files w1 !! (SKILLS_DIR </> name </> "sample.input.json") = Some txt ->
  json_loads txt = Ok payload ->
  jsonschema_validate payload ins = None ->
  mod_run m = Some f ->
  f payload w1 = PRet res w2 ->
  jsonschema_validate res outs = Some e ->
  worker_folder name w = PRet tt (add_line (error_line name e) w2).
Proof.
  intros Hs Hp Hv Hr Hf Ho. rewrite (worker_folder_after_input _ _ Hs Hp Hv).
  unfold try_except_exception, call_run. rewrite Hr.
  cbv [mbind py_bind validate]. rewrite Hf, Ho.
  by rewrite (jsonschema_validate_exception _ _ _ Ho).
Qed.

(** C6. A result that fails the output schema is never written: the
    files are those the skill left, and the error is printed. *)
Theorem worker_folder_invalid_output txt payload f res w2 e :
  w_files w1 !! (SKILLS_DIR </> name </> "sample.input.json") = Some txt ->
  json_loads txt = Ok payload ->
  jsonschema_validate payload ins = None ->
  mod_run m = Some f ->
  f payload w1 = PRet res w2 ->
  jsonschema_validate res outs = Some e ->
  worker_folder name w = PRet tt (add_line (error_line name e) w2).
Proof. apply folder_rejects_output. Qed.
End folder_theorems.

Section load_theorems.
Context `{Runtime}.

(** A load that raises an [Exception] is caught at the folder. *)
Lemma folder_load_fails name w e w1 :
  SKILLS_DIR </> name ∈ w_dirs w -> String.prefix "_" name = false ->
  load_skill (SKILLS_DIR </> name) w = PRaise e w1 ->
  is_exception (exn_class e) = true ->
  worker_folder name w = PRet tt (add_line (error_line name e) w1).
Proof.
  intros Hd Hp Hl He. rewrite worker_folder_enter by done.
  unfold try_except_exception. cbv [mbind py_bind]. by rewrite Hl, He.
Qed.

(** C7. Any [Exception] raised while loading a folder (missing or
    malformed metadata or schema, metadata without [id], a missing
    [run.py], an import error) is printed with the folder name and the
    loop goes on, in the world the failed load left. *)
Theorem worker_folder_load_error name w e w1 :
  SKILLS_DIR </> name ∈ w_dirs w -> String.prefix "_" name = false ->
  load_skill (SKILLS_DIR </> name) w = PRaise e w1 ->
  is_exception (exn_class e) = true ->
  worker_folder name w = PRet tt (add_line (error_line name e) w1).
Proof. apply folder_load_fails. Qed.

(** Loading fails, without touching the world, when the output schema is
    missing. *)
Lemma load_skill_missing_output_schema folder w meta_txt meta in_txt ins :
  w_files w !! (folder </> "skill.yaml") = Some meta_txt ->
  yaml_safe_load meta_txt = Ok meta ->
  w_files w !! (folder </> "schema.input.json") = Some in_txt ->
  json_loads in_txt = Ok ins ->
  w_files w !! (folder </> "schema.output.json") = None ->
  exists e, load_skill folder w = PRaise e w /\ is_exception (exn_class e) = true.
Proof.
  intros Hm Hy Hi Hj Ho. destruct (read_text_missing _ _ Ho) as (e & Hr & He).
  exists e. split; [|done]. unfold load_skill. cbv [mbind py_bind of_result].
  rewrite (read_text_ok _ _ _ Hm). cbv beta iota. rewrite Hy.
  rewrite (read_text_ok _ _ _ Hi). cbv beta iota. rewrite Hj. by rewrite Hr.
Qed.

(** Loading fails, without touching the world, when the metadata does
    not parse. *)
Lemma load_skill_malformed_meta folder w meta_txt e :
  w_files w !! (folder </> "skill.yaml") = Some meta_txt ->
  yaml_safe_load meta_txt = Err e ->
  load_skill folder w = PRaise e w.
Proof.
  intros Hm Hy. unfold load_skill. cbv [mbind py_bind of_result].
  rewrite (read_text_ok _ _ _ Hm). cbv beta iota. by rewrite Hy.
Qed.

(** C8. The isolation scenario of the spec: a skill folder without its
    output schema document is reported (one error line) and otherwise
    leaves the world as it was. *)
Theorem worker_folder_missing_output_schema name w meta_txt meta in_txt ins :
  SKILLS_DIR </> name ∈ w_dirs w -> String.prefix "_" name = false ->
  w_files w !! (SKILLS_DIR </> name </> "skill.yaml") = Some meta_txt ->
  yaml_safe_load meta_txt = Ok meta ->
  w_files w !! (SKILLS_DIR </> name </> "schema.input.json") = Some in_txt ->
  json_loads in_txt = Ok ins ->
  w_files w !! (SKILLS_DIR </> name </> "schema.output.json") = None ->
  exists e, worker_folder name w = PRet tt (add_line (error_line name e) w).
Proof.
  intros Hd Hp Hm Hy Hi Hj Ho.
  destruct (load_skill_missing_output_schema _ _ _ _ _ _ Hm Hy Hi Hj Ho) as (e & Hl & He).
  exists e. by apply folder_load_fails.
Qed.

(** C9. Entries that are not directories, and directories whose name
    starts with ["_"], are skipped without any effect. *)
Theorem worker_folder_skip name w :
  SKILLS_DIR </> name ∉ w_dirs w \/ String.prefix "_" name = true ->
  worker_folder name w = PRet tt w.
Proof.
  intros Hs. unfold worker_folder. cbv [mbind py_bind is_dir].
  destruct Hs as [Hn|Hp].
  - by rewrite bool_decide_false.
  - rewrite Hp, orb_true_r. done.
Qed.
End load_theorems.

(** ** The loop *)

Section loop.
Context `{Runtime}.

Lemma run_folders_app ns1 ns2 w :
  run_folders (ns1 ++ ns2) w = (run_folders ns1 ;; run_folders ns2) w.
Proof.
  revert w. induction ns1 as [|n ns1 IH]; intros w; simpl; [done|].
  rewrite py_bind_assoc. cbv [mbind py_bind]. destruct (worker_folder n w); [|done..].
  apply IH.
Qed.

(** A folder that ends normally hands its world to the rest of the loop;
    one that raises past [except Exception] or stalls ends the loop. *)
Lemma run_folders_cons_ret n ns w w' :
  worker_folder n w = PRet tt w' -> run_folders (n :: ns) w = run_folders ns w'.
Proof. intros Hf. simpl. cbv [mbind py_bind]. by rewrite Hf. Qed.

(** C10. The loop visits the folders in sorted order, so its whole
    behaviour is the same for any order in which the directory is
    listed. *)
Theorem main_loop_listing_order (l1 l2 : list string) :
  Permutation l1 l2 -> main_loop l1 = main_loop l2.
Proof. intros Hp. unfold main_loop. by rewrite (sort_names_canonical _ _ Hp). Qed.
End loop.

(** ** Termination of the bootstrap

    [main] up to its idle loop has no loop of its own that can run forever:
    the [for] runs over a finite listing, and every library call returns or
    raises.  Only the code it executes from the skill folders can diverge:
    a module body run by [exec_module], or a skill's [run]. *)

(** [mod.run], when the module defines it, returns or raises on every
    payload. *)
Definition module_total (m : py_module) : Prop :=
  forall f, mod_run m = Some f -> forall x, py_returns (fun _ => True) (f x).

Section termination.
Context `{Runtime}.
Hypothesis exec_module_total : forall nm src, py_returns module_total (exec_module nm src).

Lemma call_run_returns m x : module_total m -> py_returns (fun _ => True) (call_run m x).
Proof.
  intros Hm. unfold call_run. destruct (mod_run m) as [f|] eqn:Hf;
    [by apply Hm|apply py_returns_raise].
Qed.

Lemma load_skill_returns folder :
  py_returns (fun r : json * json * json * py_module => module_total r.2) (load_skill folder).
Proof. unfold load_skill. py_returns_chain. by apply py_returns_mret. Qed.

Lemma run_sample_returns folder meta ins outs m :
  module_total m -> py_returns (fun _ => True) (run_sample folder meta ins outs m).
Proof.
  intros Hm. unfold run_sample. eapply py_returns_bind; [eauto with py_returns|].
  intros [] _; [|by apply py_returns_mret].
  py_returns_chain. eapply py_returns_bind; [by apply call_run_returns|]. intros ? _.
  py_returns_chain.
Qed.

Lemma worker_folder_returns name : py_returns (fun _ => True) (worker_folder name).
Proof.
  unfold worker_folder. eapply py_returns_bind; [eauto with py_returns|]. intros d _.
  destruct (negb d || _); [by apply py_returns_mret|].
  apply py_returns_try; [|eauto with py_returns].
  eapply py_returns_bind; [apply load_skill_returns|].
  intros [[[meta ins] outs] m] Hm. by apply run_sample_returns.
Qed.

Lemma run_folders_returns ns : py_returns (fun _ => True) (run_folders ns).
Proof.
  induction ns as [|n ns IH]; [by apply py_returns_mret|].
  eapply py_returns_bind; [apply worker_folder_returns|]. by intros.
Qed.

(** C12. Termination of the bootstrap: when every skill module's body and
    its [run] return or raise, [main] reaches its idle loop or raises,
    from every world; it can only stall inside a skill. *)
Theorem main_bootstrap_terminates w : main_bootstrap w <> PHang.
Proof.
  assert (Hr : py_returns (fun _ => True) main_bootstrap).
  { unfold main_bootstrap, main_loop. py_returns_chain.
    eapply py_returns_bind; [apply run_folders_returns|]. intros. py_returns_chain. }
  specialize (Hr w). by destruct (main_bootstrap w).
Qed.
End termination.

(** ** The driver *)

Section driver.
Context `{Runtime}.

(** The rules and the transition function agree. *)
Lemma step_step_fn c c' : step c c' <-> step_fn c = Some c'.
Proof.
  split.
  - intros Hs. destruct Hs; subst; done.
  - destruct c as [[| |[|n ns]| | |] w]; simpl; intros Hc; try discriminate;
      injection Hc as <-; constructor; done.
Qed.

Lemma step_deterministic c c1 c2 : step c c1 -> step c c2 -> c1 = c2.
Proof. rewrite !step_step_fn. congruence. Qed.

(** [except Exception] and a handler that only prints: one folder never
    raises an [Exception]. *)
Lemma worker_folder_raises_base n w e w' :
  worker_folder n w = PRaise e w' -> is_exception (exn_class e) = false.
Proof.
  unfold worker_folder. cbv [mbind py_bind is_dir].
  destruct (negb _ || _); [done|].
  unfold try_except_exception. case_match_eq; [done| |done].
  destruct (is_exception (exn_class e0)) eqn:He0; [done|]. congruence.
Qed.

Lemma star_trans c1 c2 c3 : star c1 c2 -> star c2 c3 -> star c1 c3.
Proof. induction 1; eauto using star. Qed.

Lemma star_one c1 c2 : step c1 c2 -> star c1 c2.
Proof. eauto using star. Qed.

End driver.

Section driver_theorems.
Context `{Runtime}.

(** Once idle, the worker stays idle forever and never changes the
    world: every state reachable from [Idle] is the same [Idle] state,
    and it can always take one more step ([while True: time.sleep]). *)
Theorem driver_idle_forever w c :
  star (Idle, w) c -> c = (Idle, w) /\ step c c.
Proof.
  remember (Idle, w) as c0 eqn:Hc0. induction 1 as [c|c1 c2 c3 Hs _ IH]; subst.
  - split; [done|constructor].
  - invc Hs. by apply IH.
Qed.

End driver_theorems.

Section driver_invariant.
Context `{Runtime}.

(** What holds of every state reachable once discovery is done. *)
Definition exec_inv (c : config) : Prop :=
  match c.1 with
  | Starting | Discovering => False
  | Crashed e => is_exception (exn_class e) = false
  | _ => True
  end.

Lemma exec_inv_step c c' : step c c' -> exec_inv c -> exec_inv c'.
Proof.
  intros Hs Hi. destruct Hs as [| |n ns w c Hc|w c Hc| |]; subst; try done.
  unfold after, exec_inv. destruct (worker_folder n w) eqn:Hf; try done.
  by eapply worker_folder_raises_base.
Qed.

(** C14. Once the folders are being executed, the worker can only crash
    on a [BaseException] that is not an [Exception]: every [Exception] of
    every skill is contained at its folder. *)
Theorem driver_crash_only_base_exception ns w e w' :
  star (Executing ns, w) (Crashed e, w') -> is_exception (exn_class e) = false.
Proof.
  intros Hs. change (exec_inv (Crashed e, w')).
  assert (Hi : exec_inv (Executing ns, w)) by done. revert Hi.
  induction Hs; [done|]. intros Hi. by eapply IHHs, exec_inv_step.
Qed.
End driver_invariant.

(** ** The worker against the schema contracts (spec 4.1, 4.3, 8)

    When the runtime validates with the [Schema] model ([validate_is_model]),
    the worker enforces the skill contracts. *)

Section contracts.
Context `{Runtime}.
Hypothesis validate_is_model : forall i s, jsonschema_validate i s = jsonschema_model i s.

Lemma validate_fails_model i s :
  jsonschema_model i s <> None -> exists e, jsonschema_validate i s = Some e.
Proof. rewrite validate_is_model. destruct (jsonschema_model i s) as [e|]; [by exists e|done]. Qed.

Variables (name : string) (w w1 : world) (meta outs : json) (in_kw : list (string * json))
          (m : py_module) (txt : string) (fields : list (string * json)).
Hypothesis Hdir : SKILLS_DIR </> name ∈ w_dirs w.
Hypothesis Hname : String.prefix "_" name = false.
Hypothesis Hload : load_skill (SKILLS_DIR </> name) w = PRet (meta, JObj in_kw, outs, m) w1.
Hypothesis Hsample : w_files w1 !! (SKILLS_DIR </> name </> "sample.input.json") = Some txt.
Hypothesis Hparse : json_loads txt = Ok (JObj fields).

(** C15. A sample that lacks a field the input schema requires is
    reported and the skill's [run] is never invoked: the outcome is the
    loaded world plus one error line, whatever [run] would do. *)
Theorem worker_rejects_missing_required ks k :
  In ("required", JArr ks) in_kw -> In (JStr k) ks -> assoc_lookup k fields = None ->
  exists e, worker_folder name w = PRet tt (add_line (error_line name e) w1).
Proof.
  intros Hr Hk Hf.
  destruct (validate_fails_model _ _ (schema_rejects_missing_required _ _ _ _ Hr Hk Hf))
    as [e He].
  exists e. by eapply folder_rejects_input.
Qed.

(** C11. A sample whose value has the wrong primitive type for a
    declared property is reported and never reaches [run]. *)
Theorem worker_rejects_wrong_type props p sub_kw v t :
  In ("properties", JObj props) in_kw -> In (p, JObj sub_kw) props ->
  In ("type", JStr t) sub_kw -> assoc_lookup p fields = Some v -> has_type t v = false ->
  exists e, worker_folder name w = PRet tt (add_line (error_line name e) w1).
Proof.
  intros Hp Hin Ht Hv Hty.
  assert (Hm : jsonschema_model (JObj fields) (JObj in_kw) <> None).
  { intros Hn. apply schema_accepts_sound in Hn as [_ Hprops].
    specialize (Hprops _ _ _ _ Hp Hin Hv).
    apply (schema_rejects_wrong_type _ _ _ Ht Hty). unfold jsonschema_model. by rewrite Hprops. }
  destruct (validate_fails_model _ _ Hm) as [e He].
  exists e. by eapply folder_rejects_input.
Qed.
End contracts.

Section output_contract.
Context `{Runtime}.
Hypothesis validate_is_model : forall i s, jsonschema_validate i s = jsonschema_model i s.

(** C17. A skill that returns normally but puts a value outside the
    enumeration of a declared output property is caught: the result is
    not written and the error is printed. *)
Theorem worker_rejects_output_outside_enum name w w1 w2 meta ins out_kw m txt payload f
    res_fields props p sub_kw v vs :
  SKILLS_DIR </> name ∈ w_dirs w -> String.prefix "_" name = false ->
  load_skill (SKILLS_DIR </> name) w = PRet (meta, ins, JObj out_kw, m) w1 ->
  w_files w1 !! (SKILLS_DIR </> name </> "sample.input.json") = Some txt ->
  json_loads txt = Ok payload ->
  jsonschema_validate payload ins = None ->
  mod_run m = Some f ->
  f payload w1 = PRet (JObj res_fields) w2 ->
  In ("properties", JObj props) out_kw -> In (p, JObj sub_kw) props ->
  In ("enum", JArr vs) sub_kw -> assoc_lookup p res_fields = Some v ->
  existsb (json_py_eq v) vs = false ->
  exists e, worker_folder name w = PRet tt (add_line (error_line name e) w2).
Proof.
  intros Hd Hn Hl Hs Hp Hv Hr Hf Hpr Hin He Hpv Hx.
  assert (Hm : jsonschema_model (JObj res_fields) (JObj out_kw) <> None).
  { intros Hok. apply schema_accepts_sound in Hok as [_ Hprops].
    specialize (Hprops _ _ _ _ Hpr Hin Hpv).
    apply (schema_rejects_outside_enum _ _ _ He Hx). unfold jsonschema_model. by rewrite Hprops. }
  destruct (jsonschema_model (JObj res_fields) (JObj out_kw)) as [e|] eqn:Ee; [|done].
  exists e. eapply (folder_rejects_output name w w1 meta ins (JObj out_kw) m Hd Hn Hl);
    [exact Hs|exact Hp|exact Hv|exact Hr|exact Hf|].
  by rewrite validate_is_model.
Qed.

(** C18. The worker writes no artifact for a result that misses a field
    its output schema requires: when the folder ends normally with files
    other than those the skill left, every required field of the result
    is present. *)
Theorem worker_artifact_has_required name w w1 w2 w' meta ins out_kw m txt payload f
    res_fields :
  SKILLS_DIR </> name ∈ w_dirs w -> String.prefix "_" name = false ->
  load_skill (SKILLS_DIR </> name) w = PRet (meta, ins, JObj out_kw, m) w1 ->
  w_files w1 !! (SKILLS_DIR </> name </> "sample.input.json") = Some txt ->
  json_loads txt = Ok payload ->
  jsonschema_validate payload ins = None ->
  mod_run m = Some f ->
  f payload w1 = PRet (JObj res_fields) w2 ->
  worker_folder name w = PRet tt w' -> w_files w' <> w_files w2 ->
  forall ks k, In ("required", JArr ks) out_kw -> In (JStr k) ks ->
    assoc_lookup k res_fields <> None.
Proof.
  intros Hd Hn Hl Hs Hp Hv Hr Hf Hw Hch ks k Hreq Hk.
  destruct (jsonschema_model (JObj res_fields) (JObj out_kw)) as [e|] eqn:Ee.
  - rewrite (folder_rejects_output name w w1 meta ins (JObj out_kw) m Hd Hn Hl txt payload f
               (JObj res_fields) w2 e) in Hw by first [done | rewrite validate_is_model; done].
    by injection Hw as <-.
  - apply schema_accepts_sound in Ee as [Hreq' _]. by eapply Hreq'.
Qed.
End output_contract.
