(* ===== verification/Skills.v ===== *)
(** * The skills ([src/skills/*/run.py])

    Each skill is a module with a [run(payload: dict) -> dict].  Here each
    [run] is a [json -> py json], so that the worker can load it as a
    [py_module]:
    - [compute_indices]: the index blend on binary64 floats, exactly as
      CPython computes it (the primitive floats of Rocq are IEEE 754
      binary64 with round-to-nearest-even, as CPython's [float]);
      [clamp01] is [max(0.0, min(1.0, x))] with Python's [min]/[max]
      (which keep the first argument unless the second compares strictly
      smaller or greater, so a NaN clamps to [1.0]);
    - [anti_hallucination_check]: the evidence check, with Python's [set]
      of the evidence ids and the list comprehension over the claims;
    - [rag_ingest]: one chunk per document, the chunk id built from a
      digest of the content ([hashlib.sha1], a library, is a parameter);
    - [export_report]: the markdown report, rendered in Python's order of
      evaluation after the parent of [output_path] is created, then written
      at that path.  Theorems: where it writes, and what a failing render
      leaves behind.
    [compute_indices] is loaded by the worker in [Deployment], as the
    [run] of a [py_module]. *)

From S2P Require Import Prelude Json PyRuntime Schema.
From Stdlib Require Import Floats.

(** ** Python arithmetic on JSON numbers *)

(** [float(z)] for a Python int: round to nearest even, [OverflowError]
    beyond the largest double. *)
Definition py_int_to_float (z : Z) : py float :=
  let f := float_of_Z z in
  if PrimFloat.is_infinity f then raise OverflowError "int too large to convert to float"
  else mret f.

(** A JSON number as the operand of [x - c] ([left = true]) or [c - x]
    with a float constant [c] ([bool] is an [int] in Python). *)
Definition py_as_float (left : bool) (x : json) : py float :=
  match x with
  | JFloat f => mret f
  | JInt z => py_int_to_float z
  | JBool b => mret (if b then 1%float else 0%float)
  | j => raise TypeError ("unsupported operand type(s) for -: " ++
                          if left then "'" ++ py_type_name j ++ "' and 'float'"
                          else "'float' and '" ++ py_type_name j ++ "'")
  end.

(** [min(a, b)] and [max(a, b)] of Python on floats. *)
Definition py_min (a b : float) : float := if PrimFloat.ltb b a then b else a.
Definition py_max (a b : float) : float := if PrimFloat.ltb a b then b else a.

(** [d.get(k, default)] on a dict; [AttributeError] on anything else. *)
Definition py_get (d : json) (k : string) (default : json) : py json :=
  match d with
  | JObj kvs => mret (match assoc_lookup k kvs with Some v => v | None => default end)
  | j => raise AttributeError ("'" ++ py_type_name j ++ "' object has no attribute 'get'")
  end.

(** [iter(x)] as a [for] loop, a comprehension or [set()] sees it: lists,
    the characters of a string (bytes here: exact on ASCII text), the keys
    of a dict. *)
Definition py_iter (x : json) : py (list json) :=
  match x with
  | JArr xs => mret xs
  | JStr s => mret (map (fun c => JStr (String c EmptyString)) (list_ascii_of_string s))
  | JObj kvs => mret (map (fun kv => JStr kv.1) kvs)
  | j => raise TypeError ("'" ++ py_type_name j ++ "' object is not iterable")
  end.

(** [bool(x)]: Python's truth value of a JSON value; a NaN is true. *)
Definition py_truthy (x : json) : bool :=
  match x with
  | JNull => false
  | JBool b => b
  | JInt z => negb (Z.eqb z 0)
  | JFloat f => negb (PrimFloat.eqb f 0)
  | JStr s => negb (String.eqb s "")
  | JArr l => negb (bool_decide (l = []))
  | JObj l => negb (bool_decide (l = []))
  end.

Module ComputeIndices.
Local Open Scope float_scope.

(** [clamp01(x)], line 1-2. *)
Definition clamp01 (x : float) : float := py_max 0.0 (py_min 1.0 x).

Definition IVul : float := 0.50.

(** Lines 5-10 on the three readings. *)
Definition indices (temp ph sal : float) : float * float * float * float * float :=
  let IT := clamp01 ((temp - 14.0) / 10.0) in
  let IA := clamp01 ((8.1 - ph) / 0.6) in
  let IS := clamp01 ((33.0 - sal) / 8.0) in
  let IExp := clamp01 (0.45 * IT + 0.35 * IA + 0.20 * IS) in
  let IRisk := clamp01 (IExp * IVul) in
  (IT, IA, IS, IExp, IRisk).

(** [run(payload)], lines 3-13. *)
Definition run (payload : json) : py json :=
  temp ← getitem payload "temp_c";
  ph ← getitem payload "ph_total";
  sal ← getitem payload "salinity_psu";
  t ← py_as_float true temp;
  p ← py_as_float false ph;
  s ← py_as_float false sal;
  let '(IT, IA, IS, IExp, IRisk) := indices t p s in
  site ← getitem payload "site_id";
  wd ← py_get payload "window_days" (JInt 30);
  mret (JObj [("site_id", site); ("IT", JFloat IT); ("IA", JFloat IA); ("IS", JFloat IS);
              ("IExp", JFloat IExp); ("IVul", JFloat IVul); ("IRisk", JFloat IRisk);
              ("truth_status", JStr "inferred"); ("confidence", JStr "medium");
              ("provenance", JObj [("data_version", JStr "v1.0.0");
                                   ("model_version", JStr "v1.0.0");
                                   ("scenario_version", JNull);
                                   ("window_days", wd)])]).

(** ** Properties *)

Lemma ltb_leb (a b : float) : (a <? b) = true -> (a <=? b) = true.
Proof.
  rewrite FloatAxioms.ltb_spec, FloatAxioms.leb_spec.
  unfold SpecFloat.SFltb, SpecFloat.SFleb. by destruct (SpecFloat.SFcompare _ _) as [[]|].
Qed.

(** In [0, 1] for the float order. *)
Definition in_unit (x : float) : Prop := (0.0 <=? x) = true /\ (x <=? 1.0) = true.

Lemma clamp01_bounds (x : float) : in_unit (clamp01 x).
Proof.
  unfold clamp01, py_max, py_min, in_unit.
  destruct (x <? 1.0) eqn:Hx1; destruct (0.0 <? _) eqn:H0; split; try done;
    by apply ltb_leb.
Qed.

#[local] Hint Resolve clamp01_bounds : ocean.

(** C19. [clamp01] always lands in [0, 1], for every float, NaN and
    infinities included. *)
Theorem clamp01_in_unit (x : float) : in_unit (clamp01 x).
Proof. apply clamp01_bounds. Qed.

Lemma indices_in_unit t p s :
  let '(IT, IA, IS, IExp, IRisk) := indices t p s in
  in_unit IT /\ in_unit IA /\ in_unit IS /\ in_unit IExp /\ in_unit IRisk.
Proof. unfold indices. repeat split; apply clamp01_bounds. Qed.

Lemma py_int_to_float_pure z : py_pure (py_int_to_float z).
Proof. unfold py_int_to_float. case_match; auto with ocean. Qed.

Lemma py_as_float_pure b x : py_pure (py_as_float b x).
Proof. destruct x; simpl; auto using py_int_to_float_pure with ocean. Qed.

Lemma py_get_pure d k dflt : py_pure (py_get d k dflt).
Proof. destruct d; simpl; auto with ocean. Qed.

#[local] Hint Resolve py_as_float_pure py_get_pure : ocean.

Lemma run_pure payload : py_pure (run payload).
Proof.
  unfold run. repeat (apply py_pure_bind; [auto with ocean|intros]).
  repeat case_match. auto with ocean.
Qed.

(** What a returning [run] yields: the world unchanged and the five
    indices in [0, 1]. *)
Lemma run_result_in_unit payload w r w' :
  run payload w = PRet r w' ->
  w' = w /\
  Forall (fun k => exists v, json_field k r = Some (JFloat v) /\ in_unit v)
         ["IT"; "IA"; "IS"; "IExp"; "IRisk"]%string.
Proof.
  intros Hr. split; [eapply py_pure_ret; [apply run_pure|exact Hr]|].
  unfold run in Hr. cbv [mbind py_bind] in Hr.
  repeat (case_match; try discriminate).
  match goal with E : indices ?t ?p ?s = _ |- _ =>
    pose proof (indices_in_unit t p s) as Hu; rewrite E in Hu end.
  injection Hr as <- _. destruct Hu as (? & ? & ? & ? & ?).
  repeat apply List.Forall_cons; try apply List.Forall_nil;
    eexists; (split; [reflexivity|assumption]).
Qed.

(** C20. [compute_indices] has no effect on the world, and every index
    it returns ([IT], [IA], [IS], [IExp], [IRisk]) is a float in
    [0, 1], whatever the readings. *)
Theorem run_indices_in_unit payload w r w' :
  run payload w = PRet r w' ->
  w' = w /\
  Forall (fun k => exists v, json_field k r = Some (JFloat v) /\ in_unit v)
         ["IT"; "IA"; "IS"; "IExp"; "IRisk"]%string.
Proof. apply run_result_in_unit. Qed.

(** The index-blend payload of the spec's scenario (spec section 8). *)
Definition spec_scenario_payload : json :=
  JObj [("site_id", JStr "Z1"); ("temp_c", JFloat 20.0); ("ph_total", JFloat 7.8);
        ("salinity_psu", JFloat 30.0)].

Lemma float_neq (a b : float) : Leibniz.eqb a b = false -> Some (JFloat a) <> Some (JFloat b).
Proof. intros Hab [= ->]. by rewrite (proj2 (Leibniz.eqb_spec b b) eq_refl) in Hab. Qed.

(** The spec's scenario (section 8) as the code computes it, in binary64:
    IT = 0.6, IA = 0.49999999999999972, IS = 0.375,
    IExp = 0.52000000000000002 and IRisk = 0.26000000000000001, not the
    IExp = 0.4725 and IRisk = 0.23625 the spec states
    (0.45 * 0.6 + 0.35 * 0.5 + 0.20 * 0.375 is 0.52). *)
Example compute_indices_spec_scenario w :
  exists r, run spec_scenario_payload w = PRet r w /\
    json_field "IT" r = Some (JFloat 0.6) /\
    json_field "IA" r = Some (JFloat 0.49999999999999972) /\
    json_field "IS" r = Some (JFloat 0.375) /\
    json_field "IExp" r = Some (JFloat 0.52000000000000002) /\
    json_field "IRisk" r = Some (JFloat 0.26000000000000001) /\
    json_field "IExp" r <> Some (JFloat 0.4725) /\
    json_field "IRisk" r <> Some (JFloat 0.23625).
Proof.
  eexists. split; [reflexivity|].
  vm_compute. repeat split; apply float_neq; vm_compute; reflexivity.
Qed.
End ComputeIndices.

Module AntiHallucination.
(** [set(xs)]: every element must be hashable; only emptiness matters
    below. *)
Definition py_hashable (j : json) : bool :=
  match j with JArr _ | JObj _ => false | _ => true end.

Definition py_set (xs : list json) : py (list json) :=
  match find (fun j => negb (py_hashable j)) xs with
  | Some j => raise TypeError ("unhashable type: '" ++ py_type_name j ++ "'")
  | None => mret xs
  end.

Definition review_notes : string := "Ajouter des preuves (IDs) issues RAG/DB.".
Definition pass_notes : string := "OK (bootstrap). Remplacer par un vrai claim-checker.".

(** [run(payload)], lines 1-6. *)
Definition run (payload : json) : py json :=
  ev ← py_get payload "evidence_ids" (JArr []);
  evs ← py_iter ev;
  evidence ← py_set evs;
  claims ← getitem payload "claims";
  cs ← py_iter claims;
  let missing := filter (fun _ => evidence = []) cs in
  if bool_decide (missing = []) then
    mret (JObj [("status", JStr "pass"); ("missing_evidence", JArr []);
                ("notes", JStr pass_notes)])
  else
    mret (JObj [("status", JStr "needs_review"); ("missing_evidence", JArr missing);
                ("notes", JStr review_notes)]).

Lemma py_set_hashable xs w : forallb py_hashable xs = true -> py_set xs w = PRet xs w.
Proof.
  intros Hh. unfold py_set. destruct (find _ xs) as [j|] eqn:Hf; [|done].
  apply find_some in Hf as [Hin Hj]. rewrite forallb_forall in Hh.
  by rewrite Hh in Hj.
Qed.

(** The run up to the test [if missing:], for list-valued fields. *)
Lemma run_lists kvs evs claims w :
  assoc_lookup "evidence_ids" kvs = Some (JArr evs) ->
  forallb py_hashable evs = true ->
  assoc_lookup "claims" kvs = Some (JArr claims) ->
  run (JObj kvs) w =
  (let missing := filter (fun _ => evs = []) claims in
   if bool_decide (missing = []) then
     (mret (JObj [("status", JStr "pass"); ("missing_evidence", JArr []);
                  ("notes", JStr pass_notes)]) : py json)
   else
     mret (JObj [("status", JStr "needs_review"); ("missing_evidence", JArr missing);
                 ("notes", JStr review_notes)])) w.
Proof.
  intros He Hh Hc. unfold run. cbv [mbind py_bind]. simpl. rewrite He. simpl.
  rewrite (py_set_hashable _ _ Hh). by rewrite Hc.
Qed.

(** C22. The check never relates claims to evidence: as soon as one
    evidence id is given, every claim passes, including claims that no
    evidence supports. *)
Theorem anti_hallucination_any_evidence_passes kvs evs claims w :
  assoc_lookup "evidence_ids" kvs = Some (JArr evs) -> evs <> [] ->
  forallb py_hashable evs = true ->
  assoc_lookup "claims" kvs = Some (JArr claims) ->
  run (JObj kvs) w =
  PRet (JObj [("status", JStr "pass"); ("missing_evidence", JArr []);
              ("notes", JStr pass_notes)]) w.
Proof.
  intros He Hne Hh Hc. rewrite (run_lists _ _ _ _ He Hh Hc). simpl.
  by rewrite filter_const_false.
Qed.

(** C21. With no evidence at all, every claim is reported missing, in
    order; with no claims, the check passes. *)
Theorem anti_hallucination_no_evidence kvs claims w :
  assoc_lookup "evidence_ids" kvs = Some (JArr []) ->
  assoc_lookup "claims" kvs = Some (JArr claims) ->
  run (JObj kvs) w =
  PRet (if bool_decide (claims = []) then
          JObj [("status", JStr "pass"); ("missing_evidence", JArr []);
                ("notes", JStr pass_notes)]
        else
          JObj [("status", JStr "needs_review"); ("missing_evidence", JArr claims);
                ("notes", JStr review_notes)]) w.
Proof.
  intros He Hc. rewrite (run_lists _ [] _ _ He eq_refl Hc). simpl.
  rewrite filter_const_true by done. by case_bool_decide.
Qed.
End AntiHallucination.

Module RagIngest.
Section rag.
Context `{Runtime}.
(** [hashlib.sha1(content.encode("utf-8")).hexdigest()]. *)
Variable sha1_hex : string -> string.

(** [run(payload)], lines 2-7. *)
Definition run (payload : json) : py json :=
  content ← getitem payload "content";
  match content with
  | JStr c =>
      let h := substring 0 10 (sha1_hex c) in
      doc ← getitem payload "doc_id";
      mret (JObj [("doc_id", doc);
                  ("chunks", JArr [JObj [("chunk_id", JStr (py_str doc ++ "_" ++ h ++ "_0001"));
                                         ("text", JStr c)]]);
                  ("truth_status", JStr "inferred"); ("confidence", JStr "medium")])
  | j => raise AttributeError ("'" ++ py_type_name j ++ "' object has no attribute 'encode'")
  end.
End rag.
End RagIngest.

Module ExportReport.

(** [str.isspace()] on one byte: the ASCII whitespace of Python. *)
Definition py_space (c : ascii) : bool :=
  let n := nat_of_ascii c in (Nat.leb 9 n && Nat.leb n 13) || (Nat.leb 28 n && Nat.leb n 32).

(** [s.rstrip()]: drops trailing whitespace (multi-byte Unicode spaces are
    not stripped here). *)
Fixpoint drop_spaces (l : list ascii) : list ascii :=
  match l with
  | c :: l' => if py_space c then drop_spaces l' else l
  | [] => []
  end.

Definition py_rstrip (s : string) : string :=
  string_of_list_ascii (rev (drop_spaces (rev (list_ascii_of_string s)))).

(** [x or default]. *)
Definition py_or (x default : json) : json := if py_truthy x then x else default.

(** [Path(x)] of a [str], as the string [str(Path(x))] it prints. *)
Definition py_path (x : json) : py string :=
  match x with
  | JStr s => mret (py_normpath s)
  | j => raise TypeError ("expected str, bytes or os.PathLike object, not " ++ py_type_name j)
  end.

(** [for x in xs: lines += f(x)], the exceptions of [f] propagating. *)
Fixpoint py_concat_map (f : json -> py (list string)) (xs : list json) : py (list string) :=
  match xs with
  | [] => mret []
  | x :: xs' => l ← f x; rest ← py_concat_map f xs'; mret (l ++ rest)%list
  end.

Section export.
Context `{Runtime}.

(** The lines of one indicator, lines 16-21 of [run]. *)
Definition indicator_lines (it : json) : py (list string) :=
  v ← py_get it "value" JNull;
  unit ← py_get it "unit" JNull;
  iid ← getitem it "indicator_id";
  ts ← getitem it "truth_status";
  conf ← getitem it "confidence";
  let line := "- **" ++ py_str iid ++ "**: " ++ py_str v ++ " " ++ py_str (py_or unit (JStr "")) ++
              " " ++ em_dash ++ " *" ++ py_str ts ++ "*, confiance *" ++ py_str conf ++ "*" in
  prov ← py_get it "provenance" (JObj []);
  if py_truthy prov then
    dv ← py_get prov "data_version" JNull;
    mv ← py_get prov "model_version" JNull;
    sv ← py_get prov "scenario_version" JNull;
    mret [line; "  - provenance: data=" ++ py_str dv ++ " model=" ++ py_str mv ++
                " scenario=" ++ py_str sv]
  else mret [line].

(** The line of one source, lines 27-29. *)
Definition source_line (s : json) : py (list string) :=
  sd ← py_get s "source_date" JNull;
  notes ← py_get s "notes" JNull;
  name ← getitem s "source_name";
  mret [py_rstrip ("- " ++ py_str name ++ " (date: " ++ py_str (py_or sd (JStr "n/a")) ++ ") " ++
                   py_str (py_or notes (JStr "")))].

(** The closing line, line 31. *)
Definition golden_rule : string :=
  "R" ++ e_acute ++ "gle d" ++ right_quote ++ "or : source " ++ bullet ++ " date " ++ bullet ++
  " m" ++ e_acute ++ "thode " ++ bullet ++ " incertitude " ++ bullet ++ " version + statut mesur" ++
  e_acute ++ "|inf" ++ e_acute ++ "r" ++ e_acute ++ "|simul" ++ e_acute ++ "." ++ nl.

(** The report's lines, lines 7-31, in the order Python evaluates them. *)
Definition report_lines (payload : json) : py (list string) :=
  title ← getitem payload "title";
  zt ← getitem payload "zone_type";
  zid ← getitem payload "zone_id";
  period ← getitem payload "period";
  ks ← getitem payload "key_findings" ≫= py_iter;
  inds ← getitem payload "indicators" ≫= py_iter;
  ind_lines ← py_concat_map indicator_lines inds;
  lims ← getitem payload "limitations" ≫= py_iter;
  srcs ← getitem payload "sources" ≫= py_iter;
  src_lines ← py_concat_map source_line srcs;
  mret (List.concat
    [["# " ++ py_str title ++ nl;
      "**Zone**: " ++ py_str zt ++ " " ++ em_dash ++ " `" ++ py_str zid ++ "`  ";
      "**P" ++ e_acute ++ "riode**: " ++ py_str period ++ nl;
      "## R" ++ e_acute ++ "sultats cl" ++ e_acute ++ "s" ++ nl];
     map (fun k => "- " ++ py_str k) ks;
     [nl ++ "## Indicateurs (avec statut de v" ++ e_acute ++ "rit" ++ e_acute ++ ")" ++ nl];
     ind_lines;
     [nl ++ "## Limites & incertitudes" ++ nl];
     map (fun l => "- " ++ py_str l) lims;
     [nl ++ "## Sources" ++ nl];
     src_lines;
     [nl ++ "---" ++ nl; golden_rule]]).

(** [run(payload)], lines 3-34: the parent directory is created before the
    report is rendered, and the file is written at the caller's path. *)
Definition run (payload : json) : py json :=
  op ← getitem payload "output_path";
  out_path ← py_path op;
  mkdir_parents (dirname out_path);;
  lines ← report_lines payload;
  write_text out_path (String.concat nl lines);;
  mret (JObj [("status", JStr "ok"); ("written_to", JStr out_path)]).

(** C37. [export_report] writes its rendering at [str(Path(output_path))],
    the caller's path with doubled and trailing separators and [.] parts
    removed, replacing any file there, once the parent directory exists
    and the report renders, and returns that path as [written_to]; no
    path is refused. *)
Theorem export_report_writes_output_path kvs p w w1 ls :
  assoc_lookup "output_path" kvs = Some (JStr p) ->
  mkdir_parents (dirname (py_normpath p)) w = PRet tt w1 ->
  report_lines (JObj kvs) w1 = PRet ls w1 ->
  py_normpath p ∉ w_dirs w1 ->
  run (JObj kvs) w =
    PRet (JObj [("status", JStr "ok"); ("written_to", JStr (py_normpath p))])
         (set_files (<[py_normpath p := String.concat nl ls]> (w_files w1)) w1).
Proof.
  intros Hp Hmk Hr Hdir. destruct (mkdir_parents_ret _ _ _ Hmk) as [Hd _].
  unfold run. cbv [mbind py_bind mret py_ret getitem py_path]. rewrite Hp, Hmk, Hr.
  by rewrite write_text_ok.
Qed.

(** C38. A report that fails to render (a missing key, a value of the
    wrong type) raises its exception after the parent directory of
    [Path(output_path)] has been created: the directory stays, no file is
    written. *)
Theorem export_report_error_after_mkdir kvs p w w1 e :
  assoc_lookup "output_path" kvs = Some (JStr p) ->
  mkdir_parents (dirname (py_normpath p)) w = PRet tt w1 ->
  report_lines (JObj kvs) w1 = PRaise e w1 ->
  run (JObj kvs) w = PRaise e w1 /\ dirname (py_normpath p) ∈ w_dirs w1 /\ w_files w1 = w_files w.
Proof.
  intros Hp Hmk Hr. split; [|by apply mkdir_parents_ret].
  unfold run. cbv [mbind py_bind mret py_ret getitem py_path]. by rewrite Hp, Hmk, Hr.
Qed.

End export.

End ExportReport.
