(* ===== verification/Iob.v ===== *)
(** * The API ([src/services/api/app/main.py])

    [compute_iob] classifies the aragonite saturation [omega_now] into a
    base level (step 1) and moves it by at most one for the 24 h / 72 h
    trend (step 2), clamped to [0, 3]; [_get_iob_card_copy] maps a level to
    its card texts.  The [iob_card] handler reads the latest
    [omega_arag] row of a zone and the medians and oldest instants of its
    24 h and 72 h windows from [public.indicators], here a list of rows
    queried by functions with Postgres' semantics, and builds the card.
    HTTP errors ([HTTPException]) are values of [api_result] (in [Json]).
    Python's [round(x, n)] and [datetime.isoformat] are section
    parameters; floats are binary64 as in CPython, levels are Python ints
    ([Z]), instants are microseconds since the epoch.

    The theorems: the error cases of [compute_iob], the range of its level
    and its trend rule, the card table, and for [iob_card] the 500 without
    a DSN, the latest-reading guarantee, the card/level agreement, and the
    behaviours the queries cause (NULL times hide the data, NaN values
    become 400, the fallback branch is dead, the 72 h span stays below
    72 h). *)

From S2P Require Import Prelude Json PyRuntime Skills.
From Stdlib Require Import Floats.


Section iob.
Variable py_round : float -> Z -> float.

Local Open Scope float_scope.

(** Step 1 of [compute_iob], lines 23-30. *)
Definition iob_base_level (omega_now : float) : Z :=
  if 2.2 <=? omega_now then 0%Z
  else if 1.9 <=? omega_now then 1%Z
  else if 1.7 <=? omega_now then 2%Z
  else 3%Z.

Definition iob_threshold : float := 0.2.

(** Step 2 of [compute_iob], lines 33-41. *)
Definition iob_adjust (delta_24h delta_72h : float) : Z :=
  if (delta_24h <=? - iob_threshold) || (delta_72h <=? - iob_threshold) then 1%Z
  else if (iob_threshold <=? delta_24h) && (iob_threshold <=? delta_72h) then (-1)%Z
  else 0%Z.

(** The finite check of lines 18-20, in the order of the tuple. *)
Fixpoint first_non_finite (vs : list (string * float)) : option string :=
  match vs with
  | [] => None
  | (name, v) :: vs' => if PrimFloat.is_finite v then first_non_finite vs' else Some name
  end.

(** [compute_iob(omega_now, omega_24h, omega_72h)], lines 17-52. *)
Definition compute_iob (omega_now omega_24h omega_72h : float) : api_result :=
  match first_non_finite [("omega_now", omega_now); ("omega_24h", omega_24h);
                          ("omega_72h", omega_72h)]%string with
  | Some name => HttpError 400 (name ++ " must be a finite number")
  | None =>
      let delta_24h := omega_now - omega_24h in
      let delta_72h := omega_now - omega_72h in
      let level := Z.max 0 (Z.min 3 (iob_base_level omega_now + iob_adjust delta_24h delta_72h)) in
      Body (JObj [("iob_level", JInt level); ("omega_now", JFloat omega_now);
                  ("omega_24h", JFloat omega_24h); ("omega_72h", JFloat omega_72h);
                  ("delta_24h", JFloat (py_round delta_24h 3));
                  ("delta_72h", JFloat (py_round delta_72h 3))])
  end.
End iob.

(** A card's four texts. *)
Record card : Type := mk_card {
  card_status : string;
  card_title : string;
  card_description : string;
  card_action : string
}.

(** [_get_iob_card_copy(iob_level)], lines 55-82. *)
Definition get_iob_card_copy (iob_level : Z) : card :=
  if (iob_level <=? 0)%Z then
    mk_card "green" "Situation favorable"
      "La saturation est au-dessus des seuils de confort pour la calcification."
      ("Maintenir les proc" ++ e_acute ++ "dures usuelles.")
  else if (iob_level =? 1)%Z then
    mk_card "yellow" "Vigilance"
      "La saturation baisse et peut se rapprocher de seuils plus contraignants."
      "Surveiller les manipulations sensibles et renforcer le suivi."
  else if (iob_level =? 2)%Z then
    mk_card "orange" "Stress potentiel"
      "La saturation approche des seuils contraignants pour la calcification."
      "Adapter les manipulations sensibles."
  else
    mk_card "red" ("Stress " ++ e_acute ++ "lev" ++ e_acute)
      "La saturation est sous des seuils critiques pour la calcification."
      ("R" ++ e_acute ++ "duire les expositions et d" ++ e_acute ++
       "clencher les mesures de mitigation.").

(** The card as the dict the handler iterates over. *)
Definition card_items (c : card) : list (string * json) :=
  [("status", JStr (card_status c)); ("title", JStr (card_title c));
   ("description", JStr (card_description c)); ("action", JStr (card_action c))].

(** ** The [iob_card] endpoint, lines 85-95 and 124-253 *)

(** A [datetime]: [dt_us] is the instant in microseconds since the epoch
    for an aware value, the wall clock read as UTC for a naive one;
    [dt_offset] is [utcoffset()] in microseconds, [None] when naive. *)
Record datetime : Type := mk_datetime { dt_us : Z; dt_offset : option Z }.

(** [_ensure_aware_utc(dt)], lines 92-95: a naive value is stamped UTC, an
    aware one converted to UTC; the instant is kept either way. *)
Definition ensure_aware_utc (dt : datetime) : datetime :=
  match dt_offset dt with
  | None => mk_datetime (dt_us dt) (Some 0%Z)
  | Some _ => mk_datetime (dt_us dt) (Some 0%Z)
  end.

(** [timedelta.total_seconds()] of a span in microseconds: the int division
    [us / 10**6], correctly rounded (exact inputs below [2^53] us). *)
Definition total_seconds (us : Z) : float := (float_of_Z us / 1000000.0)%float.

(** A row of [public.indicators]; a [timestamptz] cell is an instant, which
    psycopg returns as an aware [datetime] (session time zone UTC). *)
Record indicator_row : Type := mk_row {
  row_zone_id : string;
  row_zone_type : string;
  row_indicator_id : string;
  row_value : option float;
  row_uncertainty : option float;
  row_time_end : option Z
}.

(** The [WHERE zone_id = %s AND zone_type = %s AND indicator_id =
    'omega_arag'] filter of the three queries. *)
Definition row_matches (zid zt : string) (r : indicator_row) : bool :=
  String.eqb (row_zone_id r) zid && String.eqb (row_zone_type r) zt &&
  String.eqb (row_indicator_id r) "omega_arag".

(** [ORDER BY time_end DESC]: Postgres sorts NULLs first in a descending
    order; [a] comes strictly before [b]. *)
Definition desc_nulls_first_lt (a b : option Z) : bool :=
  match a, b with
  | None, Some _ => true
  | Some x, Some y => (y <? x)%Z
  | _, _ => false
  end.

(** The first row of that order, ties kept in table order. *)
Fixpoint first_desc (best : indicator_row) (rs : list indicator_row) : indicator_row :=
  match rs with
  | [] => best
  | r :: rs' =>
      first_desc (if desc_nulls_first_lt (row_time_end r) (row_time_end best) then r else best) rs'
  end.

(** The first query, [... ORDER BY time_end DESC LIMIT 1] and [fetchone()]. *)
Definition query_latest (table : list indicator_row) (zid zt : string) : option indicator_row :=
  match List.filter (row_matches zid zt) table with
  | [] => None
  | r :: rs => Some (first_desc r rs)
  end.

(** Postgres' order on [float8]: NaN above every number. *)
Definition pg_float_le (a b : float) : bool :=
  if PrimFloat.is_nan b then true else if PrimFloat.is_nan a then false else (a <=? b)%float.

Fixpoint insert_float (x : float) (l : list float) : list float :=
  match l with
  | [] => [x]
  | y :: l' => if pg_float_le x y then x :: l else y :: insert_float x l'
  end.

Fixpoint sort_floats (l : list float) : list float :=
  match l with [] => [] | x :: l' => insert_float x (sort_floats l') end.

(** [percentile_cont(0.5) WITHIN GROUP (ORDER BY value)]: NULL on no value;
    with [k + 1] sorted values, the value at [k/2] when [k] is even, else
    Postgres' [float8_lerp(lo, hi, 0.5) = lo + 0.5 * (hi - lo)] of the two
    middle values. *)
Definition percentile_cont_half (vs : list float) : option float :=
  match sort_floats vs with
  | [] => None
  | s =>
      let k := (List.length s - 1)%nat in
      let lo := nth (Nat.div2 k) s 0%float in
      if Nat.even k then Some lo
      else Some (lo + 0.5 * (nth (S (Nat.div2 k)) s 0%float - lo))%float
  end.

Fixpoint list_min (l : list Z) : option Z :=
  match l with
  | [] => None
  | x :: l' => match list_min l' with Some m => Some (Z.min x m) | None => Some x end
  end.

(** The window queries: [percentile_cont(0.5)] of [value] and
    [MIN(time_end)] over the rows with [time_end > latest - hours]; the
    aggregates skip NULLs and the comparison drops NULL times. *)
Definition query_window (table : list indicator_row) (zid zt : string) (latest : datetime)
    (hours : Z) : option float * option datetime :=
  let lower := (dt_us latest - hours * 3600 * 1000000)%Z in
  let rows := List.filter (fun r => row_matches zid zt r &&
                match row_time_end r with Some t => (lower <? t)%Z | None => false end) table in
  (percentile_cont_half (omap row_value rows),
   option_map (fun t => mk_datetime t (Some 0%Z)) (list_min (omap row_time_end rows))).

(** [history_hours_*]: [0.0] without an oldest row. *)
Definition history_hours (latest_ts : datetime) (oldest : option datetime) : float :=
  match oldest with
  | None => 0.0%float
  | Some o => (total_seconds (dt_us latest_ts - dt_us (ensure_aware_utc o)) / 3600.0)%float
  end.

Definition progress (hours window : float) : float :=
  py_min (py_max (hours / window)%float 0.0%float) 1.0%float.

Definition opt_float_json (f : float -> float) (o : option float) : json :=
  match o with Some x => JFloat (f x) | None => JNull end.

Definition fallback_label (o : option float) : json :=
  JStr (match o with Some _ => "median_window" | None => "fallback_now" end).

(** The process environment and the database the handler reads. *)
Record iob_env : Type := mk_iob_env {
  env_database_url : option string;            (* os.getenv("DATABASE_URL") *)
  env_now : datetime;                          (* datetime.now(timezone.utc) *)
  env_indicators : option (list indicator_row)  (* None: psycopg raises *)
}.

Section iob_card.
Variable py_round : float -> Z -> float.
Variable isoformat : datetime -> string.

Definition no_data_body (zid zt : string) (now : datetime) : json :=
  JObj [("zone", JStr zid); ("zone_type", JStr zt); ("timestamp", JStr (isoformat now));
        ("status", JStr "no_data")].

(** Lines 205-232: the payload before the IOB fields. *)
Definition active_payload (zid zt : string) (latest_ts : datetime) (omega_now : float)
    (unc omega_24h omega_72h : option float) (h24 h72 : float) : list (string * json) :=
  let p24 := progress h24 24.0%float in
  let p72 := progress h72 72.0%float in
  [("zone", JStr zid); ("zone_id", JStr zid); ("zone_type", JStr zt);
   ("timestamp", JStr (isoformat latest_ts));
   ("omega_now", JFloat (py_round omega_now 2));
   ("omega_24h", opt_float_json (fun x => py_round x 2) omega_24h);
   ("omega_72h", opt_float_json (fun x => py_round x 2) omega_72h);
   ("delta_24h", opt_float_json (fun x => py_round (omega_now - x)%float 3) omega_24h);
   ("delta_72h", opt_float_json (fun x => py_round (omega_now - x)%float 3) omega_72h);
   ("unc", opt_float_json (fun x => x) unc);
   ("status", JStr "active");
   ("history", JObj [("hours", JObj [("h24", JFloat (py_round h24 2));
                                     ("h72", JFloat (py_round h72 2))]);
                     ("progress", JObj [("h24", JFloat (py_round p24 4));
                                        ("h72", JFloat (py_round p72 4))]);
                     ("reliability", JStr (if (1.0 <=? p72)%float then "stable"
                                           else "stabilizing"))])].

(** Lines 234-248: [compute_iob] on the medians (the latest value where a
    median is NULL), a 400 of it re-raised, its level's card merged into
    the payload and the fallback labels added to [history]. *)
Definition add_iob_fields (payload : list (string * json)) (omega_now : float)
    (omega_24h omega_72h : option float) : api_result :=
  let iob_24h := default omega_now omega_24h in
  let iob_72h := default omega_now omega_72h in
  match compute_iob py_round omega_now iob_24h iob_72h with
  | HttpError st d => HttpError st d
  | Body res =>
      match json_field "iob_level" res with
      | Some (JInt l) =>
          let c := get_iob_card_copy l in
          let payload := dict_set "iob_level" (JInt l) payload in
          let payload := dict_set "risk_status" (JStr (card_status c)) payload in
          let payload := foldl (fun p kv => if String.eqb kv.1 "status" then p
                                            else dict_set kv.1 kv.2 p) payload (card_items c) in
          let fb := [("omega_24h", fallback_label omega_24h);
                     ("omega_72h", fallback_label omega_72h)] in
          match assoc_lookup "history" payload with
          | Some (JObj h) => Body (JObj (dict_set "history" (JObj (dict_set "fallback" (JObj fb) h)) payload))
          | _ => HttpError 500 "Internal analysis error"
          end
      | _ => HttpError 500 "Internal analysis error"
      end
  end.

(** Lines 135-253 inside the [try]: the three queries on the table. *)
Definition iob_card_query (zid zt : string) (now : datetime) (table : list indicator_row) : api_result :=
  match query_latest table zid zt with
  | Some r =>
      match row_value r, row_time_end r with
      | Some v, Some t =>
          let latest_ts := ensure_aware_utc (mk_datetime t (Some 0%Z)) in
          let '(median_24h, oldest_24) := query_window table zid zt latest_ts 24 in
          let '(median_72h, oldest_72) := query_window table zid zt latest_ts 72 in
          let h24 := history_hours latest_ts oldest_24 in
          let h72 := history_hours latest_ts oldest_72 in
          add_iob_fields (active_payload zid zt latest_ts v (row_uncertainty r) median_24h median_72h h24 h72)
            v median_24h median_72h
      | _, _ => Body (no_data_body zid zt now)
      end
  | None => Body (no_data_body zid zt now)
  end.

(** [_database_url()], lines 85-89: the DSN, or the [HTTPException] it
    raises when the variable is unset or empty. *)
Definition database_url (env : iob_env) : api_result + string :=
  match env_database_url env with
  | Some dsn => if String.eqb dsn "" then inl (HttpError 500 "DATABASE_URL is not configured")
                else inr dsn
  | None => inl (HttpError 500 "DATABASE_URL is not configured")
  end.

(** [resolved_zone_id = station_id or zone_id]: an empty alias is falsy. *)
Definition resolve_zone (zone_id : string) (station_id : option string) : string :=
  match station_id with
  | Some s => if String.eqb s "" then zone_id else s
  | None => zone_id
  end.

(** [iob_card(zone_id, station_id, zone_type)], lines 124-253: a database
    error is logged and answered 500, an [HTTPException] passes. *)
Definition iob_card (zone_id : string) (station_id : option string) (zone_type : string)
    (env : iob_env) : api_result :=
  match database_url env with
  | inl err => err
  | inr _ =>
      match env_indicators env with
      | None => HttpError 500 "Internal analysis error"
      | Some table => iob_card_query (resolve_zone zone_id station_id) zone_type (env_now env) table
      end
  end.
End iob_card.

(** [health()], lines 109-112, and [root()], lines 255-262. *)
Definition health : json := JObj [("status", JStr "ok"); ("version", JStr "0.2.0")].

Definition root : json :=
  JObj [("service", JStr "ocean-sentinel-api");
        ("note", JStr "Prod MVP: add endpoints for indicators, RAG retrieval, exports.");
        ("truth_rule", JStr "source/date/method/uncertainty/version + measured|inferred|simulated")].

(** ** Properties of [compute_iob] *)

Lemma iob_base_level_range w : (0 <= iob_base_level w <= 3)%Z.
Proof. unfold iob_base_level. repeat case_match; lia. Qed.

Lemma iob_adjust_range d1 d2 : (-1 <= iob_adjust d1 d2 <= 1)%Z.
Proof. unfold iob_adjust. repeat case_match; lia. Qed.

#[export] Hint Resolve iob_base_level_range iob_adjust_range : ocean.

Section iob_props.
Variable py_round : float -> Z -> float.

(** The level [compute_iob] returns on finite readings. *)
Definition iob_level_of (a b c : float) : Z :=
  Z.max 0 (Z.min 3 (iob_base_level a + iob_adjust (a - b)%float (a - c)%float)).

Lemma compute_iob_finite a b c :
  PrimFloat.is_finite a = true -> PrimFloat.is_finite b = true -> PrimFloat.is_finite c = true ->
  json_field "iob_level" match compute_iob py_round a b c with Body j => j | _ => JNull end =
  Some (JInt (iob_level_of a b c)).
Proof. intros Ha Hb Hc. unfold compute_iob. simpl. by rewrite Ha, Hb, Hc. Qed.

(** C24. [compute_iob] answers 400 exactly when a reading is not finite
    (NaN or infinite), and the detail names the first such reading in the
    order [omega_now], [omega_24h], [omega_72h]. *)
Theorem compute_iob_error a b c st d :
  compute_iob py_round a b c = HttpError st d <->
  st = 400%Z /\
  ((PrimFloat.is_finite a = false /\ d = "omega_now must be a finite number") \/
   (PrimFloat.is_finite a = true /\ PrimFloat.is_finite b = false /\
      d = "omega_24h must be a finite number") \/
   (PrimFloat.is_finite a = true /\ PrimFloat.is_finite b = true /\
      PrimFloat.is_finite c = false /\ d = "omega_72h must be a finite number")).
Proof.
  unfold compute_iob. simpl.
  destruct (PrimFloat.is_finite a), (PrimFloat.is_finite b), (PrimFloat.is_finite c);
    split; intros H; try (injection H as <- <-); naive_solver.
Qed.

(** C25. On finite readings the level is in [0, 3] and at most one away
    from the base level of step 1: the trend moves the level by one step
    at most. *)
Theorem compute_iob_level_range a b c :
  PrimFloat.is_finite a = true -> PrimFloat.is_finite b = true -> PrimFloat.is_finite c = true ->
  exists l, json_field "iob_level" match compute_iob py_round a b c with Body j => j | _ => JNull end
            = Some (JInt l) /\
    (0 <= l <= 3)%Z /\ (Z.abs (l - iob_base_level a) <= 1)%Z.
Proof.
  intros Ha Hb Hc. exists (iob_level_of a b c). rewrite compute_iob_finite by done.
  split; [done|]. unfold iob_level_of.
  pose proof (iob_base_level_range a). pose proof (iob_adjust_range (a - b)%float (a - c)%float).
  lia.
Qed.

(** C26. The trend rule of [compute_iob] on finite readings: the
    [iob_level] it returns is the base level raised by one (up to 3) when
    [omega_now] dropped by at least 0.2 against [omega_24h] or against
    [omega_72h], else lowered by one (down to 0) when it rose by at least
    0.2 against both, else the base level. *)
Theorem compute_iob_trend a b c :
  PrimFloat.is_finite a = true -> PrimFloat.is_finite b = true -> PrimFloat.is_finite c = true ->
  json_field "iob_level" match compute_iob py_round a b c with Body j => j | _ => JNull end =
  Some (JInt (if ((a - b <=? - 0.2) || (a - c <=? - 0.2))%float
              then Z.min 3 (iob_base_level a + 1)
              else if ((0.2 <=? a - b) && (0.2 <=? a - c))%float
              then Z.max 0 (iob_base_level a - 1)
              else iob_base_level a)).
Proof.
  intros Ha Hb Hc. rewrite compute_iob_finite by done. f_equal. f_equal.
  unfold iob_level_of, iob_adjust, iob_threshold.
  pose proof (iob_base_level_range a).
  destruct (_ || _); [lia|]. destruct (_ && _); lia.
Qed.
End iob_props.

(** The card for a level is the card of that level clamped to
    [0, 3]: levels below 0 get the green card and levels above 3 the red
    one, and the four levels get green, yellow, orange and red. *)
Theorem get_iob_card_copy_clamp (l : Z) :
  get_iob_card_copy l = get_iob_card_copy (Z.max 0 (Z.min 3 l)) /\
  map (fun l => card_status (get_iob_card_copy l)) [0; 1; 2; 3]%Z =
    ["green"; "yellow"; "orange"; "red"].
Proof.
  split; [|reflexivity]. unfold get_iob_card_copy.
  assert (E0 : (l <=? 0)%Z = (Z.max 0 (Z.min 3 l) <=? 0)%Z)
    by (destruct (Z.leb_spec l 0), (Z.leb_spec (Z.max 0 (Z.min 3 l)) 0); lia).
  assert (E1 : (l =? 1)%Z = (Z.max 0 (Z.min 3 l) =? 1)%Z)
    by (destruct (Z.eqb_spec l 1), (Z.eqb_spec (Z.max 0 (Z.min 3 l)) 1); lia).
  assert (E2 : (l =? 2)%Z = (Z.max 0 (Z.min 3 l) =? 2)%Z)
    by (destruct (Z.eqb_spec l 2), (Z.eqb_spec (Z.max 0 (Z.min 3 l)) 2); lia).
  by rewrite E0, E1, E2.
Qed.

(** ** Properties of the [iob_card] queries *)

Ltac desc_cases :=
  repeat match goal with
         | a : option Z |- _ => destruct a
         end; simpl in *; rewrite ?Z.ltb_lt, ?Z.ltb_ge in *; intuition (try done; lia).

Lemma desc_nulls_first_lt_trans a b c :
  desc_nulls_first_lt a b = true -> desc_nulls_first_lt b c = true -> desc_nulls_first_lt a c = true.
Proof. desc_cases. Qed.

(** The order is a strict weak order: [a < c] puts [b] after [a] or
    before [c]. *)
Lemma desc_nulls_first_lt_weak a b c :
  desc_nulls_first_lt a c = true ->
  desc_nulls_first_lt a b = true \/ desc_nulls_first_lt b c = true.
Proof.
  destruct a as [a|], b as [b|], c as [c|]; simpl; auto.
  destruct (Z.ltb_spec c a), (Z.ltb_spec b a), (Z.ltb_spec c b); auto; lia.
Qed.

Lemma first_desc_in b rs : In (first_desc b rs) (b :: rs).
Proof.
  revert b. induction rs as [|r rs IH]; intros b; simpl; [by left|].
  destruct (desc_nulls_first_lt _ _); [destruct (IH r)|destruct (IH b)]; naive_solver.
Qed.

(** No row of the list sorts strictly before the one [first_desc] picks. *)
Lemma first_desc_top b rs r :
  In r (b :: rs) -> desc_nulls_first_lt (row_time_end r) (row_time_end (first_desc b rs)) = false.
Proof.
  revert b r. induction rs as [|r' rs IH]; intros b r Hin; simpl.
  - destruct Hin as [->|[]]. destruct (row_time_end r); simpl; [apply Z.ltb_irrefl|done].
  - destruct (desc_nulls_first_lt (row_time_end r') (row_time_end b)) eqn:E;
      destruct Hin as [->|[->|Hin]]; try (apply IH; by (left + right)).
    + destruct (desc_nulls_first_lt (row_time_end r) (row_time_end (first_desc _ rs))) eqn:E'; [|done].
      pose proof (IH r' r' (or_introl eq_refl)) as H.
      by rewrite (desc_nulls_first_lt_trans _ _ _ E E') in H.
    + destruct (desc_nulls_first_lt (row_time_end r) (row_time_end (first_desc _ rs))) eqn:E'; [|done].
      pose proof (IH b b (or_introl eq_refl)) as H.
      destruct (desc_nulls_first_lt_weak _ (row_time_end b) _ E'); congruence.
Qed.

(** The first query returns a matching row that no matching row sorts
    before. *)
Lemma query_latest_spec table zid zt r :
  query_latest table zid zt = Some r ->
  In r table /\ row_matches zid zt r = true /\
  forall r', In r' table -> row_matches zid zt r' = true ->
    desc_nulls_first_lt (row_time_end r') (row_time_end r) = false.
Proof.
  unfold query_latest. destruct (List.filter _ table) as [|b rs] eqn:Hf; [done|]. intros [= <-].
  pose proof (first_desc_in b rs) as Hin. rewrite <- Hf, filter_In in Hin.
  split_and!; try apply Hin. intros r' H1 H2. apply first_desc_top. rewrite <- Hf. by apply filter_In.
Qed.

Lemma query_latest_found table zid zt r :
  In r table -> row_matches zid zt r = true -> exists r', query_latest table zid zt = Some r'.
Proof.
  intros H1 H2. unfold query_latest.
  assert (Hin : In r (List.filter (row_matches zid zt) table)) by (by apply filter_In).
  destruct (List.filter _ _); [done|eauto].
Qed.

Lemma insert_float_length x l : List.length (insert_float x l) = S (List.length l).
Proof. induction l as [|y l IH]; simpl; [done|]. destruct (pg_float_le x y); simpl; auto. Qed.

Lemma sort_floats_length l : List.length (sort_floats l) = List.length l.
Proof. induction l as [|x l IH]; simpl; [done|]. by rewrite insert_float_length, IH. Qed.

(** [percentile_cont] is NULL only on an empty group. *)
Lemma percentile_cont_half_some vs : vs <> [] -> percentile_cont_half vs <> None.
Proof.
  intros Hvs. unfold percentile_cont_half. pose proof (sort_floats_length vs) as Hl.
  destruct (sort_floats vs); [destruct vs; simpl in Hl; [done|lia]|].
  by destruct (Nat.even _).
Qed.

Lemma list_min_some l : l <> [] -> list_min l <> None.
Proof. destruct l as [|x l]; simpl; [done|]. by destruct (list_min l). Qed.

(** A matching row with a value at the latest instant lies in every window
    ending there, so the window's median and oldest instant are not NULL. *)
Lemma query_window_some table zid zt r v t o hours :
  In r table -> row_matches zid zt r = true -> row_value r = Some v -> row_time_end r = Some t ->
  (0 < hours)%Z ->
  (query_window table zid zt (mk_datetime t o) hours).1 <> None /\
  (query_window table zid zt (mk_datetime t o) hours).2 <> None.
Proof.
  intros Hin Hm Hv Ht Hh. unfold query_window. simpl.
  set (rows := List.filter _ table).
  assert (Hr : r ∈ rows).
  { apply list_elem_of_In, filter_In. rewrite Hm, Ht. split; [done|]. apply Z.ltb_lt. lia. }
  split; [apply percentile_cont_half_some|].
  - intros Hnil. assert (Hel : v ∈ omap row_value rows) by (apply list_elem_of_omap; eauto).
    rewrite Hnil in Hel. by apply not_elem_of_nil in Hel.
  - assert (Hel : t ∈ omap row_time_end rows) by (apply list_elem_of_omap; eauto).
    destruct (list_min (omap row_time_end rows)) eqn:E; [done|].
    apply list_min_some in E; [done|]. intros Hnil.
    rewrite Hnil in Hel. by apply not_elem_of_nil in Hel.
Qed.



Section iob_card_props.
Variable py_round : float -> Z -> float.
Variable isoformat : datetime -> string.

(** What [add_iob_fields] adds to a payload when it answers. *)
Lemma add_iob_fields_spec p v m24 m72 j :
  add_iob_fields py_round p v m24 m72 = Body j ->
  PrimFloat.is_finite v = true /\
  exists h, assoc_lookup "history" p = Some (JObj h) /\
  let l := iob_level_of v (default v m24) (default v m72) in
  let c := get_iob_card_copy l in
  j = JObj (dict_set "history" (JObj (dict_set "fallback"
             (JObj [("omega_24h", fallback_label m24); ("omega_72h", fallback_label m72)]) h))
        (dict_set "action" (JStr (card_action c)) (dict_set "description" (JStr (card_description c))
        (dict_set "title" (JStr (card_title c)) (dict_set "risk_status" (JStr (card_status c))
        (dict_set "iob_level" (JInt l) p)))))).
Proof.
  unfold add_iob_fields.
  destruct (PrimFloat.is_finite v) eqn:Hv, (PrimFloat.is_finite (default v m24)) eqn:H24,
    (PrimFloat.is_finite (default v m72)) eqn:H72;
    unfold compute_iob; simpl; rewrite ?Hv, ?H24, ?H72; simpl; try discriminate.
  rewrite !dict_set_lookup. simpl.
  destruct (assoc_lookup "history" p) as [[]|]; try discriminate. intros [= <-]. eauto.
Qed.

(** An active card: the latest matching row has a finite value, both
    windows have a median, and the body is the payload of lines 209-232
    with the IOB fields of lines 236-246 added. *)
Lemma iob_card_active zid st zt env j :
  iob_card py_round isoformat zid st zt env = Body j ->
  json_field "status" j = Some (JStr "active") ->
  exists table r v t m24 o24 m72 o72 h,
    env_indicators env = Some table /\ query_latest table (resolve_zone zid st) zt = Some r /\
    row_value r = Some v /\ row_time_end r = Some t /\ PrimFloat.is_finite v = true /\
    query_window table (resolve_zone zid st) zt (mk_datetime t (Some 0%Z)) 24 = (Some m24, Some o24) /\
    query_window table (resolve_zone zid st) zt (mk_datetime t (Some 0%Z)) 72 = (Some m72, Some o72) /\
    let p := active_payload py_round isoformat (resolve_zone zid st) zt (mk_datetime t (Some 0%Z))
               v (row_uncertainty r) (Some m24) (Some m72)
               (history_hours (mk_datetime t (Some 0%Z)) (Some o24))
               (history_hours (mk_datetime t (Some 0%Z)) (Some o72)) in
    assoc_lookup "history" p = Some (JObj h) /\
    let l := iob_level_of v m24 m72 in
    let c := get_iob_card_copy l in
    j = JObj (dict_set "history" (JObj (dict_set "fallback"
               (JObj [("omega_24h", JStr "median_window"); ("omega_72h", JStr "median_window")]) h))
          (dict_set "action" (JStr (card_action c)) (dict_set "description" (JStr (card_description c))
          (dict_set "title" (JStr (card_title c)) (dict_set "risk_status" (JStr (card_status c))
          (dict_set "iob_level" (JInt l) p)))))).
Proof.
  intros Hj Hs. unfold iob_card, database_url in Hj.
  destruct (env_database_url env) as [dsn|]; [destruct (String.eqb dsn "")|]; try discriminate.
  destruct (env_indicators env) as [table|] eqn:Htab; [|discriminate].
  unfold iob_card_query in Hj.
  destruct (query_latest table _ zt) as [r|] eqn:Hr;
    [|injection Hj as <-; simpl in Hs; congruence].
  destruct (row_value r) as [v|] eqn:Hv, (row_time_end r) as [t|] eqn:Ht;
    try (injection Hj as <-; simpl in Hs; congruence).
  cbn [ensure_aware_utc dt_offset dt_us] in Hj.
  destruct (query_latest_spec _ _ _ _ Hr) as (Hin & Hm & _).
  pose proof (query_window_some _ _ _ _ _ _ (Some 0%Z) 24 Hin Hm Hv Ht ltac:(lia)) as N24.
  pose proof (query_window_some _ _ _ _ _ _ (Some 0%Z) 72 Hin Hm Hv Ht ltac:(lia)) as N72.
  destruct (query_window table _ zt _ 24) as [[m24|] [o24|]] eqn:E24; try naive_solver.
  destruct (query_window table _ zt _ 72) as [[m72|] [o72|]] eqn:E72; try naive_solver.
  apply add_iob_fields_spec in Hj as (Hfin & h & Hh & ->).
  exists table, r, v, t, m24, o24, m72, o72, h. cbv zeta. by split_and!.
Qed.

(** A body of the card endpoint is the [no_data] body or an active card. *)
Lemma iob_card_body_cases zid st zt env j :
  iob_card py_round isoformat zid st zt env = Body j ->
  j = no_data_body isoformat (resolve_zone zid st) zt (env_now env) \/
  json_field "status" j = Some (JStr "active").
Proof.
  intros Hj. unfold iob_card, database_url in Hj.
  destruct (env_database_url env) as [dsn|]; [destruct (String.eqb dsn "")|]; try discriminate.
  destruct (env_indicators env) as [table|]; [|discriminate].
  unfold iob_card_query in Hj.
  destruct (query_latest table _ zt) as [r|]; [|injection Hj as <-; by left].
  destruct (row_value r) as [v|], (row_time_end r) as [t|]; try (injection Hj as <-; by left).
  destruct (query_window _ _ _ _ 24), (query_window _ _ _ _ 72).
  apply add_iob_fields_spec in Hj as (_ & h & _ & ->). right.
  cbn [json_field]. by rewrite !dict_set_lookup.
Qed.
End iob_card_props.


Section iob_card_theorems.
Variable py_round : float -> Z -> float.
Variable isoformat : datetime -> string.

(** Without a [DATABASE_URL] (unset or empty) the card endpoint
    answers 500 "DATABASE_URL is not configured" before touching the
    database. *)
Theorem iob_card_database_url_missing zid st zt env :
  env_database_url env = None \/ env_database_url env = Some "" ->
  iob_card py_round isoformat zid st zt env = HttpError 500 "DATABASE_URL is not configured".
Proof. unfold iob_card, database_url. by intros [-> | ->]. Qed.

(** C28. One matching row with a NULL [time_end] turns the card into
    [no_data], whatever readings the other rows hold: [ORDER BY time_end
    DESC] puts NULLs first. *)
Theorem iob_card_null_time_end_no_data zid st zt env dsn table r :
  env_database_url env = Some dsn -> dsn <> "" -> env_indicators env = Some table ->
  In r table -> row_matches (resolve_zone zid st) zt r = true -> row_time_end r = None ->
  iob_card py_round isoformat zid st zt env =
    Body (no_data_body isoformat (resolve_zone zid st) zt (env_now env)).
Proof.
  intros Hurl Hdsn Htab Hin Hm Hnull. unfold iob_card, database_url.
  rewrite Hurl. destruct (String.eqb_spec dsn "") as [|_]; [done|]. rewrite Htab.
  unfold iob_card_query. destruct (query_latest_found _ _ _ _ Hin Hm) as [r' Hr']. rewrite Hr'.
  destruct (query_latest_spec _ _ _ _ Hr') as (_ & _ & Htop).
  specialize (Htop r Hin Hm). rewrite Hnull in Htop.
  destruct (row_time_end r'); [discriminate|]. by destruct (row_value r').
Qed.

(** C29. In an active card both fallback labels are ["median_window"]: the
    latest row lies in its own 24 h and 72 h windows, so the medians are
    never NULL and the ["fallback_now"] branch of lines 243-244 is dead. *)
Theorem iob_card_fallback_never_used zid st zt env j :
  iob_card py_round isoformat zid st zt env = Body j ->
  json_field "status" j = Some (JStr "active") ->
  exists h, json_field "history" j = Some (JObj h) /\
    assoc_lookup "fallback" h =
      Some (JObj [("omega_24h", JStr "median_window"); ("omega_72h", JStr "median_window")]).
Proof.
  intros Hj Hs.
  destruct (iob_card_active _ _ _ _ _ _ _ Hj Hs) as (? & ? & ? & ? & ? & ? & ? & ? & h & _ & _ & _ & _ & _ & _ & _ & _ & ->).
  eexists. cbn [json_field]. rewrite dict_set_lookup. split; [reflexivity|].
  by rewrite dict_set_lookup.
Qed.

(** C30. An active card's [risk_status], [title], [description] and
    [action] are the card of its [iob_level], a level in [0, 3]. *)
Theorem iob_card_risk_matches_level zid st zt env j :
  iob_card py_round isoformat zid st zt env = Body j ->
  json_field "status" j = Some (JStr "active") ->
  exists l, json_field "iob_level" j = Some (JInt l) /\ (0 <= l <= 3)%Z /\
    json_field "risk_status" j = Some (JStr (card_status (get_iob_card_copy l))) /\
    json_field "title" j = Some (JStr (card_title (get_iob_card_copy l))) /\
    json_field "description" j = Some (JStr (card_description (get_iob_card_copy l))) /\
    json_field "action" j = Some (JStr (card_action (get_iob_card_copy l))).
Proof.
  intros Hj Hs.
  destruct (iob_card_active _ _ _ _ _ _ _ Hj Hs) as (? & ? & v & ? & m24 & ? & m72 & ? & h & _ & _ & _ & _ & _ & _ & _ & _ & ->).
  exists (iob_level_of v m24 m72). cbn [json_field]. rewrite !dict_set_lookup.
  split_and!; try reflexivity; unfold iob_level_of; lia.
Qed.

(** C31. A NaN or infinite value stored in the latest row makes the card
    endpoint answer 400 "omega_now must be a finite number": a fault of the
    stored data is reported as a client error. *)
Theorem iob_card_non_finite_reading zid st zt env dsn table r v t :
  env_database_url env = Some dsn -> dsn <> "" -> env_indicators env = Some table ->
  query_latest table (resolve_zone zid st) zt = Some r ->
  row_value r = Some v -> row_time_end r = Some t -> PrimFloat.is_finite v = false ->
  iob_card py_round isoformat zid st zt env = HttpError 400 "omega_now must be a finite number".
Proof.
  intros Hurl Hdsn Htab Hr Hv Ht Hfin. unfold iob_card, database_url.
  rewrite Hurl. destruct (String.eqb_spec dsn "") as [|_]; [done|]. rewrite Htab.
  unfold iob_card_query. rewrite Hr, Hv, Ht. cbn [ensure_aware_utc dt_offset dt_us].
  destruct (query_window _ _ _ _ 24), (query_window _ _ _ _ 72).
  unfold add_iob_fields, compute_iob. simpl. by rewrite Hfin.
Qed.

(** C32. An active card reports the latest reading: a matching row whose
    [time_end] is the largest, every matching row having a non-NULL
    [time_end], with [omega_now] its value rounded to 2 places and
    [timestamp] its instant. *)
Theorem iob_card_reports_latest zid st zt env j :
  iob_card py_round isoformat zid st zt env = Body j ->
  json_field "status" j = Some (JStr "active") ->
  exists table r v t, env_indicators env = Some table /\ In r table /\
    row_matches (resolve_zone zid st) zt r = true /\
    row_value r = Some v /\ row_time_end r = Some t /\
    (forall r', In r' table -> row_matches (resolve_zone zid st) zt r' = true ->
       exists t', row_time_end r' = Some t' /\ (t' <= t)%Z) /\
    json_field "omega_now" j = Some (JFloat (py_round v 2)) /\
    json_field "timestamp" j = Some (JStr (isoformat (mk_datetime t (Some 0%Z)))).
Proof.
  intros Hj Hs.
  destruct (iob_card_active _ _ _ _ _ _ _ Hj Hs) as (table & r & v & t & ? & ? & ? & ? & h & Htab & Hr & Hv & Ht & _ & _ & _ & _ & ->).
  destruct (query_latest_spec _ _ _ _ Hr) as (Hin & Hm & Htop).
  exists table, r, v, t. split_and!; try done.
  - intros r' Hin' Hm'. specialize (Htop r' Hin' Hm'). rewrite Ht in Htop.
    destruct (row_time_end r') as [t'|]; [|done]. apply Z.ltb_ge in Htop. eauto.
Qed.

(** C27. An active card reports the medians of its two window queries:
    [omega_24h] and [omega_72h] are the [percentile_cont(0.5)] of the
    24 h and 72 h windows below the latest row's [time_end], rounded to 2
    places, and the deltas are the latest value minus each median,
    rounded to 3 places. *)
Theorem iob_card_reports_window_medians zid st zt env j :
  iob_card py_round isoformat zid st zt env = Body j ->
  json_field "status" j = Some (JStr "active") ->
  exists table r v t m24 m72,
    env_indicators env = Some table /\
    query_latest table (resolve_zone zid st) zt = Some r /\
    row_value r = Some v /\ row_time_end r = Some t /\
    fst (query_window table (resolve_zone zid st) zt (mk_datetime t (Some 0%Z)) 24) = Some m24 /\
    fst (query_window table (resolve_zone zid st) zt (mk_datetime t (Some 0%Z)) 72) = Some m72 /\
    json_field "omega_24h" j = Some (JFloat (py_round m24 2)) /\
    json_field "omega_72h" j = Some (JFloat (py_round m72 2)) /\
    json_field "delta_24h" j = Some (JFloat (py_round (v - m24)%float 3)) /\
    json_field "delta_72h" j = Some (JFloat (py_round (v - m72)%float 3)).
Proof.
  intros Hj Hs.
  destruct (iob_card_active _ _ _ _ _ _ _ Hj Hs) as (table & r & v & t & m24 & ? & m72 & ? & h & Htab & Hr & Hv & Ht & _ & E24 & E72 & _ & ->).
  exists table, r, v, t, m24, m72. rewrite E24, E72.
  split_and!; try done; cbn [json_field]; rewrite !dict_set_lookup; reflexivity.
Qed.

(** C40. The keys of an active card in the order the client reads them
    (Python dicts keep insertion order, and FastAPI serialises them in
    that order): the payload's keys, where [history] keeps its place when
    it is assigned again, then the IOB fields; inside [history],
    [fallback] comes last. *)
Theorem iob_card_key_order zid st zt env j :
  iob_card py_round isoformat zid st zt env = Body j ->
  json_field "status" j = Some (JStr "active") ->
  exists kvs h, j = JObj kvs /\
    map fst kvs = ["zone"; "zone_id"; "zone_type"; "timestamp"; "omega_now"; "omega_24h";
                   "omega_72h"; "delta_24h"; "delta_72h"; "unc"; "status"; "history";
                   "iob_level"; "risk_status"; "title"; "description"; "action"] /\
    assoc_lookup "history" kvs = Some (JObj h) /\
    map fst h = ["hours"; "progress"; "reliability"; "fallback"].
Proof.
  intros Hj Hs.
  destruct (iob_card_active _ _ _ _ _ _ _ Hj Hs) as (? & ? & ? & ? & ? & ? & ? & ? & h & _ & _ & _ & _ & _ & _ & _ & Hh & ->).
  simpl in Hh. injection Hh as <-. do 2 eexists. split_and!; reflexivity.
Qed.
End iob_card_theorems.
