(* ===== verification/Mcp.v ===== *)
(** * The MCP gateway ([src/services/mcp/app/main.py])

    Two read-only endpoints behind an admin token: [/policies] returns the
    parsed [policies/rbac.yaml] under [BASE], [/servers] the text of every
    [*.json] file of [BASE/servers] by name.  [ADMIN_TOKEN] is read from the
    environment once, at import; [require_admin] answers 500 when it is
    empty and 401 unless the [X-Admin-Token] header equals it.  An exception
    the handlers do not catch (a missing file, a YAML error) is Starlette's
    500 ["Internal Server Error"].  The endpoints read the [world] of
    [PyRuntime] and do not change it; YAML parsing is the [Runtime] class.

    The theorems: no endpoint returns a body without the configured token;
    [glob("*.json")] yields exactly the entries whose name ends in [.json];
    [/servers] returns those files of the directory with their contents; [/policies] returns the parsed policy, and 500 when the
    file is missing. *)

From S2P Require Import Prelude Json PyRuntime.

Module Mcp.

Definition BASE : string := "/app/app".

(** [ADMIN_TOKEN = os.getenv("MCP_ADMIN_TOKEN", "")], line 6. *)
Definition ADMIN_TOKEN (env_token : option string) : string := default "" env_token.

(** [require_admin(token)], lines 8-12: [None] lets the request through. *)
Definition require_admin (admin : string) (token : option string) : option api_result :=
  if String.eqb admin "" then Some (HttpError 500 "MCP_ADMIN_TOKEN not set")
  else if bool_decide (token = Some admin) then None
  else Some (HttpError 401 "unauthorized").

(** [health()], lines 14-16. *)
Definition health : json := JObj [("status", JStr "ok"); ("mode", JStr "bootstrap")].

(** The response to a handler body: its value, or Starlette's 500 for an
    uncaught exception; [None] when it does not return. *)
Definition serve (m : py json) (w : world) : option api_result :=
  match m w with
  | PRet j _ => Some (Body j)
  | PRaise _ _ => Some (HttpError 500 "Internal Server Error")
  | PHang => None
  end.

(** [fnmatch(name, "*.json")]: the name ends with [".json"]. *)
Definition ends_with (suf s : string) : bool :=
  (String.length suf <=? String.length s)%nat &&
  String.eqb (substring (String.length s - String.length suf) (String.length suf) s) suf.

(** [Path(d).glob("*.json")], as names: nothing when [d] is not a
    directory. *)
Definition glob_json (d : string) : py (list string) :=
  fun w => PRet (if bool_decide (d ∈ w_dirs w)
                 then List.filter (ends_with ".json") (children d w) else []) w.

(** [{f.name: f.read_text(encoding="utf-8") for f in ...}], line 28. *)
Fixpoint read_servers (d : string) (ns : list string) : py (list (string * json)) :=
  match ns with
  | [] => mret []
  | n :: ns' =>
      txt ← read_text (d </> n);
      rest ← read_servers d ns';
      mret ((n, JStr txt) :: rest)
  end.

Section endpoints.
Context `{Runtime}.

(** [policies(x_admin_token)], lines 18-22. *)
Definition policies (admin : string) (x_admin_token : option string) (w : world) : option api_result :=
  match require_admin admin x_admin_token with
  | Some err => Some err
  | None =>
      serve (txt ← read_text (BASE </> "policies" </> "rbac.yaml");
             rbac ← of_result (yaml_safe_load txt);
             mret (JObj [("rbac", rbac)])) w
  end.

(** [servers(x_admin_token)], lines 24-28. *)
Definition servers (admin : string) (x_admin_token : option string) (w : world) : option api_result :=
  match require_admin admin x_admin_token with
  | Some err => Some err
  | None =>
      serve (ns ← glob_json (BASE </> "servers");
             kvs ← read_servers (BASE </> "servers") ns;
             mret (JObj kvs)) w
  end.
End endpoints.

(** ** Properties *)

Lemma require_admin_None admin tok :
  require_admin admin tok = None <-> admin <> "" /\ tok = Some admin.
Proof.
  unfold require_admin. destruct (String.eqb_spec admin ""); [naive_solver|].
  case_bool_decide; naive_solver.
Qed.

Lemma require_admin_error admin tok r :
  require_admin admin tok = Some r -> exists st d, r = HttpError st d.
Proof. unfold require_admin. repeat case_match; intros [= <-]; eauto. Qed.

(** Reading files that exist yields their texts, in order. *)
Lemma read_servers_ok d ns w :
  (forall n, In n ns -> exists s, w_files w !! (d </> n) = Some s) ->
  read_servers d ns w = PRet (map (fun n => (n, JStr (default "" (w_files w !! (d </> n))))) ns) w.
Proof.
  induction ns as [|n ns IH]; intros Hns; [done|]. simpl.
  destruct (Hns n (or_introl eq_refl)) as [s Hs].
  rewrite (py_bind_PRet _ _ _ s w) by (by apply read_text_ok).
  rewrite (py_bind_PRet _ _ _ _ w) by (apply IH; intros; apply Hns; by right).
  by rewrite Hs.
Qed.



Section endpoint_props.
Context `{Runtime}.

(** C34. Neither [/policies] nor [/servers] returns a body unless
    [MCP_ADMIN_TOKEN] is set (non-empty) and the [X-Admin-Token] header
    equals it; in particular an empty token never grants access. *)
Theorem mcp_endpoints_require_admin admin tok w j :
  policies admin tok w = Some (Body j) \/ servers admin tok w = Some (Body j) ->
  admin <> "" /\ tok = Some admin.
Proof.
  unfold policies, servers. destruct (require_admin admin tok) as [r|] eqn:E.
  - destruct (require_admin_error _ _ _ E) as (? & ? & ->). naive_solver.
  - intros _. by apply require_admin_None.
Qed.

(** C35. With the right token, [/servers] answers the [*.json] entries of
    [BASE/servers], each with its file's text, when they are files. *)
Theorem servers_lists_json_files admin w :
  admin <> "" -> (BASE </> "servers") ∈ w_dirs w ->
  (forall n, In n (List.filter (ends_with ".json") (children (BASE </> "servers") w)) ->
     exists s, w_files w !! (BASE </> "servers" </> n) = Some s) ->
  servers admin (Some admin) w =
    Some (Body (JObj (map (fun n => (n, JStr (default "" (w_files w !! (BASE </> "servers" </> n)))))
                          (List.filter (ends_with ".json") (children (BASE </> "servers") w))))).
Proof.
  intros Hadm Hdir Hfiles. unfold servers.
  rewrite (proj2 (require_admin_None admin (Some admin))) by done.
  unfold serve. rewrite (py_bind_PRet _ _ w _ w) by (unfold glob_json; by rewrite bool_decide_true).
  by rewrite (py_bind_PRet _ _ _ _ w) by (by apply read_servers_ok).
Qed.

(** C13. With the right token, [/policies] answers [{"rbac": ...}] with
    the parsed [rbac.yaml], and 500 when the file is missing. *)
Theorem policies_rbac admin w :
  admin <> "" ->
  (forall txt j, w_files w !! (BASE </> "policies" </> "rbac.yaml") = Some txt ->
     yaml_safe_load txt = Ok j -> policies admin (Some admin) w = Some (Body (JObj [("rbac", j)]))) /\
  (w_files w !! (BASE </> "policies" </> "rbac.yaml") = None ->
     policies admin (Some admin) w = Some (HttpError 500 "Internal Server Error")).
Proof.
  intros Hadm. unfold policies.
  rewrite (proj2 (require_admin_None admin (Some admin))) by done. unfold serve. split.
  - intros txt j Hf Hy. rewrite (py_bind_PRet _ _ _ txt w) by (by apply read_text_ok).
    cbv [mbind py_bind of_result]. by rewrite Hy.
  - intros Hf. destruct (read_text_missing _ _ Hf) as (e & He & _).
    by rewrite (py_bind_PRaise _ _ _ e w).
Qed.
End endpoint_props.

End Mcp.
