(* ===== verification/ApiSchema.v ===== *)
(** * The response type of the IOB card

    [iob_card] builds its body as a Python dict (lines 150-156 and
    209-246 of [src/services/api/app/main.py]); nothing in the code
    declares its shape.  [iob_card_schema] writes that shape down as a JSON
    Schema in the subset of [Schema]: the four fields every body has, the
    type of each field an active card adds, the enumerations of [status],
    [risk_status], [reliability] and the fallback labels, and the range of
    [iob_level].  The theorem is type soundness of the handler: every body
    it answers, for every table of rows and every [round] and
    [isoformat], is accepted by the validator, so a client may rely on
    the schema. *)

From S2P Require Import Prelude Json PyRuntime Schema Skills Iob.
From Stdlib Require Import Floats.

Definition schema_of_type (t : string) : json := JObj [("type", JStr t)].

Definition nullable_number : json := JObj [("type", JArr [JStr "number"; JStr "null"])].

Definition schema_enum (vs : list json) : json := JObj [("enum", JArr vs)].

Definition schema_object (required : list string) (props : list (string * json)) : json :=
  JObj [("type", JStr "object"); ("required", JArr (map JStr required)); ("properties", JObj props)].

(** The [h24]/[h72] pairs of [history]. *)
Definition window_pair_schema : json :=
  schema_object ["h24"; "h72"] [("h24", schema_of_type "number"); ("h72", schema_of_type "number")].

Definition fallback_schema : json :=
  let label := schema_enum [JStr "median_window"; JStr "fallback_now"] in
  schema_object ["omega_24h"; "omega_72h"] [("omega_24h", label); ("omega_72h", label)].

Definition history_schema : json :=
  schema_object ["hours"; "progress"; "reliability"; "fallback"]
    [("hours", window_pair_schema); ("progress", window_pair_schema);
     ("reliability", schema_enum [JStr "stable"; JStr "stabilizing"]);
     ("fallback", fallback_schema)].

(** The type of a card body. *)
Definition iob_card_schema : json :=
  schema_object ["zone"; "zone_type"; "timestamp"; "status"]
    [("zone", schema_of_type "string"); ("zone_id", schema_of_type "string");
     ("zone_type", schema_of_type "string"); ("timestamp", schema_of_type "string");
     ("status", schema_enum [JStr "active"; JStr "no_data"]);
     ("omega_now", schema_of_type "number");
     ("omega_24h", nullable_number); ("omega_72h", nullable_number);
     ("delta_24h", nullable_number); ("delta_72h", nullable_number); ("unc", nullable_number);
     ("history", history_schema);
     ("iob_level", JObj [("type", JStr "integer"); ("enum", JArr [JInt 0; JInt 1; JInt 2; JInt 3])]);
     ("risk_status", schema_enum [JStr "green"; JStr "yellow"; JStr "orange"; JStr "red"]);
     ("title", schema_of_type "string"); ("description", schema_of_type "string");
     ("action", schema_of_type "string")].

Section card_type.
Variable py_round : float -> Z -> float.
Variable isoformat : datetime -> string.

Lemma iob_level_cases v m24 m72 :
  let l := iob_level_of v m24 m72 in l = 0%Z \/ l = 1%Z \/ l = 2%Z \/ l = 3%Z.
Proof. unfold iob_level_of. lia. Qed.

(** The bodies of [iob_card], [no_data] and active, against the schema. *)
Lemma iob_card_body_schema zid st zt env j :
  iob_card py_round isoformat zid st zt env = Body j ->
  jsonschema_model j iob_card_schema = None.
Proof.
  intros Hj. destruct (iob_card_body_cases _ _ _ _ _ _ _ Hj) as [->|Hs]; [reflexivity|].
  destruct (iob_card_active _ _ _ _ _ _ _ Hj Hs)
    as (? & r & v & t & m24 & ? & m72 & ? & h & _ & _ & _ & _ & _ & _ & _ & Hh & ->).
  simpl in Hh. injection Hh as <-.
  unfold active_payload. cbv zeta.
  destruct (iob_level_cases v m24 m72) as [E|[E|[E|E]]]; rewrite E;
    destruct (row_uncertainty r), (1.0 <=? _)%float; reflexivity.
Qed.

(** C23. Type soundness of the card endpoint: every body [iob_card]
    answers, [no_data] or active, is accepted by [iob_card_schema]. *)
Theorem iob_card_body_typed zid st zt env j :
  iob_card py_round isoformat zid st zt env = Body j ->
  jsonschema_model j iob_card_schema = None.
Proof. apply iob_card_body_schema. Qed.
End card_type.
