(* ===== verification/Http.v ===== *)
(** * The HTTP layer of the API ([src/services/api/app/main.py])

    A request goes through the [access_log] middleware (lines 97-102),
    which logs an [http_request] event, calls the rest of the stack and
    logs an [http_response] event with the status.  Starlette's router
    then tries its route table in order: the four routes [FastAPI(...)]
    adds when the app is created ([/openapi.json], [/docs],
    [/docs/oauth2-redirect], [/redoc], served for GET and HEAD), then the
    decorated handlers of lines 105-262 ([GET] only: FastAPI adds no
    [HEAD] to them).  A route whose path matches but not its method
    answers 405; a path no route has is redirected (307) to its spelling
    with the trailing slashes removed, or with one added, when a route has
    that spelling ([redirect_slashes]; never for [/]); anything else is
    404.  FastAPI turns an [HTTPException] and a query that fails
    validation (a missing or unparsable [float]) into a response inside
    [call_next]; only an exception nothing handles escapes the middleware,
    and Starlette's outermost handler answers it 500.

    The [log] function is a trace of events ([log_event]); parsing a query
    string into a float (pydantic), [round], [datetime.isoformat], the
    Prometheus exposition and the pages FastAPI generates are section
    parameters.  A body that is not JSON (the metrics, the HTML pages) is
    its text as a [JStr]; a redirect carries the path of its [Location]. *)

From S2P Require Import Prelude Json PyRuntime Schema Skills Iob ApiSchema.
From Stdlib Require Import Floats.

(** [log(event, **fields)]. *)
Record log_event : Type := mk_event { ev_name : string; ev_fields : list (string * json) }.

(** What the client receives: a response of the app or of FastAPI, or a
    307 redirect to a path. *)
Inductive response : Type :=
| Resp : api_result -> response
| Redirect : string -> response.

(** What [call_next] yields: a response, or an exception no handler took. *)
Inductive handler_outcome : Type :=
| Handled : response -> handler_outcome
| Unhandled : exn -> handler_outcome.

Definition status_code (r : response) : Z :=
  match r with
  | Resp (Body _) => 200
  | Resp (HttpError st _) => st
  | Redirect _ => 307
  end.

Definition request_event (method path : string) : log_event :=
  mk_event "http_request" [("method", JStr method); ("path", JStr path)].

Definition response_event (method path : string) (status : Z) : log_event :=
  mk_event "http_response" [("method", JStr method); ("path", JStr path); ("status", JInt status)].

(** [access_log(request, call_next)], lines 97-102: the events it logs, in
    order, and what it passes on; an escaping exception skips the second
    [log]. *)
Definition access_log (method path : string) (call_next : handler_outcome)
    : list log_event * handler_outcome :=
  match call_next with
  | Handled r => ([request_event method path; response_event method path (status_code r)], Handled r)
  | Unhandled e => ([request_event method path], Unhandled e)
  end.

(** Starlette's [ServerErrorMiddleware], outside every user middleware. *)
Definition to_response (o : handler_outcome) : response :=
  match o with Handled r => r | Unhandled _ => Resp (HttpError 500 "Internal Server Error") end.

(** A query string as its [(key, value)] pairs; a scalar parameter takes the
    last value given for its key. *)
Definition query_param (k : string) (q : list (string * string)) : option string :=
  assoc_lookup k (rev q).

(** The routes of the app. *)
Inductive route : Type :=
| ROpenapi | RDocs | RDocsOauth | RRedoc
| RMetrics | RHealth | RIob | RIobCard | RRoot.

(** The route table in the order the router tries it; stacked decorators
    register bottom-up, so [/api/v1/health] comes before [/health]. *)
Definition routes : list (string * list string * route) :=
  [("/openapi.json", ["GET"; "HEAD"], ROpenapi);
   ("/docs", ["GET"; "HEAD"], RDocs);
   ("/docs/oauth2-redirect", ["GET"; "HEAD"], RDocsOauth);
   ("/redoc", ["GET"; "HEAD"], RRedoc);
   ("/metrics", ["GET"], RMetrics);
   ("/api/v1/health", ["GET"], RHealth);
   ("/health", ["GET"], RHealth);
   ("/api/v1/iob", ["GET"], RIob);
   ("/api/v1/iob/card", ["GET"], RIobCard);
   ("/", ["GET"], RRoot)].

(** The first route that matches path and method ([Match.FULL]). *)
Fixpoint find_route (method path : string) (tbl : list (string * list string * route))
    : option route :=
  match tbl with
  | [] => None
  | (p, ms, rt) :: tbl' =>
      if String.eqb p path && existsb (String.eqb method) ms then Some rt
      else find_route method path tbl'
  end.

(** Some route has this path ([Match.PARTIAL] at least). *)
Definition path_known (path : string) : bool :=
  existsb (fun '(p, _, _) => String.eqb p path) routes.

Fixpoint drop_slashes (l : list ascii) : list ascii :=
  match l with c :: l' => if is_slash c then drop_slashes l' else l | [] => [] end.

(** The path [redirect_slashes] tries: [path.rstrip("/")] when it ends
    with a slash, [path + "/"] otherwise. *)
Definition toggle_slash (path : string) : string :=
  match rev (list_ascii_of_string path) with
  | c :: _ =>
      if is_slash c then string_of_list_ascii (rev (drop_slashes (rev (list_ascii_of_string path))))
      else path ++ "/"
  | [] => "/"
  end.

Inductive routing : Type :=
| Serve : route -> routing
| NotAllowed
| RedirectTo : string -> routing
| NotFound.

(** [Router.app]: a full match, else a partial one (405), else the
    redirect of [redirect_slashes], else [not_found]. *)
Definition api_route (method path : string) : routing :=
  match find_route method path routes with
  | Some rt => Serve rt
  | None =>
      if path_known path then NotAllowed
      else if negb (String.eqb path "/") && path_known (toggle_slash path)
      then RedirectTo (toggle_slash path)
      else NotFound
  end.

Section http.
Variable py_round : float -> Z -> float.
Variable isoformat : datetime -> string.
(** pydantic's [float] from a query string ("2.1", "nan", "inf", ...). *)
Variable parse_float : string -> option float.
(** [generate_latest()], the Prometheus text. *)
Variable metrics_text : string.
(** The OpenAPI document and the pages FastAPI generates for the app. *)
Variable openapi_doc : json.
Variables swagger_html oauth2_redirect_html redoc_html : string.

Definition float_param (k : string) (q : list (string * string)) : option float :=
  match query_param k q with Some s => parse_float s | None => None end.

(** [iob(omega_now, omega_24h, omega_72h)], lines 115-121: three required
    [float] parameters, a validation error answered 422. *)
Definition iob (q : list (string * string)) : api_result :=
  match float_param "omega_now" q, float_param "omega_24h" q, float_param "omega_72h" q with
  | Some a, Some b, Some c => compute_iob py_round a b c
  | _, _, _ => HttpError 422 "Unprocessable Entity"
  end.

(** The handler of a route with its query defaults, lines 105-262; every
    handler of the app answers inside [call_next]: [iob_card] turns its
    exceptions into 500, [compute_iob]'s errors are [HTTPException]s, a
    bad query is FastAPI's 422. *)
Definition dispatch (env : iob_env) (rt : route) (q : list (string * string)) : handler_outcome :=
  Handled (Resp
    match rt with
    | ROpenapi => Body openapi_doc
    | RDocs => Body (JStr swagger_html)
    | RDocsOauth => Body (JStr oauth2_redirect_html)
    | RRedoc => Body (JStr redoc_html)
    | RMetrics => Body (JStr metrics_text)
    | RHealth => Body health
    | RIob => iob q
    | RIobCard =>
        iob_card py_round isoformat (default "62581" (query_param "zone_id" q))
          (query_param "station_id" q) (default "site" (query_param "zone_type" q)) env
    | RRoot => Body root
    end).

(** One request through the middleware and the router: the log events and
    the response the client receives. *)
Definition handle (env : iob_env) (method path : string) (q : list (string * string))
    : list log_event * response :=
  let '(evs, o) := access_log method path
                     (match api_route method path with
                      | Serve rt => dispatch env rt q
                      | NotAllowed => Handled (Resp (HttpError 405 "Method Not Allowed"))
                      | RedirectTo p => Handled (Redirect p)
                      | NotFound => Handled (Resp (HttpError 404 "Not Found"))
                      end) in
  (evs, to_response o).

(** C16. The card endpoint through the whole stack: a request to
    [/api/v1/iob/card] that the client receives as a body was logged as
    [http_request] then [http_response] with status 200, and the body,
    built with the query's defaults ([zone_id] 62581, [zone_type] site),
    has the card's type. *)
Theorem handle_iob_card_typed env method q evs j :
  handle env method "/api/v1/iob/card" q = (evs, Resp (Body j)) ->
  evs = [request_event method "/api/v1/iob/card"; response_event method "/api/v1/iob/card" 200] /\
  iob_card py_round isoformat (default "62581" (query_param "zone_id" q))
    (query_param "station_id" q) (default "site" (query_param "zone_type" q)) env = Body j /\
  jsonschema_model j iob_card_schema = None.
Proof.
  unfold handle, api_route. cbn -[iob_card]. destruct (String.eqb method "GET"); [|done].
  intros [= <- Hj]. rewrite Hj. split_and!; [done|done|].
  by eapply iob_card_body_schema.
Qed.
End http.
