(* ===== verification/Deployment.v ===== *)
(** * A concrete deployment of the worker

    An instance of [Runtime] in which the parsers are tables from file
    texts to values (the texts of the skill packages below), the validator
    is the [Schema] model, [importlib] maps the source of each [run.py] to
    the model of that skill in [Skills], and [json.dumps] is a compact
    printer.  It is an example environment for running the worker on a
    concrete skills directory, not a model of those libraries: the theorems
    of [Worker] hold for every [Runtime].

    The skills directory holds [compute_indices] and
    [anti_hallucination_check] with their contracts and samples, a
    [_disabled] directory, a stray [README.md], and [broken_skill], which
    lacks its output schema.

    For the API, an [indicators] table of one site with readings 10 h
    and 60 h before its latest one, rows of another zone and indicator,
    and variants with a NULL [time_end], a NaN value or five days of
    hourly readings; [round] keeps its argument and [isoformat] prints the
    instant in microseconds.  For the MCP gateway, a world with a policy
    file and a servers directory; for [export_report], a report payload
    whose [output_path] is the [run.py] of [compute_indices]. *)

From S2P Require Import Prelude Json PyRuntime Schema Worker Skills Iob Mcp ApiSchema Http.
From Stdlib Require Import Floats DecimalString.

(** ** The example runtime *)

(** The double quote character. *)
Definition dq : string := String "034"%char EmptyString.

Fixpoint json_compact (j : json) : string :=
  match j with
  | JNull => "null"
  | JBool b => if b then "true" else "false"
  | JInt z => NilZero.string_of_int (Z.to_int z)
  | JFloat _ => "<float>"
  | JStr s => dq ++ s ++ dq
  | JArr xs => "[" ++ String.concat ", " (map json_compact xs) ++ "]"
  | JObj kvs =>
      "{" ++ String.concat ", " (map (fun kv => dq ++ kv.1 ++ dq ++ ": " ++ json_compact kv.2) kvs)
      ++ "}"
  end.

(** [str(v)] as f-strings print it. *)
Definition demo_str (j : json) : string :=
  match j with
  | JStr s => s
  | JInt z => NilZero.string_of_int (Z.to_int z)
  | JBool b => if b then "True" else "False"
  | JNull => "None"
  | j => json_compact j
  end.

Section demo.
Variable docs : list (string * json).
Variable sources : list (string * (json -> py json)).

Definition demo_yaml (s : string) : result json :=
  match assoc_lookup s docs with
  | Some j => Ok j
  | None => Err (mk_exn YAMLError "while parsing a block mapping")
  end.

Definition demo_json (s : string) : result json :=
  match assoc_lookup s docs with
  | Some j => Ok j
  | None => Err (mk_exn JSONDecodeError "Expecting value: line 1 column 1 (char 0)")
  end.

Definition demo_exec (name src : string) : py py_module :=
  match assoc_lookup src sources with
  | Some f => mret (mk_module name (Some f))
  | None => raise SyntaxError "invalid syntax"
  end.

Lemma demo_yaml_exception s e : demo_yaml s = Err e -> is_exception (exn_class e) = true.
Proof. unfold demo_yaml. by case_match; intros [= <-]. Qed.

Lemma demo_json_exception s e : demo_json s = Err e -> is_exception (exn_class e) = true.
Proof. unfold demo_json. by case_match; intros [= <-]. Qed.

Definition demo_runtime : Runtime := {|
  yaml_safe_load := demo_yaml;
  json_loads := demo_json;
  json_dumps := json_compact;
  py_str := demo_str;
  jsonschema_validate := jsonschema_model;
  exec_module := demo_exec;
  yaml_safe_load_exception := demo_yaml_exception;
  json_loads_exception := demo_json_exception;
  jsonschema_validate_exception := jsonschema_model_exception;
  py_str_JStr := fun s => eq_refl
|}.
End demo.

(** ** The skill packages *)

Definition obj_schema_kw (required : list string) (props : list (string * json))
    : list (string * json) :=
  [("type", JStr "object"); ("required", JArr (map JStr required)); ("properties", JObj props)].

Definition obj_schema (required : list string) (props : list (string * json)) : json :=
  JObj (obj_schema_kw required props).

Definition typed (t : string) : json := JObj [("type", JStr t)].

Definition ci_meta : json := JObj [("id", JStr "compute_indices"); ("version", JStr "1.0.0")].
Definition ci_in_props : list (string * json) :=
  [("site_id", typed "string"); ("temp_c", typed "number");
   ("ph_total", typed "number"); ("salinity_psu", typed "number")].
Definition ci_in_kw : list (string * json) :=
  obj_schema_kw ["site_id"; "temp_c"; "ph_total"; "salinity_psu"] ci_in_props.
Definition ci_in : json := JObj ci_in_kw.
Definition ci_out_kw : list (string * json) :=
  obj_schema_kw ["site_id"; "IT"; "IA"; "IS"; "IExp"; "IVul"; "IRisk"; "truth_status"]
    [("IRisk", typed "number");
     ("truth_status", JObj [("enum", JArr [JStr "measured"; JStr "inferred"; JStr "simulated"])])].
Definition ci_out : json := JObj ci_out_kw.

Definition ah_meta : json :=
  JObj [("id", JStr "anti_hallucination_check"); ("version", JStr "1.0.0")].
Definition ah_in : json :=
  obj_schema ["claims"] [("claims", typed "array"); ("evidence_ids", typed "array")].
Definition ah_out : json :=
  obj_schema ["status"; "missing_evidence"]
    [("status", JObj [("enum", JArr [JStr "pass"; JStr "needs_review"])]);
     ("missing_evidence", typed "array")].
Definition ah_sample : json :=
  JObj [("claims", JArr [JStr "x"]); ("evidence_ids", JArr [])].

(** An output contract that admits only measured values: the inferred
    indices of [compute_indices] violate it. *)
Definition lying_out_kw : list (string * json) :=
  obj_schema_kw ["truth_status"] [("truth_status", JObj [("enum", JArr [JStr "measured"])])].
Definition lying_out : json := JObj lying_out_kw.

Definition demo_docs : list (string * json) :=
  [("id: compute_indices", ci_meta);
   ("compute_indices input schema", ci_in);
   ("compute_indices output schema", ci_out);
   ("compute_indices sample", ComputeIndices.spec_scenario_payload);
   ("id: anti_hallucination_check", ah_meta);
   ("anti_hallucination_check input schema", ah_in);
   ("anti_hallucination_check output schema", ah_out);
   ("anti_hallucination_check sample", ah_sample);
   ("id: broken_skill", JObj [("id", JStr "broken_skill")]);
   ("broken_skill input schema", JBool true);
   ("id: strict_indices", JObj [("id", JStr "strict_indices")]);
   ("strict_indices input schema", ci_in);
   ("strict_indices output schema", ci_out);
   ("strict_indices sample", JObj [("site_id", JStr "Z1")]);
   ("id: typo_indices", JObj [("id", JStr "typo_indices")]);
   ("typo_indices input schema", ci_in);
   ("typo_indices output schema", ci_out);
   ("typo_indices sample", JObj [("site_id", JInt 7); ("temp_c", JFloat 20);
                                 ("ph_total", JFloat 7.8); ("salinity_psu", JFloat 30)]);
   ("id: lying_indices", JObj [("id", JStr "lying_indices")]);
   ("lying_indices input schema", ci_in);
   ("lying_indices output schema", lying_out);
   ("lying_indices sample", ComputeIndices.spec_scenario_payload);
   ("id: failing_skill", JObj [("id", JStr "failing_skill")]);
   ("failing_skill input schema", JBool true);
   ("failing_skill output schema", JBool true);
   ("failing_skill sample", JObj []);
   ("id: exiting_skill", JObj [("id", JStr "exiting_skill")]);
   ("exiting_skill input schema", JBool true);
   ("exiting_skill output schema", JBool true);
   ("exiting_skill sample", JObj []);
   ("id: hanging_skill", JObj [("id", JStr "hanging_skill")]);
   ("hanging_skill input schema", JBool true);
   ("hanging_skill output schema", JBool true);
   ("hanging_skill sample", JObj [])].

(** Skill bodies that fail: [raise ValueError("bad reading")],
    [sys.exit(1)], and [while True: pass]. *)
Definition failing_run (_ : json) : py json := raise ValueError "bad reading".
Definition exiting_run (_ : json) : py json := raise SystemExit "1".
Definition hanging_run (_ : json) : py json := fun _ => PHang.

Definition demo_sources : list (string * (json -> py json)) :=
  [("compute_indices/run.py", ComputeIndices.run);
   ("strict_indices/run.py", ComputeIndices.run);
   ("lying_indices/run.py", ComputeIndices.run);
   ("typo_indices/run.py", ComputeIndices.run);
   ("anti_hallucination_check/run.py", AntiHallucination.run);
   ("failing_skill/run.py", failing_run);
   ("exiting_skill/run.py", exiting_run);
   ("hanging_skill/run.py", hanging_run)].

Definition demo_rt : Runtime := demo_runtime demo_docs demo_sources.
#[local] Existing Instance demo_rt.

Definition skill_files (name : string) (with_output : bool) : list (string * string) :=
  [(SKILLS_DIR </> name </> "skill.yaml", "id: " ++ name);
   (SKILLS_DIR </> name </> "schema.input.json", name ++ " input schema");
   (SKILLS_DIR </> name </> "run.py", name ++ "/run.py");
   (SKILLS_DIR </> name </> "sample.input.json", name ++ " sample")] ++
  (if with_output then [(SKILLS_DIR </> name </> "schema.output.json", name ++ " output schema")]
   else []).

Definition demo_world : world :=
  mk_world
    (list_to_map (skill_files "compute_indices" true ++ skill_files "anti_hallucination_check" true
                  ++ skill_files "broken_skill" false ++ skill_files "strict_indices" true
                  ++ skill_files "lying_indices" true ++ skill_files "typo_indices" true
                  ++ [(SKILLS_DIR </> "README.md", "skills"); (SKILLS_DIR </> "_disabled" </> "skill.yaml", "x")]))
    (list_to_set ["/app"; "/app/runtime"; SKILLS_DIR; SKILLS_DIR </> "compute_indices";
                  SKILLS_DIR </> "anti_hallucination_check"; SKILLS_DIR </> "broken_skill";
                  SKILLS_DIR </> "strict_indices"; SKILLS_DIR </> "lying_indices";
                  SKILLS_DIR </> "typo_indices";
                  SKILLS_DIR </> "_disabled"])
    [].

(** A second directory with the three faulty skills. *)
Definition faulty_world : world :=
  mk_world
    (list_to_map (skill_files "failing_skill" true ++ skill_files "exiting_skill" true
                  ++ skill_files "hanging_skill" true))
    (list_to_set ["/app"; "/app/runtime"; SKILLS_DIR; SKILLS_DIR </> "failing_skill";
                  SKILLS_DIR </> "exiting_skill"; SKILLS_DIR </> "hanging_skill"])
    [].

Definition demo_final : outcome unit := main_bootstrap demo_world.

(** The world [main] leaves before idling. *)
Definition demo_final_world : world :=
  match demo_final with PRet _ w => w | _ => demo_world end.

(** ** An [indicators] table for the API *)

Definition demo_round (x : float) (_ : Z) : float := x.
Definition demo_iso (d : datetime) : string := NilZero.string_of_int (Z.to_int (dt_us d)).
Definition hour_us : Z := 3600000000.

Definition site_row (v : float) (t : option Z) : indicator_row :=
  mk_row "62581" "site" "omega_arag" (Some v) (Some 0.05%float) t.

Definition demo_rows : list indicator_row :=
  [site_row 2.5%float (Some (40 * hour_us)%Z); site_row 2.0%float (Some (100 * hour_us)%Z);
   site_row 2.3%float (Some (90 * hour_us)%Z);
   mk_row "other" "site" "omega_arag" (Some 1.0%float) None (Some (200 * hour_us)%Z);
   mk_row "62581" "site" "temperature" (Some 14.0%float) None (Some (300 * hour_us)%Z)].

Definition demo_env (rows : list indicator_row) : iob_env :=
  mk_iob_env (Some "postgresql://ocean@db/ocean") (mk_datetime (200 * hour_us) (Some 0%Z)) (Some rows).

Definition null_row : indicator_row := site_row 2.1%float None.
Definition nan_rows : list indicator_row := site_row PrimFloat.nan (Some (120 * hour_us)%Z) :: demo_rows.

(** Five days of hourly readings. *)
Definition hourly_rows : list indicator_row :=
  map (fun i => site_row 2.0%float (Some (Z.of_nat i * hour_us)%Z)) (seq 0 120).

Definition demo_card (rows : list indicator_row) : json :=
  match iob_card demo_round demo_iso "62581" None "site" (demo_env rows) with
  | Body j => j
  | HttpError _ _ => JNull
  end.

(** ** The MCP gateway's files *)

Definition rbac_text : string := "roles: [admin, analyst]".
Definition rbac_doc : json := JObj [("roles", JArr [JStr "admin"; JStr "analyst"])].
Definition mcp_rt : Runtime := demo_runtime ((rbac_text, rbac_doc) :: demo_docs) demo_sources.

Definition mcp_world : world :=
  mk_world
    (list_to_map [("/app/app/policies/rbac.yaml", rbac_text);
                  ("/app/app/servers/copernicus.json", "copernicus server");
                  ("/app/app/servers/.json", "hidden");
                  ("/app/app/servers/README.txt", "notes")])
    (list_to_set ["/app"; "/app/app"; "/app/app/policies"; "/app/app/servers"])
    [].

Definition mcp_admin : string := "s3cret".

(** ** A report that [export_report] writes over a skill's code *)

Definition report_kvs (out : string) : list (string * json) :=
  [("output_path", JStr out); ("title", JStr "Bilan"); ("zone_type", JStr "site");
        ("zone_id", JStr "62581"); ("period", JStr "2026-10");
        ("key_findings", JArr [JStr "Omega stable"]);
        ("indicators", JArr [JObj [("indicator_id", JStr "omega_arag"); ("value", JInt 2);
                                   ("truth_status", JStr "measured"); ("confidence", JStr "high");
                                   ("provenance", JObj [("data_version", JStr "v1")])]]);
        ("limitations", JArr []);
        ("sources", JArr [JObj [("source_name", JStr "SOMLIT"); ("notes", JStr "")]])].

Definition report_payload (out : string) : json := JObj (report_kvs out).

Definition hijack_path : string := SKILLS_DIR </> "compute_indices" </> "run.py".

(** The same file, as a caller may spell it. *)
Definition hijack_input : string := "/app/skills//compute_indices/./run.py".

Definition report_w1 : world :=
  match mkdir_parents (dirname hijack_path) demo_world with PRet _ w => w | _ => demo_world end.

Definition report_text_lines : list string :=
  match @ExportReport.report_lines demo_rt (report_payload hijack_path) report_w1 with
  | PRet ls _ => ls
  | _ => []
  end.

(** The report without its [title]. *)
Definition untitled_kvs : list (string * json) :=
  filter (fun kv => kv.1 <> "title") (report_kvs "/app/runtime/reports/r.md").

Definition untitled_w1 : world :=
  match mkdir_parents "/app/runtime/reports" demo_world with PRet _ w => w | _ => demo_world end.

(** ** Witnesses: the theorems at concrete inputs *)

(** Evaluate a closed side condition. *)
Ltac eval_side :=
  first [reflexivity | vm_compute; first [reflexivity | intros ?; discriminate | exact I]].

Definition ci_module : py_module := mk_module "skill_compute_indices" (Some ComputeIndices.run).

Definition ci_result : json :=
  match ComputeIndices.run ComputeIndices.spec_scenario_payload demo_world with
  | PRet r _ => r
  | _ => JNull
  end.

Lemma worker_folder_success_witness :
  worker_folder "compute_indices" demo_world =
  PRet tt (add_line (ok_line (JStr "compute_indices"))
             (set_files (<[artifact_path (JStr "compute_indices") := json_dumps ci_result]>
                           (w_files demo_world)) demo_world)).
Proof.
  eapply (worker_folder_success "compute_indices" demo_world demo_world ci_meta ci_in ci_out
           ci_module _ _ _ "compute_indices sample" ComputeIndices.spec_scenario_payload
           ComputeIndices.run ci_result demo_world (JStr "compute_indices")); eval_side.
  Unshelve. all: eval_side.
Defined.

Lemma worker_folder_invalid_input_witness :
  worker_folder "strict_indices" demo_world =
  PRet tt (add_line (error_line "strict_indices"
                       (mk_exn ValidationError "'temp_c' is a required property")) demo_world).
Proof.
  eapply (worker_folder_invalid_input "strict_indices" demo_world demo_world
           (JObj [("id", JStr "strict_indices")]) ci_in ci_out
           (mk_module "skill_strict_indices" (Some ComputeIndices.run)) _ _ _
           "strict_indices sample" (JObj [("site_id", JStr "Z1")])); eval_side.
  Unshelve. all: eval_side.
Defined.

Lemma worker_folder_skill_exception_witness :
  worker_folder "failing_skill" faulty_world =
  PRet tt (add_line (error_line "failing_skill" (mk_exn ValueError "bad reading")) faulty_world).
Proof.
  eapply (worker_folder_skill_exception "failing_skill" faulty_world faulty_world
           (JObj [("id", JStr "failing_skill")]) (JBool true) (JBool true)
           (mk_module "skill_failing_skill" (Some failing_run)) _ _ _
           "failing_skill sample" (JObj []) failing_run); eval_side.
  Unshelve. all: eval_side.
Defined.

Lemma worker_folder_base_exception_escapes_witness :
  worker_folder "exiting_skill" faulty_world = PRaise (mk_exn SystemExit "1") faulty_world.
Proof.
  eapply (worker_folder_base_exception_escapes "exiting_skill" faulty_world faulty_world
           (JObj [("id", JStr "exiting_skill")]) (JBool true) (JBool true)
           (mk_module "skill_exiting_skill" (Some exiting_run)) _ _ _
           "exiting_skill sample" (JObj []) exiting_run); eval_side.
  Unshelve. all: eval_side.
Defined.

Lemma worker_folder_skill_hangs_witness : worker_folder "hanging_skill" faulty_world = PHang.
Proof.
  eapply (worker_folder_skill_hangs "hanging_skill" faulty_world faulty_world
           (JObj [("id", JStr "hanging_skill")]) (JBool true) (JBool true)
           (mk_module "skill_hanging_skill" (Some hanging_run)) _ _ _
           "hanging_skill sample" (JObj []) hanging_run); eval_side.
  Unshelve. all: eval_side.
Defined.

Definition ci_result_fields : list (string * json) :=
  match ci_result with JObj kvs => kvs | _ => [] end.

Definition lying_result : json :=
  match ComputeIndices.run ComputeIndices.spec_scenario_payload demo_world with
  | PRet r _ => r
  | _ => JNull
  end.

Lemma worker_folder_invalid_output_witness :
  worker_folder "lying_indices" demo_world =
  PRet tt (add_line (error_line "lying_indices"
                       (mk_exn ValidationError "value is not one of the enumeration")) demo_world).
Proof.
  eapply (worker_folder_invalid_output "lying_indices" demo_world demo_world
           (JObj [("id", JStr "lying_indices")]) ci_in lying_out
           (mk_module "skill_lying_indices" (Some ComputeIndices.run)) _ _ _
           "lying_indices sample" ComputeIndices.spec_scenario_payload ComputeIndices.run
           lying_result demo_world); eval_side.
  Unshelve. all: eval_side.
Defined.

Definition broken_missing : exn :=
  mk_exn FileNotFoundError "[Errno 2] No such file or directory: '/app/skills/broken_skill/schema.output.json'".

Lemma worker_folder_load_error_witness :
  worker_folder "broken_skill" demo_world =
  PRet tt (add_line (error_line "broken_skill" broken_missing) demo_world).
Proof. eapply (worker_folder_load_error "broken_skill" demo_world); eval_side. Defined.

Lemma worker_folder_missing_output_schema_witness :
  exists e, worker_folder "broken_skill" demo_world =
            PRet tt (add_line (error_line "broken_skill" e) demo_world).
Proof.
  eapply (worker_folder_missing_output_schema "broken_skill" demo_world "id: broken_skill"
            (JObj [("id", JStr "broken_skill")]) "broken_skill input schema" (JBool true));
    eval_side.
Defined.

Lemma worker_folder_skip_witness :
  worker_folder "_disabled" demo_world = PRet tt demo_world /\
  worker_folder "README.md" demo_world = PRet tt demo_world.
Proof.
  split.
  - apply worker_folder_skip. right. reflexivity.
  - apply worker_folder_skip. left. eval_side.
Defined.

Lemma main_loop_listing_order_witness :
  main_loop ["compute_indices"; "broken_skill"] = main_loop ["broken_skill"; "compute_indices"].
Proof. apply main_loop_listing_order. apply perm_swap. Defined.

Lemma driver_idle_forever_witness :
  (Idle, demo_final_world) = (Idle, demo_final_world) /\
  step (Idle, demo_final_world) (Idle, demo_final_world).
Proof. apply driver_idle_forever. apply star_refl. Defined.

(** A runtime whose skills all return or raise: [compute_indices] and
    the two skills that raise. *)
Definition total_sources : list (string * (json -> py json)) :=
  [("compute_indices/run.py", ComputeIndices.run);
   ("failing_skill/run.py", failing_run);
   ("exiting_skill/run.py", exiting_run)].

Definition total_rt : Runtime := demo_runtime demo_docs total_sources.

Lemma total_exec nm src : py_returns module_total (@exec_module total_rt nm src).
Proof.
  intros w. cbn [exec_module total_rt demo_runtime]. unfold demo_exec.
  destruct (assoc_lookup src total_sources) as [f|] eqn:Hf; [|done].
  intros f' [= <-] x. cbn in Hf. repeat case_match; simplify_eq;
    [apply py_pure_returns, ComputeIndices.run_pure|apply py_returns_raise..].
Qed.

Lemma main_bootstrap_terminates_witness :
  @main_bootstrap total_rt faulty_world <> PHang.
Proof. exact (@main_bootstrap_terminates total_rt total_exec faulty_world). Defined.

Lemma driver_crash_only_base_exception_witness :
  is_exception (exn_class (mk_exn SystemExit "1")) = false.
Proof.
  apply (driver_crash_only_base_exception ["exiting_skill"; "failing_skill"] faulty_world
           (mk_exn SystemExit "1") faulty_world).
  eapply star_step; [constructor; eval_side|apply star_refl].
Defined.

Lemma demo_validate_is_model i s : @jsonschema_validate demo_rt i s = jsonschema_model i s.
Proof. reflexivity. Qed.

Lemma worker_rejects_missing_required_witness :
  exists e, worker_folder "strict_indices" demo_world =
            PRet tt (add_line (error_line "strict_indices" e) demo_world).
Proof.
  eapply (worker_rejects_missing_required demo_validate_is_model "strict_indices" demo_world
            demo_world (JObj [("id", JStr "strict_indices")]) ci_out ci_in_kw
            (mk_module "skill_strict_indices" (Some ComputeIndices.run)) "strict_indices sample"
            [("site_id", JStr "Z1")]) with (ks := map JStr ["site_id"; "temp_c"; "ph_total"; "salinity_psu"]) (k := "temp_c");
    try eval_side; simpl; tauto.
Defined.

Lemma worker_rejects_wrong_type_witness :
  exists e, worker_folder "typo_indices" demo_world =
            PRet tt (add_line (error_line "typo_indices" e) demo_world).
Proof.
  eapply (worker_rejects_wrong_type demo_validate_is_model "typo_indices" demo_world
            demo_world (JObj [("id", JStr "typo_indices")]) ci_out ci_in_kw
            (mk_module "skill_typo_indices" (Some ComputeIndices.run)) "typo_indices sample")
    with (props := ci_in_props) (sub_kw := [("type", JStr "string")]) (p := "site_id")
         (t := "string") (v := JInt 7);
    try eval_side; simpl; tauto.
Defined.

Lemma worker_rejects_output_outside_enum_witness :
  exists e, worker_folder "lying_indices" demo_world =
            PRet tt (add_line (error_line "lying_indices" e) demo_world).
Proof.
  eapply (worker_rejects_output_outside_enum demo_validate_is_model "lying_indices" demo_world
            demo_world demo_world (JObj [("id", JStr "lying_indices")]) ci_in lying_out_kw
            (mk_module "skill_lying_indices" (Some ComputeIndices.run)) "lying_indices sample"
            ComputeIndices.spec_scenario_payload ComputeIndices.run ci_result_fields)
    with (props := [("truth_status", JObj [("enum", JArr [JStr "measured"])])])
         (sub_kw := [("enum", JArr [JStr "measured"])]) (p := "truth_status")
         (v := JStr "inferred") (vs := [JStr "measured"]);
    try eval_side; simpl; tauto.
Defined.

Definition ci_written : world :=
  add_line (ok_line (JStr "compute_indices"))
    (set_files (<[artifact_path (JStr "compute_indices") := json_dumps (JObj ci_result_fields)]>
                  (w_files demo_world)) demo_world).

Lemma worker_artifact_has_required_witness :
  assoc_lookup "IRisk" ci_result_fields <> None.
Proof.
  apply (worker_artifact_has_required demo_validate_is_model "compute_indices" demo_world
           demo_world demo_world ci_written ci_meta ci_in ci_out_kw ci_module
           "compute_indices sample" ComputeIndices.spec_scenario_payload ComputeIndices.run
           ci_result_fields)
    with (ks := map JStr ["site_id"; "IT"; "IA"; "IS"; "IExp"; "IVul"; "IRisk"; "truth_status"]);
    first [apply (bool_decide_eq_false_1 (w_files ci_written = w_files demo_world));
           vm_compute; reflexivity
          | eval_side
          | simpl; tauto].
Defined.

Lemma run_indices_in_unit_witness :
  demo_world = demo_world /\
  Forall (fun k => exists v, json_field k ci_result = Some (JFloat v) /\ ComputeIndices.in_unit v)
         ["IT"; "IA"; "IS"; "IExp"; "IRisk"]%string.
Proof.
  apply (ComputeIndices.run_indices_in_unit ComputeIndices.spec_scenario_payload).
  eval_side.
Defined.

Lemma anti_hallucination_any_evidence_passes_witness :
  AntiHallucination.run (JObj [("claims", JArr [JStr "x"; JStr "y"]);
                               ("evidence_ids", JArr [JStr "doc-17"])]) demo_world =
  PRet (JObj [("status", JStr "pass"); ("missing_evidence", JArr []);
              ("notes", JStr AntiHallucination.pass_notes)]) demo_world.
Proof.
  apply (AntiHallucination.anti_hallucination_any_evidence_passes _ [JStr "doc-17"]
           [JStr "x"; JStr "y"]); eval_side.
Defined.

Lemma anti_hallucination_no_evidence_witness :
  AntiHallucination.run ah_sample demo_world =
  PRet (JObj [("status", JStr "needs_review"); ("missing_evidence", JArr [JStr "x"]);
              ("notes", JStr AntiHallucination.review_notes)]) demo_world.
Proof.
  apply (AntiHallucination.anti_hallucination_no_evidence _ [JStr "x"]); eval_side.
Defined.

Lemma compute_iob_error_witness :
  compute_iob demo_round 2.0%float PrimFloat.nan 2.0%float = HttpError 400 "omega_24h must be a finite number".
Proof.
  apply (proj2 (compute_iob_error demo_round 2.0%float PrimFloat.nan 2.0%float 400 _)).
  split; [reflexivity|]. right; left. split_and!; reflexivity.
Defined.

Lemma compute_iob_level_range_witness :
  exists l, json_field "iob_level"
              match compute_iob demo_round 1.8%float 2.1%float 2.0%float with Body j => j | _ => JNull end = Some (JInt l) /\
    (0 <= l <= 3)%Z /\ (Z.abs (l - iob_base_level 1.8%float) <= 1)%Z.
Proof. apply compute_iob_level_range; reflexivity. Defined.

Lemma compute_iob_trend_witness :
  json_field "iob_level" match compute_iob demo_round 1.8%float 2.1%float 2.0%float with
                         | Body j => j | _ => JNull end = Some (JInt 3).
Proof. apply (compute_iob_trend demo_round 1.8%float 2.1%float 2.0%float); reflexivity. Defined.

Lemma iob_card_database_url_missing_witness :
  iob_card demo_round demo_iso "62581" None "site"
    (mk_iob_env None (mk_datetime 0 None) (Some demo_rows)) =
  HttpError 500 "DATABASE_URL is not configured".
Proof. apply iob_card_database_url_missing. by left. Defined.

Lemma iob_card_null_time_end_no_data_witness :
  iob_card demo_round demo_iso "62581" None "site" (demo_env (demo_rows ++ [null_row])) =
  Body (no_data_body demo_iso (resolve_zone "62581" None) "site"
          (env_now (demo_env (demo_rows ++ [null_row])))).
Proof.
  apply (iob_card_null_time_end_no_data _ _ _ _ _ _ "postgresql://ocean@db/ocean"
           (demo_rows ++ [null_row]) null_row); try reflexivity.
  - discriminate.
  - apply in_or_app. right. by left.
Defined.

Lemma iob_card_fallback_never_used_witness :
  exists h, json_field "history" (demo_card demo_rows) = Some (JObj h) /\
    assoc_lookup "fallback" h =
      Some (JObj [("omega_24h", JStr "median_window"); ("omega_72h", JStr "median_window")]).
Proof.
  apply (iob_card_fallback_never_used demo_round demo_iso "62581" None "site" (demo_env demo_rows));
    vm_compute; reflexivity.
Defined.

Lemma iob_card_risk_matches_level_witness :
  exists l, json_field "iob_level" (demo_card demo_rows) = Some (JInt l) /\ (0 <= l <= 3)%Z /\
    json_field "risk_status" (demo_card demo_rows) = Some (JStr (card_status (get_iob_card_copy l))) /\
    json_field "title" (demo_card demo_rows) = Some (JStr (card_title (get_iob_card_copy l))) /\
    json_field "description" (demo_card demo_rows) =
      Some (JStr (card_description (get_iob_card_copy l))) /\
    json_field "action" (demo_card demo_rows) = Some (JStr (card_action (get_iob_card_copy l))).
Proof.
  apply (iob_card_risk_matches_level demo_round demo_iso "62581" None "site" (demo_env demo_rows));
    vm_compute; reflexivity.
Defined.

Lemma iob_card_non_finite_reading_witness :
  iob_card demo_round demo_iso "62581" None "site" (demo_env nan_rows) =
  HttpError 400 "omega_now must be a finite number".
Proof.
  apply (iob_card_non_finite_reading _ _ _ _ _ _ "postgresql://ocean@db/ocean" nan_rows
           (site_row PrimFloat.nan (Some (120 * hour_us)%Z)) PrimFloat.nan (120 * hour_us)%Z);
    try reflexivity; discriminate.
Defined.

Lemma iob_card_reports_latest_witness :
  exists table r v t, env_indicators (demo_env demo_rows) = Some table /\ In r table /\
    row_matches (resolve_zone "62581" None) "site" r = true /\
    row_value r = Some v /\ row_time_end r = Some t /\
    (forall r', In r' table -> row_matches (resolve_zone "62581" None) "site" r' = true ->
       exists t', row_time_end r' = Some t' /\ (t' <= t)%Z) /\
    json_field "omega_now" (demo_card demo_rows) = Some (JFloat (demo_round v 2)) /\
    json_field "timestamp" (demo_card demo_rows) = Some (JStr (demo_iso (mk_datetime t (Some 0%Z)))).
Proof.
  apply (iob_card_reports_latest demo_round demo_iso "62581" None "site" (demo_env demo_rows));
    vm_compute; reflexivity.
Defined.


(** Five days of hourly readings still report ["stabilizing"]: the 72 h
    window never spans 72 h. *)
Example iob_card_five_days_stabilizing :
  (json_field "history" (demo_card hourly_rows) ≫= json_field "reliability") =
    Some (JStr "stabilizing") /\
  json_field "status" (demo_card hourly_rows) = Some (JStr "active").
Proof. split; vm_compute; reflexivity. Qed.

Lemma iob_card_key_order_witness :
  exists kvs h, demo_card demo_rows = JObj kvs /\
    map fst kvs = ["zone"; "zone_id"; "zone_type"; "timestamp"; "omega_now"; "omega_24h";
                   "omega_72h"; "delta_24h"; "delta_72h"; "unc"; "status"; "history";
                   "iob_level"; "risk_status"; "title"; "description"; "action"] /\
    assoc_lookup "history" kvs = Some (JObj h) /\
    map fst h = ["hours"; "progress"; "reliability"; "fallback"].
Proof.
  apply (iob_card_key_order demo_round demo_iso "62581" None "site" (demo_env demo_rows));
    vm_compute; reflexivity.
Defined.

Lemma iob_card_reports_window_medians_witness :
  exists table r v t m24 m72,
    env_indicators (demo_env demo_rows) = Some table /\
    query_latest table "62581" "site" = Some r /\
    row_value r = Some v /\ row_time_end r = Some t /\
    fst (query_window table "62581" "site" (mk_datetime t (Some 0%Z)) 24) = Some m24 /\
    fst (query_window table "62581" "site" (mk_datetime t (Some 0%Z)) 72) = Some m72 /\
    json_field "omega_24h" (demo_card demo_rows) = Some (JFloat (demo_round m24 2)) /\
    json_field "omega_72h" (demo_card demo_rows) = Some (JFloat (demo_round m72 2)) /\
    json_field "delta_24h" (demo_card demo_rows) = Some (JFloat (demo_round (v - m24)%float 3)) /\
    json_field "delta_72h" (demo_card demo_rows) = Some (JFloat (demo_round (v - m72)%float 3)).
Proof.
  apply (iob_card_reports_window_medians demo_round demo_iso "62581" None "site"
           (demo_env demo_rows)); vm_compute; reflexivity.
Defined.

Lemma mcp_endpoints_require_admin_witness :
  mcp_admin <> "" /\ Some mcp_admin = Some mcp_admin.
Proof.
  apply (@Mcp.mcp_endpoints_require_admin mcp_rt mcp_admin (Some mcp_admin) mcp_world
           (JObj [("rbac", rbac_doc)])).
  left. reflexivity.
Defined.

Lemma servers_lists_json_files_witness :
  Mcp.servers mcp_admin (Some mcp_admin) mcp_world =
    Some (Body (JObj (map (fun n => (n, JStr (default "" (w_files mcp_world !! (Mcp.BASE </> "servers" </> n)))))
                          (List.filter (Mcp.ends_with ".json") (children (Mcp.BASE </> "servers") mcp_world))))).
Proof.
  apply Mcp.servers_lists_json_files.
  - discriminate.
  - cbn [w_dirs mcp_world]. apply elem_of_list_to_set, list_elem_of_In. simpl. tauto.
  - assert (E : List.filter (Mcp.ends_with ".json") (children (Mcp.BASE </> "servers") mcp_world)
                = ["copernicus.json"; ".json"]) by (vm_compute; reflexivity).
    rewrite E. intros n [<-|[<-|[]]]; vm_compute; eexists; reflexivity.
Defined.

Lemma policies_rbac_witness :
  (forall txt j, w_files mcp_world !! (Mcp.BASE </> "policies" </> "rbac.yaml") = Some txt ->
     @yaml_safe_load mcp_rt txt = Ok j ->
     @Mcp.policies mcp_rt mcp_admin (Some mcp_admin) mcp_world = Some (Body (JObj [("rbac", j)]))) /\
  (w_files mcp_world !! (Mcp.BASE </> "policies" </> "rbac.yaml") = None ->
     @Mcp.policies mcp_rt mcp_admin (Some mcp_admin) mcp_world = Some (HttpError 500 "Internal Server Error")).
Proof. apply Mcp.policies_rbac. discriminate. Defined.

Lemma export_report_writes_output_path_witness :
  @ExportReport.run demo_rt (report_payload hijack_input) demo_world =
    PRet (JObj [("status", JStr "ok"); ("written_to", JStr (py_normpath hijack_input))])
         (set_files (<[py_normpath hijack_input := String.concat nl report_text_lines]>
                       (w_files report_w1)) report_w1).
Proof.
  apply (@ExportReport.export_report_writes_output_path demo_rt (report_kvs hijack_input)).
  - reflexivity.
  - reflexivity.
  - reflexivity.
  - cbn [set_files report_w1]. apply (bool_decide_eq_false_1 (py_normpath hijack_input ∈ _)).
    vm_compute. reflexivity.
Defined.


Lemma export_report_error_after_mkdir_witness :
  @ExportReport.run demo_rt (JObj untitled_kvs) demo_world = PRaise (mk_exn KeyError "'title'") untitled_w1 /\
  dirname "/app/runtime/reports/r.md" ∈ w_dirs untitled_w1 /\ w_files untitled_w1 = w_files demo_world.
Proof.
  apply (@ExportReport.export_report_error_after_mkdir demo_rt untitled_kvs
           "/app/runtime/reports/r.md"); reflexivity.
Defined.

Lemma iob_card_body_typed_witness : jsonschema_model (demo_card demo_rows) iob_card_schema = None.
Proof.
  apply (iob_card_body_typed demo_round demo_iso "62581" None "site" (demo_env demo_rows)).
  vm_compute. reflexivity.
Defined.

(** A concrete pydantic float parser for the witnesses: a table. *)
Definition demo_parse (s : string) : option float :=
  if String.eqb s "2.1" then Some 2.1%float else None.

Definition demo_http : list log_event * response :=
  handle demo_round demo_iso demo_parse "" JNull "" "" "" (demo_env demo_rows) "GET" "/api/v1/iob/card" [].

Lemma handle_iob_card_typed_witness :
  demo_http.1 = [request_event "GET" "/api/v1/iob/card"; response_event "GET" "/api/v1/iob/card" 200] /\
  iob_card demo_round demo_iso (default "62581" (query_param "zone_id" [])) (query_param "station_id" [])
    (default "site" (query_param "zone_type" [])) (demo_env demo_rows) = Body (demo_card demo_rows) /\
  jsonschema_model (demo_card demo_rows) iob_card_schema = None.
Proof.
  apply (handle_iob_card_typed demo_round demo_iso demo_parse "" JNull "" "" "" (demo_env demo_rows) "GET" []).
  vm_compute. reflexivity.
Defined.
